(** * stata_self: the data generator, the answer key and the routes of [app.py]

    A shallow embedding of [src/app.py]: the two core functions
    [generuj_dane_studenta] (data generation from a student identifier) and
    [oblicz_poprawne_statystyki] (the answer key), the helpers [ocen_sile],
    [ocen_kierunek] and [format_r_z_gwiazdkami], and the four routes
    [index], [pobierz_csv], [pobierz_sav] and [sprawdz].

    Modelling conventions.
    - A Python [str] is a list of Unicode code points ([pystr]); a [bytes]
      object is a [list byte]; ASCII-only strings built by the program
      (dictionary keys, labels, formatted numbers) are Rocq [string]s.
    - A Python [float] is a value of the type [float]: a finite number by
      its exact rational value (every double is one), the negative zero, an
      infinity or NaN.
    - A Python [int] is a [Z].
    - An exception is a value [Raise e] of the type [result]; code that reads
      or writes the process-wide numpy generator runs in the monad [py].
    - Functions of hashlib, numpy, pandas, scipy and statsmodels are not part
      of the repository: they are the fields of the record [Libraries], and
      the part of their documented contract that a property relies on is a
      hypothesis of that property. *)

From Stdlib Require Import ZArith NArith QArith Qround Qabs String Ascii List Lia Lqa Permutation.
From Stdlib Require Import Strings.Byte DecimalString DecimalN.
From stdpp Require Import base gmap strings list.

Local Open Scope Z_scope.

(** ** Exceptions *)

Inductive exn : Type :=
  | UnicodeEncodeError
  | ValueError
  | KeyError
  | TypeError
  | LibraryError.

Inductive result (A : Type) : Type :=
  | Ok (a : A)
  | Raise (e : exn).
Arguments Ok {A} a.
Arguments Raise {A} e.

Global Instance result_ret : MRet result := fun A a => Ok a.
Global Instance result_bind : MBind result := fun A B f m =>
  match m with
  | Ok a => f a
  | Raise e => Raise e
  end.

Definition succeeds {A} (m : result A) : Prop := exists a, m = Ok a.

Definition is_ok {A} (m : result A) : bool :=
  match m with Ok _ => true | Raise _ => false end.

(** Code that uses the global generator of [numpy.random]: a computation takes
    the generator state and returns an outcome and the state it leaves. *)
Definition py (S A : Type) : Type := S -> result A * S.

Global Instance py_ret {S} : MRet (py S) := fun A a s => (Ok a, s).
Global Instance py_bind {S} : MBind (py S) := fun A B f m s =>
  match m s with
  | (Ok a, s') => f a s'
  | (Raise e, s') => (Raise e, s')
  end.

Definition lift {S A} (m : result A) : py S A := fun s => (m, s).
Definition put {S} (s : S) : py S unit := fun _ => (Ok tt, s).

(** ** Python strings and their UTF-8 encoding *)

(** A [str] is a sequence of code points, each at most U+10FFFF. *)
Definition pystr : Type := list N.

Definition is_surrogate (c : N) : bool := ((0xD800 <=? c) && (c <=? 0xDFFF))%N.

Definition byte_of_N (n : N) : byte := byte_of_ascii (ascii_of_N n).

(** [c.encode('utf-8')] for one code point, with the default [strict] error
    handler: a surrogate code point cannot be encoded. *)
Definition utf8_encode_cp (c : N) : result (list byte) :=
  (if c <? 0x80 then
     Ok [byte_of_N c]
   else if c <? 0x800 then
     Ok [byte_of_N (N.lor 0xC0 (N.shiftr c 6));
         byte_of_N (N.lor 0x80 (N.land c 0x3F))]
   else if c <? 0x10000 then
     if is_surrogate c then Raise UnicodeEncodeError
     else
       Ok [byte_of_N (N.lor 0xE0 (N.shiftr c 12));
           byte_of_N (N.lor 0x80 (N.land (N.shiftr c 6) 0x3F));
           byte_of_N (N.lor 0x80 (N.land c 0x3F))]
   else
     Ok [byte_of_N (N.lor 0xF0 (N.shiftr c 18));
         byte_of_N (N.lor 0x80 (N.land (N.shiftr c 12) 0x3F));
         byte_of_N (N.lor 0x80 (N.land (N.shiftr c 6) 0x3F));
         byte_of_N (N.lor 0x80 (N.land c 0x3F))])%N.

(** [s.encode('utf-8')] *)
Fixpoint encode_utf8 (s : pystr) : result (list byte) :=
  match s with
  | [] => Ok []
  | c :: s' =>
      bs ← utf8_encode_cp c;
      rest ← encode_utf8 s';
      Ok (bs ++ rest)
  end.

(** The code points of an ASCII literal, to write identifiers in examples. *)
Fixpoint pystr_of_string (s : string) : pystr :=
  match s with
  | EmptyString => []
  | String a s' => N_of_ascii a :: pystr_of_string s'
  end.

(** ** Hexadecimal digests and [int(_, 16)] *)

Definition hex_digit (n : N) : ascii :=
  nth (N.to_nat n) (list_ascii_of_string "0123456789abcdef") "0"%char.

(** Two lowercase hexadecimal digits per byte, high nibble first. *)
Definition hex_of_byte (b : byte) : string :=
  String (hex_digit (Byte.to_N b / 16)) (String (hex_digit (Byte.to_N b mod 16)) EmptyString).

(** [h.hexdigest()] for a digest [d] *)
Fixpoint hexdigest (d : list byte) : string :=
  match d with
  | [] => EmptyString
  | b :: d' => hex_of_byte b +:+ hexdigest d'
  end.

(** The value of one hexadecimal digit, either case; [None] for any other
    character. *)
Definition hex_value (c : ascii) : option Z :=
  let n := Z.of_N (N_of_ascii c) in
  if (48 <=? n) && (n <=? 57) then Some (n - 48)
  else if (97 <=? n) && (n <=? 102) then Some (n - 87)
  else if (65 <=? n) && (n <=? 70) then Some (n - 55)
  else None.

Fixpoint int16_digits (s : string) (acc : Z) : result Z :=
  match s with
  | EmptyString => Ok acc
  | String c s' =>
      match hex_value c with
      | Some d => int16_digits s' (16 * acc + d)
      | None => Raise ValueError
      end
  end.

(** [int(s, 16)] on a string of hexadecimal digits: [ValueError] on the empty
    string and on any other character.  (The sign, prefix, underscore and
    whitespace forms that [int] also accepts never occur in a hexdigest.) *)
Definition int_base16 (s : string) : result Z :=
  match s with
  | EmptyString => Raise ValueError
  | _ => int16_digits s 0
  end.

(** The big-endian value of a byte sequence. *)
Definition be_value (d : list byte) : Z :=
  fold_left (fun acc b => 256 * acc + Z.of_N (Byte.to_N b)) d 0.

(** ** Rounding and clipping *)

(** The nearest integer, a tie going to the even neighbour. *)
Definition rint (q : Q) : Z :=
  let f := Qfloor q in
  match (q - inject_Z f ?= 1 # 2)%Q with
  | Lt => f
  | Gt => f + 1
  | Eq => if Z.even f then f else f + 1
  end.

(** [np.clip(x, lo, hi)] is [minimum(maximum(x, lo), hi)]. *)
Definition clip (x lo hi : Z) : Z := Z.min (Z.max x lo) hi.

(** [z] is an integer nearest to [q], and the even one when [q] lies halfway
    between two integers. *)
Definition nearest_even (q : Q) (z : Z) : Prop :=
  (q - (1 # 2) <= inject_Z z <= q + (1 # 2))%Q /\
  ((inject_Z z == q - (1 # 2) \/ inject_Z z == q + (1 # 2))%Q -> Z.even z = true).

(** ** Floats *)

(** Comparisons of rationals. *)
Definition Qltb (a b : Q) : bool :=
  match (a ?= b)%Q with Lt => true | _ => false end.
Definition Qgeb (a b : Q) : bool := negb (Qltb a b).

(** A Python [float]: a finite number by its exact value, the negative zero,
    an infinity, or NaN.  [Finite 0] is the positive zero.  Every double
    other than these is [Finite q] for a rational [q]; the properties are
    stated for all rationals. *)
Inductive float : Type :=
  | Finite (q : Q)
  | NegZero
  | Inf (negative : bool)
  | NaN.

(** [x < c], [x > c] and [x >= c] for a finite constant [c]; each is false
    when [x] is NaN. *)
Definition float_lt (x : float) (c : Q) : bool :=
  match x with
  | Finite q => Qltb q c
  | NegZero => Qltb 0 c
  | Inf negative => negative
  | NaN => false
  end.

Definition float_gt (x : float) (c : Q) : bool :=
  match x with
  | Finite q => Qltb c q
  | NegZero => Qltb c 0
  | Inf negative => negb negative
  | NaN => false
  end.

Definition float_ge (x : float) (c : Q) : bool :=
  match x with
  | Finite q => Qgeb q c
  | NegZero => Qgeb 0 c
  | Inf negative => negb negative
  | NaN => false
  end.

(** [abs(x)] *)
Definition float_abs (x : float) : float :=
  match x with
  | Finite q => Finite (Qabs q)
  | NegZero => Finite 0
  | Inf _ => Inf false
  | NaN => NaN
  end.

(** [bool(x)]: false for the two zeros only. *)
Definition float_bool (x : float) : bool :=
  match x with
  | Finite q => negb (Qeq_bool q 0)
  | NegZero => false
  | Inf _ | NaN => true
  end.

(** The literal [0.3] of the program: the double nearest to 3/10, which is
    5404319552844595 / 2^54 and lies below 3/10.  The other literals that
    the program compares with are written as decimals: 0.5 is a double, and
    the doubles of 0.1, 0.05, 0.01 and 0.001 lie above the decimal with no
    double in between, so that a double is below the literal exactly when it
    is below the decimal. *)
Definition float_0_3 : Q := 5404319552844595 # 18014398509481984.

(** [np.rint] on one value: a zero result keeps the sign of [x]. *)
Definition np_rint (x : float) : float :=
  match x with
  | Finite q =>
      if (rint q =? 0) && Qltb q 0 then NegZero else Finite (inject_Z (rint q))
  | _ => x
  end.

(** The integer part, towards zero. *)
Definition Qtrunc (q : Q) : Z := if Qltb q 0 then Qceiling q else Qfloor q.

(** [.astype(int)] on one value, to int64: the integer part; a value outside
    int64, an infinity and NaN are converted to -2**63, which is what the
    conversion instruction of x86-64 gives (numpy leaves this case to the
    platform). *)
Definition astype_int (x : float) : Z :=
  match x with
  | Finite q =>
      let z := Qtrunc q in
      if (- 2 ^ 63 <=? z) && (z <? 2 ^ 63) then z else - 2 ^ 63
  | NegZero => 0
  | Inf _ | NaN => - 2 ^ 63
  end.

(** ** Values *)

(** The values stored in the answer key: a float, an integer, a string, or
    the Series that a method gives when it is called on a DataFrame. *)
#[local] Unset Elimination Schemes.
Inductive value : Type :=
  | VFloat (x : float)
  | VInt (z : Z)
  | VStr (s : string)
  | VSeries (vs : list value).
#[local] Set Elimination Schemes.

(** [klucz[k]] as an expression: [KeyError] for a missing key. *)
Definition dict_get (klucz : gmap string value) (k : string) : result value :=
  match klucz !! k with
  | Some v => Ok v
  | None => Raise KeyError
  end.

(** [if v < c:] for a float [c]: [TypeError] when [v] is a string; for a
    Series the comparison gives a Series, whose truth value is refused with
    [ValueError]. *)
Definition value_lt (v : value) (c : Q) : result bool :=
  match v with
  | VFloat x => Ok (float_lt x c)
  | VInt z => Ok (Qltb (inject_Z z) c)
  | VStr _ => Raise TypeError
  | VSeries _ => Raise ValueError
  end.

(** [bool(v)], which [v or 1] asks for: pandas refuses the truth value of a
    Series with [ValueError]. *)
Definition value_bool (v : value) : result bool :=
  match v with
  | VFloat x => Ok (float_bool x)
  | VInt z => Ok (negb (z =? 0))
  | VStr s => Ok (match s with EmptyString => false | _ => true end)
  | VSeries _ => Raise ValueError
  end.

(** ** The libraries the program calls *)

(** The arrays of [scipy.stats.spearmanr], read by [a[i, j]]. *)
Definition matrix : Type := nat -> nat -> float.

(** What [stats.spearmanr(table)] returns: the arrays of coefficients and of
    p-values, one row and one column per column of the table; or two
    scalars, which scipy returns for some degenerate tables. *)
Inductive spearman_result : Type :=
  | Arrays (rho p_matrix : matrix)
  | Scalars (rho p : float).

(** What [df[name]] returns: the column as a Series when one column has
    that name, a DataFrame of the columns of that name when several have. *)
Inductive selection : Type :=
  | Series (xs : list Z)
  | Frame (columns : list (list Z)).

Record Libraries : Type := {
  (** [hashlib.md5(m).digest()] *)
  md5 : list byte -> list byte;
  (** the state of the process-wide generator of [numpy.random], the state
      that [np.random.seed(s)] installs for a seed in range, and
      [np.random.multivariate_normal(mean, cov, size=n)], which reads the
      state and leaves it advanced *)
  rng_state : Type;
  mt_seed : Z -> rng_state;
  multivariate_normal :
    list Q -> list (list Q) -> nat -> rng_state -> list (list float) * rng_state;
  (** the methods [mean], [median], [std], [skew], [kurt], [min] and [max]
      of what [df[name]] returned *)
  series_mean : selection -> value;
  series_median : selection -> value;
  series_std : selection -> value;
  series_skew : selection -> value;
  series_kurt : selection -> value;
  series_min : selection -> value;
  series_max : selection -> value;
  (** what the arithmetic of pandas returns, and [series - m] and [a / d];
      each may raise *)
  array : Type;
  series_sub : selection -> value -> result array;
  series_div : array -> value -> result array;
  (** whether [statsmodels] could be imported when the module was loaded *)
  HAS_STATSMODELS : bool;
  (** [lilliefors(series, dist='norm')], [stats.kstest(z, 'norm')] and
      [stats.spearmanr(table)]; each may raise *)
  lilliefors : selection -> result (float * float);
  kstest_norm : array -> result (float * float);
  spearmanr : list (list Z) -> result spearman_result
}.

(** ** 1. Data generation ([generuj_dane_studenta]) *)

(** A [pandas.DataFrame] of integers: the column names and the rows. *)
Record DataFrame : Type := {
  df_columns : list string;
  df_values : list (list Z)
}.

(** [pd.DataFrame(data, columns=cols)]: [ValueError] when a row has another
    number of fields than there are column names. *)
Definition pd_DataFrame (data : list (list Z)) (cols : list string) : result DataFrame :=
  if forallb (fun row => Nat.eqb (length row) (length cols)) data
  then Ok {| df_columns := cols; df_values := data |}
  else Raise ValueError.

Fixpoint index_of (name : string) (names : list string) : option nat :=
  match names with
  | [] => None
  | x :: rest => if String.eqb x name then Some O else S <$> index_of name rest
  end.

(** The positions of the columns called [name], counted from [i]. *)
Fixpoint positions (name : string) (names : list string) (i : nat) : list nat :=
  match names with
  | [] => []
  | x :: rest =>
      if String.eqb x name then i :: positions name rest (S i)
      else positions name rest (S i)
  end.

(** The column at position [i]. *)
Definition column (df : DataFrame) (i : nat) : list Z :=
  map (fun row => nth i row 0) (df_values df).

(** [df[col_name]]: [KeyError] for an unknown name, a Series for the name of
    one column, a DataFrame for a name that several columns have. *)
Definition df_col (df : DataFrame) (col_name : string) : result selection :=
  match positions col_name (df_columns df) 0 with
  | [] => Raise KeyError
  | [i] => Ok (Series (column df i))
  | i :: rest => Ok (Frame (map (column df) (i :: rest)))
  end.

(** The columns of a selection. *)
Definition selection_columns (s : selection) : list (list Z) :=
  match s with
  | Series xs => [xs]
  | Frame columns => columns
  end.

(** [df[names]]: for each name in turn, all the columns of that name. *)
Fixpoint df_cols (df : DataFrame) (names : list string) : result (list (list Z)) :=
  match names with
  | [] => Ok []
  | x :: rest =>
      c ← df_col df x;
      cs ← df_cols df rest;
      Ok (selection_columns c ++ cs)
  end.

Definition vars_list : list string :=
  ["Ekstrawersja"; "Neurotyzm"; "Otwartosc"; "Ugodowosc"; "Sumiennosc"]%string.

Definition mean : list Q := [12; 12; 12; 13; 14]%Q.

Definition cov_matrix : list (list Q) :=
  [ [ 1.0; -0.6;  0.5;  0.3;  0.1];
    [-0.6;  1.0; -0.4; -0.1; -0.2];
    [ 0.5; -0.4;  1.0;  0.2;  0.2];
    [ 0.3; -0.1;  0.2;  1.0;  0.3];
    [ 0.1; -0.2;  0.2;  0.3;  1.0] ]%Q.

Definition sd : Q := 3.5%Q.

(** [np.array(cov_matrix) * (sd ** 2)], the value that [cov_matrix] has when
    the sample is drawn. *)
Definition cov_matrix_scaled : list (list Q) :=
  map (map (fun c => c * sd ^ 2)%Q) cov_matrix.

Section Generator.
Context (L : Libraries).

(** [np.random.seed(seed)]: numpy accepts a seed between 0 and 2**32 - 1 and
    raises [ValueError] otherwise; the state it installs replaces the
    previous one. *)
Definition np_random_seed (seed : Z) : py (rng_state L) unit :=
  if (0 <=? seed) && (seed <? 2 ^ 32)
  then put (mt_seed L seed)
  else lift (Raise ValueError).

Definition np_random_multivariate_normal
    (m : list Q) (cov : list (list Q)) (n : nat) : py (rng_state L) (list (list float)) :=
  fun s => let '(x, s') := multivariate_normal L m cov n s in (Ok x, s').

(** The local [seed] of [generuj_dane_studenta]:
    [int(hashlib.md5(str(user_id).encode('utf-8')).hexdigest(), 16) % (2**32)].
    [str] of a string is the string itself. *)
Definition seed_of (user_id : pystr) : result Z :=
  bs ← encode_utf8 user_id;
  let seed_hex := hexdigest (md5 L bs) in
  v ← int_base16 seed_hex;
  Ok (v mod 2 ^ 32).

(** [generuj_dane_studenta(user_id, n=100)]; every caller leaves [n] at its
    default. *)
Definition generuj_dane_studenta (user_id : pystr) (n : nat) : py (rng_state L) DataFrame :=
  seed ← lift (seed_of user_id);
  _ ← np_random_seed seed;
  let cov_matrix := cov_matrix_scaled in
  data ← np_random_multivariate_normal mean cov_matrix n;
  let data := map (map (fun x => astype_int (np_rint x))) data in
  let data := map (map (fun x => clip x 5 20)) data in
  lift (pd_DataFrame data vars_list).

End Generator.

(** ** 2. The answer key ([oblicz_poprawne_statystyki]) *)

Definition ocen_sile (r : float) : string :=
  let abs_r := float_abs r in
  if float_lt abs_r 0.1 then "brak"
  else if float_lt abs_r float_0_3 then "słaby"
  else if float_lt abs_r 0.5 then "umiarkowany"
  else "silny".

Definition ocen_kierunek (r : float) : string :=
  if float_lt (float_abs r) 0.1 then "związku"
  else if float_gt r 0 then "pozytywny" else "negatywny".

(** The decimal digits of a natural number, without leading zeros ([0] is
    one digit). *)
Definition digits (n : N) : string := NilEmpty.string_of_uint (N.to_uint n).

Definition digit_char (n : N) : ascii := ascii_of_N (48 + n).

(** [f"{r:.2f}"] for a finite [r]: the sign of [r], then [abs r] rounded to
    hundredths (the nearest, a tie going to the even one), with at least one
    digit before the point and exactly two after it. *)
Definition format_2f_finite (r : Q) : string :=
  let c := Z.to_N (rint (Qabs r * 100)) in
  (if Qltb r 0 then "-" else EmptyString)
  +:+ digits (c / 100)
  +:+ String "."%char
        (String (digit_char (c mod 100 / 10))
           (String (digit_char (c mod 100 mod 10)) EmptyString)).

(** [f"{r:.2f}"]: the negative zero keeps its sign. *)
Definition format_2f (r : float) : string :=
  match r with
  | Finite q => format_2f_finite q
  | NegZero => "-0.00"
  | Inf false => "inf"
  | Inf true => "-inf"
  | NaN => "nan"
  end.

(** [s.replace(old, new)] for one-character [old] and [new]. *)
Fixpoint replace (old new : ascii) (s : string) : string :=
  match s with
  | EmptyString => EmptyString
  | String c s' => String (if Ascii.eqb c old then new else c) (replace old new s')
  end.

(** The local [stars] of [format_r_z_gwiazdkami]. *)
Definition stars (p : float) : string :=
  if float_lt p 0.001 then "***"
  else if float_lt p 0.01 then "**"
  else if float_lt p 0.05 then "*"
  else EmptyString.

Definition format_r_z_gwiazdkami (r p : float) : string :=
  replace "."%char ","%char (format_2f r +:+ stars p).

Definition PREFIX_MAP : list (string * string) :=
  [ ("Ekstrawersja", "ekstra");
    ("Neurotyzm", "neuro");
    ("Otwartosc", "otwar");
    ("Ugodowosc", "ugoda");
    ("Sumiennosc", "sumien") ]%string.

(** A [for] loop whose body updates an accumulator and may raise. *)
Fixpoint for_each {A B} (body : B -> A -> result B) (l : list A) (acc : B) : result B :=
  match l with
  | [] => Ok acc
  | x :: rest => acc' ← body acc x; for_each body rest acc'
  end.

(** [idx[name]] for [idx = {name: i for i, name in enumerate(vars_list)}] *)
Definition idx (name : string) : result nat :=
  match index_of name vars_list with
  | Some i => Ok i
  | None => Raise KeyError
  end.

(** [get_rp(v1, v2)]: [rho[i, j]] raises [TypeError] when [rho] is a
    scalar. *)
Definition get_rp (res : spearman_result) (v1 v2 : string) : result (float * float) :=
  i ← idx v1;
  j ← idx v2;
  match res with
  | Arrays rho p_matrix => Ok (rho i j, p_matrix i j)
  | Scalars _ _ => Raise TypeError
  end.

Definition pairs : list (string * string * string) :=
  [ ("Neurotyzm", "Ekstrawersja", "corr_neuro_ekstra");
    ("Otwartosc", "Ekstrawersja", "corr_otwar_ekstra");
    ("Otwartosc", "Neurotyzm", "corr_otwar_neuro");
    ("Ugodowosc", "Ekstrawersja", "corr_ugoda_ekstra");
    ("Ugodowosc", "Neurotyzm", "corr_ugoda_neuro");
    ("Ugodowosc", "Otwartosc", "corr_ugoda_otwar");
    ("Sumiennosc", "Ekstrawersja", "corr_sumien_ekstra");
    ("Sumiennosc", "Neurotyzm", "corr_sumien_neuro");
    ("Sumiennosc", "Otwartosc", "corr_sumien_otwar");
    ("Sumiennosc", "Ugodowosc", "corr_sumien_ugoda") ]%string.

(** The four verdicts of part D, as written there. *)
Definition h1_decyzja (r1 p1 : float) : string :=
  if float_lt p1 0.05 && float_lt r1 0 then "potwierdza" else "nie potwierdza".

Definition h2_decyzja (r2 p2 : float) : string :=
  if float_lt p2 0.05 && float_gt r2 0 then "potwierdza" else "nie potwierdza".

Definition h3_decyzja (r3 p3 : float) : string :=
  if float_lt p3 0.05 && float_lt r3 0 then "potwierdza" else "nie potwierdza".

Definition h4_decyzja (r4 p4 : float) : string :=
  if float_lt (float_abs r4) 0.1 || float_ge p4 0.05 then "nie potwierdza"
  else if float_gt r4 0 then "potwierdza" else "nie potwierdza".

Section Analyzer.
Context (L : Libraries).

(** [(series - series.mean()) / (series.std() or 1)]: the left operand
    first, then the truth value of [series.std()], then the division. *)
Definition z_score (series : selection) : result (array L) :=
  a ← series_sub L series (series_mean L series);
  let s := series_std L series in
  b ← value_bool s;
  series_div L a (if b : bool then s else VInt 1).

(** The normality test of one column.  With statsmodels, an exception of
    [lilliefors] is caught by the bare [except] and replaced by [0, 1.0];
    without it, the column is standardised and given to [stats.kstest], and
    no exception is caught. *)
Definition test_normalnosci (series : selection) : result (value * value) :=
  if HAS_STATSMODELS L then
    match lilliefors L series with
    | Ok (d_stat, p_val) => Ok (VFloat d_stat, VFloat p_val)
    | Raise _ => Ok (VInt 0, VFloat (Finite 1.0))
    end
  else
    z ← z_score series;
    '(d_stat, p_val) ← kstest_norm L z;
    Ok (VFloat d_stat, VFloat p_val).

(** A. The body of the loop over [PREFIX_MAP.items()]. *)
Definition statystyki_opisowe (df : DataFrame)
    (klucz : gmap string value) (item : string * string) : result (gmap string value) :=
  let '(col_name, prefix) := item in
  series ← df_col df col_name;
  let klucz := <[prefix +:+ "_m" := series_mean L series]> klucz in
  let klucz := <[prefix +:+ "_mdn" := series_median L series]> klucz in
  let klucz := <[prefix +:+ "_sd" := series_std L series]> klucz in
  let klucz := <[prefix +:+ "_sk" := series_skew L series]> klucz in
  let klucz := <[prefix +:+ "_kurt" := series_kurt L series]> klucz in
  let klucz := <[prefix +:+ "_min" := series_min L series]> klucz in
  let klucz := <[prefix +:+ "_max" := series_max L series]> klucz in
  '(d_stat, p_val) ← test_normalnosci series;
  let klucz := <[prefix +:+ "_d" := d_stat]> klucz in
  let klucz := <[prefix +:+ "_p" := p_val]> klucz in
  Ok klucz.

(** B. The two method labels, from the p-value stored for Neurotyzm. *)
Definition decyzja_o_metodzie (klucz : gmap string value) : result (gmap string value) :=
  neuro_p ← dict_get klucz "neuro_p";
  b ← value_lt neuro_p 0.05;
  if b : bool then
    Ok (<["korelacja_typ" := VStr "rho-Spearmana"]>
          (<["rozklad_typ" := VStr "niespełnienie"]> klucz))
  else
    Ok (<["korelacja_typ" := VStr "r-Pearsona"]>
          (<["rozklad_typ" := VStr "spełnienie"]> klucz)).

(** C. The body of the loop over [pairs]. *)
Definition korelacja (res : spearman_result)
    (klucz : gmap string value) (pair : string * string * string) : result (gmap string value) :=
  let '(v1, v2, key) := pair in
  '(r, p) ← get_rp res v1 v2;
  Ok (<[key := VStr (format_r_z_gwiazdkami r p)]> klucz).

(** D. The four hypotheses. *)
Definition weryfikacja_hipotez (res : spearman_result)
    (klucz : gmap string value) : result (gmap string value) :=
  '(r1, p1) ← get_rp res "Neurotyzm" "Ekstrawersja";
  let klucz := <["h1_sila" := VStr (ocen_sile r1)]> klucz in
  let klucz := <["h1_kierunek" := VStr (ocen_kierunek r1)]> klucz in
  let klucz := <["h1_decyzja" := VStr (h1_decyzja r1 p1)]> klucz in
  '(r2, p2) ← get_rp res "Otwartosc" "Ekstrawersja";
  let klucz := <["h2_sila" := VStr (ocen_sile r2)]> klucz in
  let klucz := <["h2_kierunek" := VStr (ocen_kierunek r2)]> klucz in
  let klucz := <["h2_decyzja" := VStr (h2_decyzja r2 p2)]> klucz in
  '(r3, p3) ← get_rp res "Otwartosc" "Neurotyzm";
  let klucz := <["h3_sila" := VStr (ocen_sile r3)]> klucz in
  let klucz := <["h3_kierunek" := VStr (ocen_kierunek r3)]> klucz in
  let klucz := <["h3_decyzja" := VStr (h3_decyzja r3 p3)]> klucz in
  '(r4, p4) ← get_rp res "Ugodowosc" "Ekstrawersja";
  let klucz := <["h4_sila" := VStr (ocen_sile r4)]> klucz in
  let klucz := <["h4_kierunek" := VStr (ocen_kierunek r4)]> klucz in
  let klucz := <["h4_decyzja" := VStr (h4_decyzja r4 p4)]> klucz in
  Ok klucz.

Definition oblicz_poprawne_statystyki (df : DataFrame) : result (gmap string value) :=
  klucz ← for_each (statystyki_opisowe df) PREFIX_MAP ∅;
  klucz ← decyzja_o_metodzie klucz;
  table ← df_cols df vars_list;
  res ← spearmanr L table;
  klucz ← for_each (korelacja res) pairs klucz;
  weryfikacja_hipotez res klucz.

(** The two calls of the route [index]: [generuj_dane_studenta(user_id)]
    with the default [n=100], then [oblicz_poprawne_statystyki(df)]. *)
Definition index_answers (user_id : pystr) : py (rng_state L) (gmap string value) :=
  df ← generuj_dane_studenta L user_id 100;
  lift (oblicz_poprawne_statystyki df).

End Analyzer.

(** ** Reference instances of the libraries

    [MD5.digest] is MD5 as specified in RFC 1321, the function that
    [hashlib.md5] computes.  The statistical routines of [Stub] are simple
    stand-ins with the same signatures: they serve to evaluate the program on
    concrete inputs and say nothing about numpy, pandas or scipy. *)

Module MD5.

Definition K : list Z :=
  [ 0xd76aa478; 0xe8c7b756; 0x242070db; 0xc1bdceee;
    0xf57c0faf; 0x4787c62a; 0xa8304613; 0xfd469501;
    0x698098d8; 0x8b44f7af; 0xffff5bb1; 0x895cd7be;
    0x6b901122; 0xfd987193; 0xa679438e; 0x49b40821;
    0xf61e2562; 0xc040b340; 0x265e5a51; 0xe9b6c7aa;
    0xd62f105d; 0x02441453; 0xd8a1e681; 0xe7d3fbc8;
    0x21e1cde6; 0xc33707d6; 0xf4d50d87; 0x455a14ed;
    0xa9e3e905; 0xfcefa3f8; 0x676f02d9; 0x8d2a4c8a;
    0xfffa3942; 0x8771f681; 0x6d9d6122; 0xfde5380c;
    0xa4beea44; 0x4bdecfa9; 0xf6bb4b60; 0xbebfbc70;
    0x289b7ec6; 0xeaa127fa; 0xd4ef3085; 0x04881d05;
    0xd9d4d039; 0xe6db99e5; 0x1fa27cf8; 0xc4ac5665;
    0xf4292244; 0x432aff97; 0xab9423a7; 0xfc93a039;
    0x655b59c3; 0x8f0ccc92; 0xffeff47d; 0x85845dd1;
    0x6fa87e4f; 0xfe2ce6e0; 0xa3014314; 0x4e0811a1;
    0xf7537e82; 0xbd3af235; 0x2ad7d2bb; 0xeb86d391 ].

Definition shifts : list Z :=
  [ 7; 12; 17; 22; 7; 12; 17; 22; 7; 12; 17; 22; 7; 12; 17; 22;
    5; 9; 14; 20; 5; 9; 14; 20; 5; 9; 14; 20; 5; 9; 14; 20;
    4; 11; 16; 23; 4; 11; 16; 23; 4; 11; 16; 23; 4; 11; 16; 23;
    6; 10; 15; 21; 6; 10; 15; 21; 6; 10; 15; 21; 6; 10; 15; 21 ].

Definition w32 (x : Z) : Z := x mod 2 ^ 32.
Definition not32 (x : Z) : Z := Z.lxor x 0xffffffff.
Definition rotl (x c : Z) : Z := w32 (Z.lor (Z.shiftl x c) (Z.shiftr x (32 - c))).

Definition state : Type := Z * Z * Z * Z.

Definition init : state := (0x67452301, 0xefcdab89, 0x98badcfe, 0x10325476).

Definition step (M : list Z) (st : state) (i : nat) : state :=
  let '(a, b, c, d) := st in
  let '(f, g) :=
    if (i <? 16)%nat then (Z.lor (Z.land b c) (Z.land (not32 b) d), i)
    else if (i <? 32)%nat then
      (Z.lor (Z.land d b) (Z.land (not32 d) c), ((5 * i + 1) mod 16)%nat)
    else if (i <? 48)%nat then (Z.lxor (Z.lxor b c) d, ((3 * i + 5) mod 16)%nat)
    else (Z.lxor c (Z.lor b (not32 d)), ((7 * i) mod 16)%nat) in
  let f' := w32 (f + a + nth i K 0 + nth g M 0) in
  (d, w32 (b + rotl f' (nth i shifts 0)), b, c).

Definition word_le (bs : list byte) : Z :=
  fold_right (fun b acc => Z.of_N (Byte.to_N b) + 256 * acc) 0 bs.

Definition block_words (blk : list byte) : list Z :=
  map (fun j => word_le (firstn 4 (skipn (4 * j) blk))) (seq 0 16).

Definition compress (st : state) (blk : list byte) : state :=
  let '(a, b, c, d) := st in
  let '(a', b', c', d') := fold_left (step (block_words blk)) (seq 0 64) st in
  (w32 (a + a'), w32 (b + b'), w32 (c + c'), w32 (d + d')).

Fixpoint le_bytes (k : nat) (x : Z) : list byte :=
  match k with
  | O => []
  | S k' => byte_of_N (Z.to_N (x mod 256)) :: le_bytes k' (x / 256)
  end.

Definition pad (m : list byte) : list byte :=
  let len := Z.of_nat (length m) in
  m ++ [x80] ++ repeat x00 (Z.to_nat ((55 - len) mod 64)) ++ le_bytes 8 (8 * len).

Fixpoint blocks (k : nat) (bs : list byte) (st : state) : state :=
  match k with
  | O => st
  | S k' => blocks k' (skipn 64 bs) (compress st (firstn 64 bs))
  end.

Definition digest (m : list byte) : list byte :=
  let p := pad m in
  let '(a, b, c, d) := blocks (length p / 64) p init in
  le_bytes 4 a ++ le_bytes 4 b ++ le_bytes 4 c ++ le_bytes 4 d.

End MD5.


Module Stub.

(** A linear congruential generator in place of the Mersenne Twister. *)
Definition next (s : Z) : Z := (1103515245 * s + 12345) mod 2 ^ 31.

(** One record: each field is the mean of its column plus a deviation
    between -10 and 10 drawn from the generator. *)
Fixpoint draw_row (m : list Q) (s : Z) : list float * Z :=
  match m with
  | [] => ([], s)
  | mu :: m' =>
      let s1 := next s in
      let '(r, s2) := draw_row m' s1 in
      (Finite (mu + inject_Z (s1 mod 2001 - 1000) / 100)%Q :: r, s2)
  end.

Fixpoint draw (n : nat) (m : list Q) (s : Z) : list (list float) * Z :=
  match n with
  | O => ([], s)
  | S n' =>
      let '(r, s1) := draw_row m s in
      let '(rs, s2) := draw n' m s1 in
      (r :: rs, s2)
  end.

Definition sum (xs : list Z) : Z := fold_right Z.add 0 xs.

Definition mean_of (xs : list Z) : Q :=
  match xs with
  | [] => 0
  | _ => (inject_Z (sum xs) / inject_Z (Z.of_nat (length xs)))%Q
  end.

Definition min_of (xs : list Z) : Z :=
  match xs with [] => 0 | x :: rest => fold_right Z.min x rest end.

Definition max_of (xs : list Z) : Z :=
  match xs with [] => 0 | x :: rest => fold_right Z.max x rest end.

(** A method of a Series: on a DataFrame, the Series of its values on the
    columns. *)
Definition on_columns (f : list Z -> value) (s : selection) : value :=
  match s with
  | Series xs => f xs
  | Frame columns => VSeries (map f columns)
  end.

(** [series - m] and [a / d] for a Series and numbers; [frame - ms] for a
    DataFrame and the Series of the means of its columns, as one array. *)
Definition sub (s : selection) (m : value) : result (list Q) :=
  match s, m with
  | Series xs, VFloat (Finite q) => Ok (map (fun x => inject_Z x - q)%Q xs)
  | Frame columns, VSeries ms =>
      Ok (concat (zip_with (fun xs m =>
            match m with
            | VFloat (Finite q) => map (fun x => inject_Z x - q)%Q xs
            | _ => []
            end) columns ms))
  | _, _ => Raise LibraryError
  end.

Definition div (a : list Q) (d : value) : result (list Q) :=
  match d with
  | VFloat (Finite q) => Ok (map (fun x => x / q)%Q a)
  | VInt z => Ok (map (fun x => x / inject_Z z)%Q a)
  | _ => Raise LibraryError
  end.

(** The coefficient table: the generator's correlation structure. *)
Definition rho : matrix := fun i j => Finite (nth j (nth i cov_matrix []) 0%Q).

Definition p_matrix : matrix := fun i j => Finite (if Nat.eqb i j then 0 else 0.001)%Q.

(** The stand-in libraries, for a given [lilliefors] and [spearmanr]. *)
Definition with_stats (has_statsmodels : bool)
    (f : selection -> result (float * float))
    (sp : list (list Z) -> result spearman_result) : Libraries := {|
  md5 := MD5.digest;
  rng_state := Z;
  mt_seed := fun seed => seed;
  multivariate_normal := fun m _ n s => draw n m s;
  series_mean := on_columns (fun xs => VFloat (Finite (mean_of xs)));
  series_median := on_columns (fun xs => VFloat (Finite (inject_Z (min_of xs + max_of xs) / 2)));
  series_std := on_columns (fun xs => VFloat (Finite (inject_Z (max_of xs - min_of xs) / 4)));
  series_skew := on_columns (fun xs => VFloat (match xs with _ :: _ :: _ :: _ => Finite 0 | _ => NaN end));
  series_kurt := on_columns (fun xs => VFloat (match xs with _ :: _ :: _ :: _ :: _ => Finite 0 | _ => NaN end));
  series_min := on_columns (fun xs => VInt (min_of xs));
  series_max := on_columns (fun xs => VInt (max_of xs));
  array := list Q;
  series_sub := sub;
  series_div := div;
  HAS_STATSMODELS := has_statsmodels;
  lilliefors := f;
  kstest_norm := fun _ => Ok (Finite 0.08, Finite 0.5);
  spearmanr := sp
|}.

Definition with_lilliefors (f : selection -> result (float * float)) : Libraries :=
  with_stats true f (fun _ => Ok (Arrays rho p_matrix)).

(** [lilliefors] finds no departure from normality: p = 0.12. *)
Definition libs : Libraries := with_lilliefors (fun _ => Ok (Finite 0.08, Finite 0.12)).

(** [lilliefors] finds a departure from normality: p = 0.01. *)
Definition libs_not_normal : Libraries :=
  with_lilliefors (fun _ => Ok (Finite 0.2, Finite 0.01)).

(** [lilliefors] raises on every call. *)
Definition libs_lilliefors_raises : Libraries :=
  with_lilliefors (fun _ => Raise LibraryError).

(** Without statsmodels. *)
Definition libs_no_statsmodels : Libraries :=
  with_stats false (fun _ => Raise LibraryError) (fun _ => Ok (Arrays rho p_matrix)).

(** What scipy returns for a table of two records without ties: every
    coefficient is 1 or -1 and every p-value is NaN. *)
Definition libs_two_records : Libraries :=
  with_stats true (fun _ => Ok (Finite 0.26, Finite 0.5))
    (fun _ => Ok (Arrays (fun i j => Finite (if Nat.eqb i 1 || Nat.eqb j 1
                                             then (if Nat.eqb i j then 1 else -1)
                                             else 1))
                         (fun _ _ => NaN))).

(** [spearmanr] returns two scalars. *)
Definition libs_scalars : Libraries :=
  with_stats true (fun _ => Ok (Finite 0.08, Finite 0.12)) (fun _ => Ok (Scalars NaN NaN)).

(** A table of three records, one of two records in which Neurotyzm falls
    while the other variables rise, and one with a second column called
    Ekstrawersja. *)
Definition small_df : DataFrame :=
  {| df_columns := vars_list;
     df_values := [ [12; 11; 13; 14; 15]; [9; 15; 10; 12; 13]; [16; 8; 14; 15; 17] ] |}.

Definition two_records_df : DataFrame :=
  {| df_columns := vars_list;
     df_values := [ [12; 11; 13; 14; 15]; [16; 8; 14; 15; 17] ] |}.

Definition duplicate_df : DataFrame :=
  {| df_columns := vars_list ++ ["Ekstrawersja"]%string;
     df_values := [ [12; 11; 13; 14; 15; 7]; [9; 15; 10; 12; 13; 8];
                    [16; 8; 14; 15; 17; 9] ] |}.

End Stub.

(** ** The round trip of the specification

    Not part of [app.py]: the reading of a formatted correlation that the
    specification describes (the comma replaced by a period, the stars
    stripped, the rest parsed as a decimal number), and the coefficient
    rounded to two decimals. *)

(** [s.rstrip(ch)] *)
Fixpoint rstrip (ch : ascii) (s : string) : string :=
  match s with
  | EmptyString => EmptyString
  | String c s' =>
      match rstrip ch s' with
      | EmptyString => if Ascii.eqb c ch then EmptyString else String c EmptyString
      | t => String c t
      end
  end.

(** The text before and after the first [ch]. *)
Fixpoint split_at (ch : ascii) (s : string) : option (string * string) :=
  match s with
  | EmptyString => None
  | String c s' =>
      if Ascii.eqb c ch then Some (EmptyString, s')
      else '(a, b) ← split_at ch s'; Some (String c a, b)
  end.

Definition parse_unsigned (s : string) : option Q :=
  match split_at "."%char s with
  | Some (ip, fp) =>
      i ← NilEmpty.uint_of_string ip;
      f ← NilEmpty.uint_of_string fp;
      Some (inject_Z (Z.of_N (N.of_uint i))
            + inject_Z (Z.of_N (N.of_uint f)) / inject_Z (10 ^ Z.of_nat (String.length fp)))%Q
  | None =>
      i ← NilEmpty.uint_of_string s;
      Some (inject_Z (Z.of_N (N.of_uint i)))
  end.

(** A decimal numeral with an optional minus sign. *)
Definition parse_decimal (s : string) : option Q :=
  match s with
  | String "-"%char s' => Qopp <$> parse_unsigned s'
  | _ => parse_unsigned s
  end.

Definition spec_parse_back (s : string) : option Q :=
  parse_decimal (rstrip "*"%char (replace ","%char "."%char s)).


(** The finite doubles: the numbers [m * 2^k] with [|m| < 2^53] and
    [k <= 971], and the numbers [m / 2^k] with [|m| < 2^53] and
    [k <= 1074]. *)
Definition is_double (q : Q) : Prop :=
  exists m k : Z, Z.abs m < 2 ^ 53 /\
    ((0 <= k <= 971 /\ (q == inject_Z (m * 2 ^ k))%Q) \/
     (0 <= k <= 1074 /\ (q * inject_Z (2 ^ k) == inject_Z m)%Q)).

(** [d] is the double that a literal of the value [c] denotes: no double is
    nearer to [c]. *)
Definition nearest_double (c d : Q) : Prop :=
  is_double d /\ forall d', is_double d' -> (Qabs (d - c) <= Qabs (d' - c))%Q.

(** The reading of UTF-8, to state that the bytes of an identifier determine
    it: the code points that a sequence of bytes encodes, or [None] when the
    sequence ends inside a code point or begins one with a continuation
    byte. *)
Fixpoint decode_utf8 (bs : list byte) : option pystr :=
  match bs with
  | [] => Some []
  | b0 :: rest =>
      let n0 := Byte.to_N b0 in
      let low (b : byte) := (Byte.to_N b - 0x80)%N in
      if (n0 <? 0x80)%N then cons n0 <$> decode_utf8 rest
      else if (n0 <? 0xC0)%N then None
      else if (n0 <? 0xE0)%N then
        match rest with
        | b1 :: rest' =>
            cons ((n0 - 0xC0) * 64 + low b1)%N <$> decode_utf8 rest'
        | _ => None
        end
      else if (n0 <? 0xF0)%N then
        match rest with
        | b1 :: b2 :: rest' =>
            cons ((n0 - 0xE0) * 4096 + low b1 * 64 + low b2)%N <$> decode_utf8 rest'
        | _ => None
        end
      else
        match rest with
        | b1 :: b2 :: b3 :: rest' =>
            cons ((n0 - 0xF0) * 262144 + low b1 * 4096 + low b2 * 64 + low b3)%N
              <$> decode_utf8 rest'
        | _ => None
        end
  end.

(** Every character of [s] satisfies [P]. *)
Fixpoint string_forall (P : ascii -> bool) (s : string) : bool :=
  match s with
  | EmptyString => true
  | String c s' => P c && string_forall P s'
  end.

Definition is_digit (c : ascii) : bool :=
  let n := N_of_ascii c in ((48 <=? n) && (n <=? 57))%N.

(** The keys of an answer key: for each variable the seven descriptive
    statistics and the two outputs of the normality test, the two method
    labels, the ten formatted correlations, and for each hypothesis its
    strength, direction and verdict. *)
Definition answer_keys : list string :=
  flat_map (fun prefix =>
      map (fun suffix => prefix +:+ suffix)
        ["_m"; "_mdn"; "_sd"; "_sk"; "_kurt"; "_min"; "_max"; "_d"; "_p"])
    ["ekstra"; "neuro"; "otwar"; "ugoda"; "sumien"]
  ++ ["rozklad_typ"; "korelacja_typ"]
  ++ ["corr_neuro_ekstra"; "corr_otwar_ekstra"; "corr_otwar_neuro";
      "corr_ugoda_ekstra"; "corr_ugoda_neuro"; "corr_ugoda_otwar";
      "corr_sumien_ekstra"; "corr_sumien_neuro"; "corr_sumien_otwar";
      "corr_sumien_ugoda"]
  ++ flat_map (fun h => [h +:+ "_sila"; h +:+ "_kierunek"; h +:+ "_decyzja"])
       ["h1"; "h2"; "h3"; "h4"].


(** ** The entries written by each part of [oblicz_poprawne_statystyki]

    The dictionary updates of the four parts, as functions of the values
    that the library calls returned; the properties below state the answer
    key of a successful run in these terms. *)

(** Part A for one column: what [df[name]] returned and the two values that
    the normality test gave. *)
Definition wpisy_opisowe (L : Libraries) (prefix : string) (series : selection)
    (test : value * value) (klucz : gmap string value) : gmap string value :=
  <[prefix +:+ "_p" := test.2]>
    (<[prefix +:+ "_d" := test.1]>
    (<[prefix +:+ "_max" := series_max L series]>
    (<[prefix +:+ "_min" := series_min L series]>
    (<[prefix +:+ "_kurt" := series_kurt L series]>
    (<[prefix +:+ "_sk" := series_skew L series]>
    (<[prefix +:+ "_sd" := series_std L series]>
    (<[prefix +:+ "_mdn" := series_median L series]>
    (<[prefix +:+ "_m" := series_mean L series]> klucz)))))))).

(** Part B: [violated] tells whether the p-value of Neurotyzm is below 0.05. *)
Definition wpisy_metody (violated : bool) (klucz : gmap string value) : gmap string value :=
  if violated then
    <["korelacja_typ" := VStr "rho-Spearmana"]>
      (<["rozklad_typ" := VStr "niespełnienie"]> klucz)
  else
    <["korelacja_typ" := VStr "r-Pearsona"]>
      (<["rozklad_typ" := VStr "spełnienie"]> klucz).

(** Part C: the ten formatted coefficients. *)
Definition wpisy_korelacji (rho p_matrix : matrix) (klucz : gmap string value) : gmap string value :=
  let corr i j := VStr (format_r_z_gwiazdkami (rho i j) (p_matrix i j)) in
  <["corr_sumien_ugoda" := corr 4%nat 3%nat]>
    (<["corr_sumien_otwar" := corr 4%nat 2%nat]>
    (<["corr_sumien_neuro" := corr 4%nat 1%nat]>
    (<["corr_sumien_ekstra" := corr 4%nat 0%nat]>
    (<["corr_ugoda_otwar" := corr 3%nat 2%nat]>
    (<["corr_ugoda_neuro" := corr 3%nat 1%nat]>
    (<["corr_ugoda_ekstra" := corr 3%nat 0%nat]>
    (<["corr_otwar_neuro" := corr 2%nat 1%nat]>
    (<["corr_otwar_ekstra" := corr 2%nat 0%nat]>
    (<["corr_neuro_ekstra" := corr 1%nat 0%nat]> klucz))))))))).

(** Part D: the twelve entries of the four hypotheses. *)
Definition wpisy_hipotez (rho p_matrix : matrix) (klucz : gmap string value) : gmap string value :=
  <["h4_decyzja" := VStr (h4_decyzja (rho 3%nat 0%nat) (p_matrix 3%nat 0%nat))]>
    (<["h4_kierunek" := VStr (ocen_kierunek (rho 3%nat 0%nat))]>
    (<["h4_sila" := VStr (ocen_sile (rho 3%nat 0%nat))]>
    (<["h3_decyzja" := VStr (h3_decyzja (rho 2%nat 1%nat) (p_matrix 2%nat 1%nat))]>
    (<["h3_kierunek" := VStr (ocen_kierunek (rho 2%nat 1%nat))]>
    (<["h3_sila" := VStr (ocen_sile (rho 2%nat 1%nat))]>
    (<["h2_decyzja" := VStr (h2_decyzja (rho 2%nat 0%nat) (p_matrix 2%nat 0%nat))]>
    (<["h2_kierunek" := VStr (ocen_kierunek (rho 2%nat 0%nat))]>
    (<["h2_sila" := VStr (ocen_sile (rho 2%nat 0%nat))]>
    (<["h1_decyzja" := VStr (h1_decyzja (rho 1%nat 0%nat) (p_matrix 1%nat 0%nat))]>
    (<["h1_kierunek" := VStr (ocen_kierunek (rho 1%nat 0%nat))]>
    (<["h1_sila" := VStr (ocen_sile (rho 1%nat 0%nat))]> klucz))))))))))).

(** The answer key of a successful run, in terms of what the library calls
    returned: the selection and the normality test of each column, the
    p-value of Neurotyzm, and the two arrays of [spearmanr]. *)
Definition klucz_z_wynikow (L : Libraries)
    (s0 s1 s2 s3 s4 : selection) (t0 t1 t2 t3 t4 : value * value)
    (neuro_p : float) (rho p_matrix : matrix) : gmap string value :=
  wpisy_hipotez rho p_matrix
    (wpisy_korelacji rho p_matrix
       (wpisy_metody (float_lt neuro_p 0.05)
          (wpisy_opisowe L "sumien" s4 t4
             (wpisy_opisowe L "ugoda" s3 t3
                (wpisy_opisowe L "otwar" s2 t2
                   (wpisy_opisowe L "neuro" s1 t1
                      (wpisy_opisowe L "ekstra" s0 t0 ∅))))))).

(** The keys of parts C and D: the ten formatted correlations and the twelve
    entries of the hypotheses. *)
Definition klucze_korelacji : list string :=
  map (fun pair : string * string * string => pair.2) pairs
  ++ flat_map (fun h => [h +:+ "_sila"; h +:+ "_kierunek"; h +:+ "_decyzja"])
       ["h1"; "h2"; "h3"; "h4"].


(** ** What the properties assume of the libraries *)

(** An MD5 digest has 16 bytes. *)
Definition md5_contract (L : Libraries) : Prop :=
  forall m, length (md5 L m) = 16%nat.

(** [multivariate_normal(mean, cov, size=n)] returns [n] rows, each with one
    value per component of [mean]. *)
Definition mvn_contract (L : Libraries) : Prop :=
  forall m cov n s,
    let x := fst (multivariate_normal L m cov n s) in
    length x = n /\ Forall (fun row => length row = length m) x.



(** ** 3. The routes ([index], [pobierz_csv], [pobierz_sav], [sprawdz])

    Modelling conventions.
    - [request.form] and [request.args] are multi-dicts: the fields in the
      order received, a name possibly more than once.
    - The session of a client is a dictionary from names to strings; it is
      part of the state that a view reads and leaves, together with the
      numpy generator, the random source of the operating system and the
      file system.
    - What a view returns is a value of [Response].  A view that raises
      returns [Raise e]; what Flask then sends is outside the model.
    - Functions of Flask, pandas, pyreadstat, [os], [tempfile] and [uuid]
      are the fields of the record [Platform]. *)

(** *** Requests *)

Definition multidict : Type := list (string * pystr).

(** [d.get(key)]: the first value of [key], [None] when there is none. *)
Fixpoint multidict_get (key : string) (d : multidict) : option pystr :=
  match d with
  | [] => None
  | (k, v) :: rest => if String.eqb k key then Some v else multidict_get key rest
  end.

Fixpoint kwargs_from (seen : list string) (d : multidict) : list (string * pystr) :=
  match d with
  | [] => []
  | (k, v) :: rest =>
      if existsb (String.eqb k) seen then kwargs_from seen rest
      else (k, v) :: kwargs_from (k :: seen) rest
  end.

(** The keyword arguments of [**d]: each name once, with its first value. *)
Definition kwargs (d : multidict) : list (string * pystr) := kwargs_from [] d.

Record Request : Type := {
  method : string;
  form : multidict;
  args : multidict
}.

(** *** [str.strip] *)

(** The code points that [str.strip()] removes: those for which
    [str.isspace] holds. *)
Definition isspace (c : N) : bool :=
  (((0x09 <=? c) && (c <=? 0x0D)) || ((0x1C <=? c) && (c <=? 0x20))
   || (c =? 0x85) || (c =? 0xA0) || (c =? 0x1680)
   || ((0x2000 <=? c) && (c <=? 0x200A))
   || (c =? 0x2028) || (c =? 0x2029) || (c =? 0x202F) || (c =? 0x205F)
   || (c =? 0x3000))%N.

Fixpoint lstrip (s : pystr) : pystr :=
  match s with
  | [] => []
  | c :: s' => if isspace c then lstrip s' else s
  end.

(** [s.strip()] *)
Definition strip (s : pystr) : pystr := rev (lstrip (rev (lstrip s))).

(** *** Responses *)

(** What a view returns: a text (status 200), a text with a status, the
    response of [redirect(location)], or the response of
    [make_response(data)] with the assignments made to its [headers], in
    order. *)
Inductive Response : Type :=
  | Text (body : pystr)
  | TextStatus (body : pystr) (status : Z)
  | Redirect (location : pystr)
  | Made (data : list byte) (headers : list (string * pystr)).

Definition is_newline (c : N) : bool := ((c =? 10) || (c =? 13))%N.

(** [response.headers[name] = value]: werkzeug refuses a value that holds a
    line feed or a carriage return with [ValueError]. *)
Definition headers_set (name : string) (value : pystr) (headers : list (string * pystr))
    : result (list (string * pystr)) :=
  if existsb is_newline value then Raise ValueError
  else Ok (headers ++ [(name, value)]).

(** "Błąd serwera: Biblioteka pyreadstat nie jest zainstalowana." *)
Definition blad_serwera : pystr :=
  pystr_of_string "B" ++ [0x142; 0x105]%N
  ++ pystr_of_string "d serwera: Biblioteka pyreadstat nie jest zainstalowana.".

(** "Wystąpił błąd SAV: " *)
Definition blad_sav : pystr :=
  pystr_of_string "Wyst" ++ [0x105]%N ++ pystr_of_string "pi" ++ [0x142]%N
  ++ pystr_of_string " b" ++ [0x142; 0x105]%N ++ pystr_of_string "d SAV: ".

(** *** What the routes call *)

Record Platform : Type := {
  (** the random source of the operating system, and [str(uuid.uuid4())],
      which reads it *)
  entropy : Type;
  uuid4_str : entropy -> pystr * entropy;
  (** [url_for(endpoint, **values)] and
      [render_template(name, user_id=..., answers=...)]; each may raise *)
  url_for : string -> list (string * pystr) -> result pystr;
  render_template : string -> pystr -> gmap string value -> result pystr;
  (** the bytes that [df.to_csv(output, index=False, sep=';',
      encoding='utf-8')] writes to [output] *)
  to_csv : DataFrame -> result (list byte);
  (** whether [pyreadstat] could be imported when the module was loaded *)
  HAS_PYREADSTAT : bool;
  (** the file system, with [tempfile.mkstemp(suffix=...)], which draws the
      name of the file from a generator seeded from the random source,
      [os.close(fd)], [pyreadstat.write_sav(df, path)], the block
      [with open(path, 'rb') as f: data = f.read()], [os.path.exists(path)]
      and [os.remove(path)] *)
  filesystem : Type;
  mkstemp : string -> filesystem -> entropy -> result (Z * pystr) * filesystem * entropy;
  os_close : Z -> filesystem -> result unit * filesystem;
  write_sav : DataFrame -> pystr -> filesystem -> result unit * filesystem;
  read_binary : pystr -> filesystem -> result (list byte) * filesystem;
  os_path_exists : pystr -> filesystem -> bool;
  os_remove : pystr -> filesystem -> result unit * filesystem;
  (** [str(e)] for a caught exception *)
  exn_str : exn -> pystr
}.

(** [try: body except Exception as e: handler(e)] *)
Definition try_except {S A} (body : py S A) (handler : exn -> py S A) : py S A :=
  fun s =>
    match body s with
    | (Ok a, s') => (Ok a, s')
    | (Raise e, s') => handler e s'
    end.

(** [try: body finally: final]: [final] runs whatever [body] did, and an
    exception of [final] replaces the outcome of [body]. *)
Definition try_finally {S A} (body : py S A) (final : py S unit) : py S A :=
  fun s =>
    let '(r, s') := body s in
    match final s' with
    | (Ok _, s'') => (r, s'')
    | (Raise e, s'') => (Raise e, s'')
    end.

Section Routes.
Context (L : Libraries) (P : Platform).

(** The state that a view reads and leaves. *)
Record World : Type := {
  session : gmap string pystr;
  rng : rng_state L;
  random_source : entropy P;
  files : filesystem P
}.

Definition set_session (s : gmap string pystr) (w : World) : World :=
  {| session := s; rng := rng w; random_source := random_source w; files := files w |}.

Definition set_rng (s : rng_state L) (w : World) : World :=
  {| session := session w; rng := s; random_source := random_source w; files := files w |}.

Definition set_random_source (e : entropy P) (w : World) : World :=
  {| session := session w; rng := rng w; random_source := e; files := files w |}.

Definition set_files (f : filesystem P) (w : World) : World :=
  {| session := session w; rng := rng w; random_source := random_source w; files := f |}.

(** [key in session], [session[key]] and [session[key] = value] *)
Definition session_contains (key : string) : py World bool :=
  fun w => (Ok (match session w !! key with Some _ => true | None => false end), w).

Definition session_get (key : string) : py World pystr :=
  fun w => (match session w !! key with Some v => Ok v | None => Raise KeyError end, w).

Definition session_setitem (key : string) (v : pystr) : py World unit :=
  fun w => (Ok tt, set_session (<[key := v]> (session w)) w).

(** Code that uses the numpy generator, the random source or the file
    system, as a part of a view. *)
Definition with_rng {A} (m : py (rng_state L) A) : py World A :=
  fun w => let '(r, s) := m (rng w) in (r, set_rng s w).

Definition with_random_source {A} (m : entropy P -> A * entropy P) : py World A :=
  fun w => let '(a, e) := m (random_source w) in (Ok a, set_random_source e w).

Definition with_files {A} (m : filesystem P -> result A * filesystem P) : py World A :=
  fun w => let '(r, f) := m (files w) in (r, set_files f w).

(** [tempfile.mkstemp(suffix=suffix)] *)
Definition tempfile_mkstemp (suffix : string) : py World (Z * pystr) :=
  fun w =>
    let '(r, f, e) := mkstemp P suffix (files w) (random_source w) in
    (r, set_random_source e (set_files f w)).

(** A part of a view that leaves a component of the state as it is: the
    session, or the random source. *)
Definition keeps {A T} (component : World -> T) (m : py World A) : Prop :=
  forall w, component (m w).2 = component w.

Definition keeps_session {A} (m : py World A) : Prop := keeps session m.

Definition keeps_random_source {A} (m : py World A) : Prop := keeps random_source m.

(** [redirect(url_for(endpoint, **values))] *)
Definition redirect_url_for (endpoint : string) (values : list (string * pystr))
    : py World Response :=
  location ← lift (url_for P endpoint values);
  mret (Redirect location).

(** The end of [index]: the data and the answer key of [user_id], and the
    page. *)
Definition index_render (user_id : pystr) : py World Response :=
  answers ← with_rng (index_answers L user_id);
  page ← lift (render_template P "index.html" user_id answers);
  mret (Text page).

(** The view of ["/"]. *)
Definition index (request : Request) : py World Response :=
  let manual_id :=
    if String.eqb (method request) "POST"
    then multidict_get "manual_id" (form request)
    else None in
  match manual_id with
  | Some ((_ :: _) as manual_id) =>
      _ ← session_setitem "user_id" (strip manual_id);
      redirect_url_for "index" (kwargs (args request))
  | _ =>
      _ ← match multidict_get "user_id" (args request) with
          | Some ((_ :: _) as user_id_from_url) => session_setitem "user_id" user_id_from_url
          | _ => mret tt
          end;
      known ← session_contains "user_id";
      _ ← (if known : bool then mret tt
           else
             u ← with_random_source (uuid4_str P);
             let random_id := take 8 u in
             session_setitem "user_id" random_id);
      user_id ← session_get "user_id";
      index_render user_id
  end.

(** The two headers of a download. *)
Definition download_headers (filename content_type : pystr) : result (list (string * pystr)) :=
  headers ← headers_set "Content-Disposition"
              (pystr_of_string "attachment; filename=" ++ filename) [];
  headers_set "Content-type" content_type headers.

(** The view of ["/pobierz_csv"]. *)
Definition pobierz_csv : py World Response :=
  known ← session_contains "user_id";
  if negb known then redirect_url_for "index" []
  else
    user_id ← session_get "user_id";
    df ← with_rng (generuj_dane_studenta L user_id 100);
    output ← lift (to_csv P df);
    headers ← lift (download_headers
                      (pystr_of_string "dane_" ++ user_id ++ pystr_of_string ".csv")
                      (pystr_of_string "text/csv"));
    mret (Made output headers).

(** The [finally] block of [pobierz_sav]. *)
Definition remove_if_exists (path : pystr) : py World unit :=
  fun w =>
    if os_path_exists P path (files w) then with_files (os_remove P path) w
    else (Ok tt, w).

(** The [try] block of [pobierz_sav] and its [except] clause. *)
Definition pobierz_sav_try (user_id : pystr) (df : DataFrame) (fd : Z) (path : pystr)
    : py World Response :=
  _ ← with_files (os_close P fd);
  _ ← with_files (write_sav P df path);
  data ← with_files (read_binary P path);
  headers ← lift (download_headers
                    (pystr_of_string "dane_" ++ user_id ++ pystr_of_string ".sav")
                    (pystr_of_string "application/x-spss-sav"));
  mret (Made data headers).

Definition pobierz_sav_except (e : exn) : py World Response :=
  mret (TextStatus (blad_sav ++ exn_str P e) 500).

(** The view of ["/pobierz_sav"]. *)
Definition pobierz_sav : py World Response :=
  known ← session_contains "user_id";
  if negb known then redirect_url_for "index" []
  else if negb (HAS_PYREADSTAT P) then mret (TextStatus blad_serwera 500)
  else
    user_id ← session_get "user_id";
    df ← with_rng (generuj_dane_studenta L user_id 100);
    '(fd, path) ← tempfile_mkstemp ".sav";
    try_finally
      (try_except (pobierz_sav_try user_id df fd path) pobierz_sav_except)
      (remove_if_exists path).

(** The view of ["/sprawdz"]. *)
Definition sprawdz : py World Response := redirect_url_for "index" [].

End Routes.

Arguments session {L P} w.
Arguments rng {L P} w.
Arguments random_source {L P} w.
Arguments files {L P} w.
Arguments set_session {L P} s w.
Arguments set_rng {L P} s w.
Arguments set_random_source {L P} e w.
Arguments set_files {L P} f w.
Arguments keeps {L P A T} component m.
Arguments keeps_session {L P A} m.
Arguments keeps_random_source {L P A} m.

(** *** A reference platform

    Simple stand-ins with the signatures of [Platform], to evaluate the
    routes on concrete requests: identifiers from a linear congruential
    generator, a page that shows the identifier and the four verdicts, and a
    file system that is a list of named files. *)
Module StubPlatform.

Definition join (sep : pystr) (parts : list pystr) : pystr :=
  match parts with
  | [] => []
  | x :: rest => x ++ flat_map (fun y => sep ++ y) rest
  end.

Definition show_Z (z : Z) : pystr :=
  (if z <? 0 then pystr_of_string "-" else [])
  ++ pystr_of_string (digits (Z.to_N (Z.abs z))).

Definition bytes_of (s : pystr) : list byte :=
  match encode_utf8 s with Ok bs => bs | Raise _ => [] end.

(** One line per record, after the line of the column names; fields
    separated by semicolons. *)
Definition csv (df : DataFrame) : list byte :=
  bytes_of
    (flat_map (fun line => line ++ [10%N])
       (join [59%N] (map pystr_of_string (df_columns df))
        :: map (fun row => join [59%N] (map show_Z row)) (df_values df))).

Definition show_value (v : option value) : pystr :=
  match v with
  | Some (VStr s) => pystr_of_string s
  | _ => []
  end.

Definition page (name : string) (user_id : pystr) (answers : gmap string value) : pystr :=
  pystr_of_string name ++ [58%N] ++ user_id ++ [58%N]
  ++ join [59%N] (map (fun k => show_value (answers !! k))
                    ["h1_decyzja"; "h2_decyzja"; "h3_decyzja"; "h4_decyzja"]%string).

Definition query (values : list (string * pystr)) : pystr :=
  match values with
  | [] => []
  | _ => [63%N] ++ join [38%N] (map (fun kv : string * pystr =>
                                       pystr_of_string kv.1 ++ [61%N] ++ kv.2) values)
  end.

Definition disk : Type := list (pystr * list byte).

Fixpoint lookup_file (path : pystr) (d : disk) : option (list byte) :=
  match d with
  | [] => None
  | (p, data) :: rest =>
      if bool_decide (p = path) then Some data else lookup_file path rest
  end.

Fixpoint remove_file (path : pystr) (d : disk) : disk :=
  match d with
  | [] => []
  | (p, data) :: rest =>
      if bool_decide (p = path) then remove_file path rest
      else (p, data) :: remove_file path rest
  end.

Definition temp_path (suffix : string) (e : Z) : pystr :=
  pystr_of_string "/tmp/tmp" ++ pystr_of_string (hexdigest (MD5.le_bytes 4 e))
  ++ pystr_of_string suffix.

(** The platform, for a given [write_sav]. *)
Definition with_write_sav (f : DataFrame -> pystr -> disk -> result unit * disk)
    (has_pyreadstat : bool) : Platform := {|
  entropy := Z;
  uuid4_str := fun s =>
    (pystr_of_string (hexdigest (MD5.le_bytes 4 (Stub.next s)))
     ++ pystr_of_string "-0000-4000-8000-000000000000", Stub.next s);
  url_for := fun endpoint values =>
    if String.eqb endpoint "index" then Ok (pystr_of_string "/" ++ query values)
    else Raise LibraryError;
  render_template := fun name user_id answers => Ok (page name user_id answers);
  to_csv := fun df => Ok (csv df);
  HAS_PYREADSTAT := has_pyreadstat;
  filesystem := disk;
  mkstemp := fun suffix d e =>
    let path := temp_path suffix (Stub.next e) in
    (Ok (Z.of_nat (3 + length d), path), (path, []) :: d, Stub.next e);
  os_close := fun _ d => (Ok tt, d);
  write_sav := f;
  read_binary := fun path d =>
    (match lookup_file path d with Some data => Ok data | None => Raise LibraryError end, d);
  os_path_exists := fun path d =>
    match lookup_file path d with Some _ => true | None => false end;
  os_remove := fun path d =>
    match lookup_file path d with
    | Some _ => (Ok tt, remove_file path d)
    | None => (Raise LibraryError, d)
    end;
  exn_str := fun e =>
    match e with
    | UnicodeEncodeError => pystr_of_string "UnicodeEncodeError"
    | ValueError => pystr_of_string "ValueError"
    | KeyError => pystr_of_string "KeyError"
    | TypeError => pystr_of_string "TypeError"
    | LibraryError => pystr_of_string "LibraryError"
    end
|}.

(** [write_sav] writes the table to the named file. *)
Definition platform : Platform :=
  with_write_sav (fun df path d => (Ok tt, (path, csv df) :: remove_file path d)) true.

(** [write_sav] raises and leaves the file as it was. *)
Definition platform_write_fails : Platform :=
  with_write_sav (fun _ _ d => (Raise LibraryError, d)) true.

(** [pyreadstat] is not installed. *)
Definition platform_no_pyreadstat : Platform :=
  with_write_sav (fun _ _ d => (Raise LibraryError, d)) false.

(** A GET request with the given arguments in its URL, and a POST request
    with the given form and arguments. *)
Definition GET (a : multidict) : Request :=
  {| method := "GET"; form := []; args := a |}.

Definition POST (f a : multidict) : Request :=
  {| method := "POST"; form := f; args := a |}.

(** A client without a session, and one whose session holds an identifier. *)
Definition fresh (P : Platform) (e : entropy P) (f : filesystem P) : World Stub.libs P :=
  {| session := ∅; rng := 0 : rng_state Stub.libs; random_source := e; files := f |}.

Definition with_id (P : Platform) (user_id : pystr) (e : entropy P) (f : filesystem P)
    : World Stub.libs P :=
  {| session := {[ "user_id"%string := user_id ]}; rng := 0 : rng_state Stub.libs;
     random_source := e; files := f |}.

End StubPlatform.

(** The request does not set the identifier by hand: it is no POST, or its
    form has no field [manual_id], or an empty one. *)
Definition no_manual_id (request : Request) : Prop :=
  method request <> "POST"%string \/
  multidict_get "manual_id" (form request) = None \/
  multidict_get "manual_id" (form request) = Some [].

(** The request names no identifier in its URL: it has no argument
    [user_id], or an empty one. *)
Definition no_url_id (request : Request) : Prop :=
  multidict_get "user_id" (args request) = None \/
  multidict_get "user_id" (args request) = Some [].
(** * Properties *)

(** ** Comparisons *)

Lemma Qltb_lt (a b : Q) : Qltb a b = true <-> (a < b)%Q.
Proof.
  unfold Qltb, Qcompare, Qlt.
  destruct (Z.compare_spec (Qnum a * QDen b) (Qnum b * QDen a));
    split; intros; try congruence; lia.
Qed.

Lemma Qltb_ge (a b : Q) : Qltb a b = false <-> (b <= a)%Q.
Proof.
  split.
  - intros H. apply Qnot_lt_le. intros H'. apply Qltb_lt in H'. congruence.
  - intros H. destruct (Qltb a b) eqn:E; [|reflexivity].
    apply Qltb_lt in E. exfalso. apply (Qlt_not_le _ _ E H).
Qed.

Lemma Qgeb_ge (a b : Q) : Qgeb a b = true <-> (b <= a)%Q.
Proof.
  unfold Qgeb. split.
  - intros H. apply Qltb_ge. destruct (Qltb a b); simpl in H; congruence.
  - intros H. apply Qltb_ge in H. rewrite H. reflexivity.
Qed.

(** Case analysis on a comparison, with the order fact in the context. *)
Ltac case_Qltb a b :=
  let E := fresh "E" in
  destruct (Qltb a b) eqn:E;
  [apply Qltb_lt in E | apply Qltb_ge in E].

(** ** The model on concrete inputs *)

Example encode_utf8_examples :
  encode_utf8 (pystr_of_string "abc") = Ok [x61; x62; x63] /\
  encode_utf8 [0x141; 0x75; 0x6B; 0x61; 0x73; 0x7A]%N
    = Ok [xc5; x81; x75; x6b; x61; x73; x7a] /\
  encode_utf8 [0xE9%N] = Ok [xc3; xa9] /\
  encode_utf8 [0x20AC%N] = Ok [xe2; x82; xac] /\
  encode_utf8 [0x1F600%N] = Ok [xf0; x9f; x98; x80] /\
  encode_utf8 [] = Ok [] /\
  encode_utf8 [0x61%N; 0xDFFF%N] = Raise UnicodeEncodeError.
Proof. repeat split; reflexivity. Qed.

(** Digests of the test suite of RFC 1321. *)
Example md5_test_suite :
  hexdigest (MD5.digest []) = "d41d8cd98f00b204e9800998ecf8427e" /\
  encode_utf8 (pystr_of_string "a") ≫= (fun bs => Ok (hexdigest (MD5.digest bs)))
    = Ok "0cc175b9c0f1b6a831c399e269772661" /\
  encode_utf8 (pystr_of_string "abc") ≫= (fun bs => Ok (hexdigest (MD5.digest bs)))
    = Ok "900150983cd24fb0d6963f7d28e17f72" /\
  encode_utf8 (pystr_of_string "message digest")
    ≫= (fun bs => Ok (hexdigest (MD5.digest bs)))
    = Ok "f96b697d7cb7938d525a2f31aaf161d0" /\
  encode_utf8 (pystr_of_string "abcdefghijklmnopqrstuvwxyz")
    ≫= (fun bs => Ok (hexdigest (MD5.digest bs)))
    = Ok "c3fcd3d76192e4007dfb496cca67e13b" /\
  encode_utf8 (pystr_of_string
    "12345678901234567890123456789012345678901234567890123456789012345678901234567890")
    ≫= (fun bs => Ok (hexdigest (MD5.digest bs)))
    = Ok "57edf4a22be3c955ac49da2e2107b67a".
Proof. repeat split; vm_compute; reflexivity. Qed.

(** Seeds, with MD5 for [md5]: the empty identifier, two ASCII identifiers
    and the identifier "zażółć". *)
Example seed_of_examples :
  seed_of Stub.libs [] = Ok 3975692926 /\
  seed_of Stub.libs (pystr_of_string "abc") = Ok 685866866 /\
  seed_of Stub.libs (pystr_of_string "JanKowalski") = Ok 1059381170 /\
  seed_of Stub.libs [122; 97; 380; 243; 322; 263]%N = Ok 3407146088 /\
  seed_of Stub.libs [0x141; 0x75; 0x6B; 0x61; 0x73; 0x7A]%N = Ok 3798957277 /\
  seed_of Stub.libs [0x20AC]%N = Ok 2548648570 /\
  seed_of Stub.libs [0x1F600]%N = Ok 408496054 /\
  seed_of Stub.libs [0xD800%N] = Raise UnicodeEncodeError.
Proof. repeat split; vm_compute; reflexivity. Qed.

Example int_base16_examples :
  int_base16 "ff" = Ok 255 /\
  int_base16 "FfA0" = Ok 65440 /\
  int_base16 EmptyString = Raise ValueError /\
  int_base16 "12g4" = Raise ValueError.
Proof. repeat split; reflexivity. Qed.

Example rint_examples :
  map rint [0.5; 1.5; 2.5; -0.5; -1.5; 2.4; 2.6; -2.6; 7]%Q = [0; 2; 2; 0; -2; 2; 3; -3; 7].
Proof. reflexivity. Qed.

Example clip_examples :
  map (fun x => clip x 5 20) [-3; 4; 5; 12; 20; 21; 40] = [5; 5; 5; 12; 20; 20; 20].
Proof. reflexivity. Qed.

(** [np.rint(x).astype(int)] and the clipping that follows. *)
Example astype_int_examples :
  map (fun x => astype_int (np_rint x))
    [Finite 11.5; Finite (-0.4); NegZero; Finite 1e19; Finite (-1e19); Inf false; NaN]
  = [12; 0; 0; - 2 ^ 63; - 2 ^ 63; - 2 ^ 63; - 2 ^ 63] /\
  map (fun x => clip (astype_int (np_rint x)) 5 20)
    [Finite 11.5; Finite 3.2; Finite 27; Finite 1e19; NaN]
  = [12; 5; 20; 5; 5].
Proof. split; vm_compute; reflexivity. Qed.

Example ocen_sile_examples :
  ocen_sile (Finite 0.05) = "brak" /\
  ocen_sile (Finite 0.2) = "słaby" /\
  ocen_sile (Finite float_0_3) = "umiarkowany" /\
  ocen_sile (Finite (-0.7)) = "silny" /\
  ocen_sile NegZero = "brak" /\
  ocen_sile NaN = "silny".
Proof. repeat split; reflexivity. Qed.

Example ocen_kierunek_examples :
  ocen_kierunek (Finite 0.05) = "związku" /\
  ocen_kierunek (Finite (-0.099)) = "związku" /\
  ocen_kierunek (Finite 0.1) = "pozytywny" /\
  ocen_kierunek (Finite (-0.1)) = "negatywny" /\
  ocen_kierunek NegZero = "związku" /\
  ocen_kierunek NaN = "negatywny".
Proof. repeat split; reflexivity. Qed.

Example format_r_z_gwiazdkami_examples :
  format_r_z_gwiazdkami (Finite (-0.551)) (Finite 0.0001) = "-0,55***" /\
  format_r_z_gwiazdkami (Finite 0.3) (Finite 0.001) = "0,30**" /\
  format_r_z_gwiazdkami (Finite 0.125) (Finite 0.049) = "0,12*" /\
  format_r_z_gwiazdkami (Finite 0.375) (Finite 0.05) = "0,38" /\
  format_r_z_gwiazdkami (Finite (-0.001)) (Finite 0.9) = "-0,00" /\
  format_r_z_gwiazdkami (Finite 1) (Finite 0) = "1,00***" /\
  format_r_z_gwiazdkami NegZero (Finite 0.01) = "-0,00*" /\
  format_r_z_gwiazdkami (Finite 1) NaN = "1,00" /\
  format_r_z_gwiazdkami NaN NaN = "nan".
Proof. repeat split; vm_compute; reflexivity. Qed.

(** The four verdicts for a p-value that is NaN. *)
Example decyzja_nan_examples :
  h1_decyzja (Finite (-1)) NaN = "nie potwierdza" /\
  h2_decyzja (Finite 1) NaN = "nie potwierdza" /\
  h3_decyzja (Finite (-1)) NaN = "nie potwierdza" /\
  h4_decyzja (Finite 1) NaN = "potwierdza".
Proof. repeat split; reflexivity. Qed.

(** [df[name]] on a table with a second column called Ekstrawersja. *)
Example df_col_examples :
  df_col Stub.small_df "Neurotyzm" = Ok (Series [11; 15; 8]) /\
  df_col Stub.small_df "Wiek" = Raise KeyError /\
  df_col Stub.duplicate_df "Neurotyzm" = Ok (Series [11; 15; 8]) /\
  df_col Stub.duplicate_df "Ekstrawersja" = Ok (Frame [[12; 9; 16]; [7; 8; 9]]) /\
  df_cols Stub.duplicate_df vars_list
  = Ok [[12; 9; 16]; [7; 8; 9]; [11; 15; 8]; [13; 10; 14]; [14; 12; 15]; [15; 13; 17]].
Proof. repeat split; reflexivity. Qed.

Example spec_parse_back_examples :
  spec_parse_back "-0,55***" = Some (-0.55)%Q /\
  spec_parse_back "0,30**" = Some 0.30%Q /\
  spec_parse_back "1,00" = Some 1.00%Q.
Proof. repeat split; vm_compute; reflexivity. Qed.

(** ** Doubles *)

Lemma inject_Z_pow2_pos (k : Z) : 0 <= k -> (0 < inject_Z (2 ^ k))%Q.
Proof.
  intros H. change 0%Q with (inject_Z 0). rewrite <- Zlt_Qlt.
  apply Z.pow_pos_nonneg; lia.
Qed.

(** A double that is at least [2^52 / 2^j] is a multiple of [1 / 2^j]. *)
Lemma double_grid (q : Q) (j : Z) :
  is_double q -> 0 <= j ->
  (inject_Z (2 ^ 52) <= q * inject_Z (2 ^ j))%Q ->
  exists K : Z, (q * inject_Z (2 ^ j) == inject_Z K)%Q.
Proof.
  intros (m & k & Hm & [[Hk E]|[Hk E]]) Hj H.
  - exists (m * 2 ^ k * 2 ^ j). rewrite E, <- inject_Z_mult. reflexivity.
  - assert (Hle : 2 ^ 52 * 2 ^ k <= m * 2 ^ j).
    { rewrite Zle_Qle, !inject_Z_mult, <- E.
      pose proof (inject_Z_pow2_pos k ltac:(lia)) as Hpos.
      assert (Ex : (q * inject_Z (2 ^ k) * inject_Z (2 ^ j)
                    == q * inject_Z (2 ^ j) * inject_Z (2 ^ k))%Q) by ring.
      rewrite Ex.
      apply Qmult_le_compat_r; [exact H | apply Qlt_le_weak; exact Hpos]. }
    assert (Hkj : k <= j).
    { destruct (Z_le_gt_dec k j) as [C|C]; [exact C|exfalso].
      assert (Hk' : 2 ^ k = 2 * 2 ^ j * 2 ^ (k - j - 1)).
      { rewrite <- (Z.pow_1_r 2) at 2. rewrite <- !Z.pow_add_r by lia. f_equal. lia. }
      assert (0 < 2 ^ j) by (apply Z.pow_pos_nonneg; lia).
      assert (0 < 2 ^ (k - j - 1)) by (apply Z.pow_pos_nonneg; lia).
      assert (m < 2 ^ 53) by lia.
      assert (m * 2 ^ j < 2 ^ 53 * 2 ^ j) by (apply Z.mul_lt_mono_pos_r; assumption).
      assert (2 ^ 52 * (2 * 2 ^ j) <= 2 ^ 52 * 2 ^ k).
      { rewrite Hk'. apply Z.mul_le_mono_nonneg_l; [lia|]. nia. }
      change (2 ^ 53) with (2 ^ 52 * 2) in *. lia. }
    exists (m * 2 ^ (j - k)).
    replace (2 ^ j) with (2 ^ k * 2 ^ (j - k))
      by (rewrite <- Z.pow_add_r by lia; f_equal; lia).
    rewrite !inject_Z_mult, <- E. ring.
Qed.

Lemma inject_Z_pred (n : Z) : (inject_Z n - 1 == inject_Z (n - 1))%Q.
Proof. unfold Z.sub, Qminus. rewrite inject_Z_plus. reflexivity. Qed.

Lemma inject_Z_succ (n : Z) : (inject_Z n + 1 == inject_Z (n + 1))%Q.
Proof. rewrite inject_Z_plus. reflexivity. Qed.

(** A double is [n / 2^j], or at least [1 / 2^j] away from it, when
    [n > 2^52]. *)
Lemma double_near (q : Q) (n j : Z) :
  is_double q -> 0 <= j -> 2 ^ 52 < n ->
  (q * inject_Z (2 ^ j) == inject_Z n \/
   q * inject_Z (2 ^ j) <= inject_Z n - 1 \/
   inject_Z n + 1 <= q * inject_Z (2 ^ j))%Q.
Proof.
  intros Hq Hj Hn.
  assert (Hn1 : (inject_Z (2 ^ 52) <= inject_Z n - 1)%Q).
  { rewrite inject_Z_pred, <- Zle_Qle. lia. }
  destruct (Qlt_le_dec (q * inject_Z (2 ^ j)) (inject_Z (2 ^ 52))) as [C|C].
  - right; left. lra.
  - destruct (double_grid q j Hq Hj C) as [K EK]. rewrite EK.
    rewrite inject_Z_pred, inject_Z_succ, <- !Zle_Qle, inject_Z_injective.
    lia.
Qed.

Lemma is_double_abs (q : Q) : is_double q -> is_double (Qabs q).
Proof.
  intros (m & k & Hm & [[Hk E]|[Hk E]]); exists (Z.abs m), k;
    (split; [rewrite Z.abs_idemp; exact Hm|]); [left|right];
    (split; [exact Hk|]).
  - rewrite E. assert (0 <= 2 ^ k) by (apply Z.pow_nonneg; lia).
    change (Qabs (inject_Z (m * 2 ^ k))) with (inject_Z (Z.abs (m * 2 ^ k))).
    rewrite Z.abs_mul, (Z.abs_eq (2 ^ k)) by assumption. reflexivity.
  - assert (Hp : (0 <= inject_Z (2 ^ k))%Q)
      by (apply Qlt_le_weak, inject_Z_pow2_pos; lia).
    rewrite <- (Qabs_pos _ Hp) at 1. rewrite <- Qabs_Qmult, E. reflexivity.
Qed.

(** Unfolds the powers of two of a fact of [double_near]. *)
Ltac pow2_norm H :=
  cbv [Z.pow Z.pow_pos Pos.iter Z.mul Pos.mul Pos.add Pos.succ] in H;
  unfold inject_Z in H.

Ltac double_cases q n j :=
  let C := fresh "C" in
  let Hq := fresh "Hq" in
  assert (Hq : is_double q) by assumption;
  destruct (double_near q n j Hq ltac:(lia) ltac:(lia)) as [C|[C|C]];
  pow2_norm C.

Ltac is_double_by m k :=
  exists m, k; split; [reflexivity|right; split; [lia|vm_compute; reflexivity]].

Ltac nearest_double_by n j :=
  split; [is_double_by n j|];
  let d' := fresh "d" in
  let Hd := fresh "Hd" in
  intros d' Hd; double_cases d' n j;
  unfold float_0_3; apply Qabs_case; intros; apply Qabs_case; intros; lra.

(** The doubles of the literals that the program compares with. *)
Lemma literal_0_3 : nearest_double 0.3 float_0_3.
Proof. nearest_double_by 5404319552844595 54. Qed.

Lemma literal_0_1 : nearest_double 0.1 (3602879701896397 # 36028797018963968).
Proof. nearest_double_by 7205759403792794 56. Qed.

Lemma literal_0_5 : nearest_double 0.5 0.5.
Proof.
  split; [is_double_by 1 1|].
  intros d' _. apply Qabs_case; intros; apply Qabs_case; intros; lra.
Qed.

Lemma literal_0_05 : nearest_double 0.05 (3602879701896397 # 72057594037927936).
Proof. nearest_double_by 7205759403792794 57. Qed.

Lemma literal_0_01 : nearest_double 0.01 (5764607523034235 # 576460752303423488).
Proof. nearest_double_by 5764607523034235 59. Qed.

Lemma literal_0_001 : nearest_double 0.001 (1152921504606847 # 1152921504606846976).
Proof. nearest_double_by 4611686018427388 62. Qed.

Lemma literal_0_099 : nearest_double 0.099 (3566850904877433 # 36028797018963968).
Proof. nearest_double_by 7133701809754866 56. Qed.

Lemma literal_0_299 : nearest_double 0.299 (5386305154335113 # 18014398509481984).
Proof. nearest_double_by 5386305154335113 54. Qed.

Lemma literal_0_499 : nearest_double 0.499 (4494592428115755 # 9007199254740992).
Proof. nearest_double_by 8989184856231510 54. Qed.

(** A literal denotes one double. *)
Ltac literal_unique n j known :=
  let Hd := fresh "Hd" in
  let Hn := fresh "Hn" in
  intros [Hd Hn]; specialize (Hn _ (proj1 known));
  match type of Hd with is_double ?d => double_cases d n j end;
  unfold float_0_3 in *; revert Hn;
  apply Qabs_case; intros ?; apply Qabs_case; intros; lra.

Lemma literal_0_3_unique (d : Q) : nearest_double 0.3 d -> (d == float_0_3)%Q.
Proof. literal_unique 5404319552844595 54 literal_0_3. Qed.

Lemma literal_0_1_unique (d : Q) :
  nearest_double 0.1 d -> (d == 3602879701896397 # 36028797018963968)%Q.
Proof. literal_unique 7205759403792794 56 literal_0_1. Qed.

Lemma literal_0_5_unique (d : Q) : nearest_double 0.5 d -> (d == 0.5)%Q.
Proof.
  intros [Hd Hn]. specialize (Hn _ (proj1 literal_0_5)).
  revert Hn. apply Qabs_case; intros ?; apply Qabs_case; intros; lra.
Qed.

(** Why the literals 0.1, 0.05, 0.01 and 0.001 are written as decimals: a
    double is below the double of the literal exactly when it is below the
    decimal.  For 0.3 the two differ at one double, the literal itself. *)
Lemma double_below_literal (q : Q) :
  is_double q ->
  ((q < 0.1)%Q <-> (q < 3602879701896397 # 36028797018963968)%Q) /\
  ((q < 0.05)%Q <-> (q < 3602879701896397 # 72057594037927936)%Q) /\
  ((q < 0.01)%Q <-> (q < 5764607523034235 # 576460752303423488)%Q) /\
  ((q < 0.001)%Q <-> (q < 1152921504606847 # 1152921504606846976)%Q) /\
  ((q < float_0_3)%Q <-> (q < 0.3)%Q /\ ~ (q == float_0_3)%Q).
Proof.
  intros Hq. unfold float_0_3. repeat split; intros.
  - lra.
  - double_cases q 7205759403792794 56; lra.
  - lra.
  - double_cases q 7205759403792794 57; lra.
  - lra.
  - double_cases q 5764607523034235 59; lra.
  - lra.
  - double_cases q 4611686018427388 62; lra.
  - lra.
  - lra.
  - double_cases q 5404319552844595 54; lra.
Qed.

(** ** The strength classifier *)

Lemma Qltb_comp (a a' b : Q) : (a == a')%Q -> Qltb a b = Qltb a' b.
Proof.
  intros H. case_Qltb a b; case_Qltb a' b; try reflexivity; rewrite H in *; lra.
Qed.

Lemma ocen_sile_Finite (r : Q) :
  (ocen_sile (Finite r) = "brak" <-> (Qabs r < 0.1)%Q) /\
  (ocen_sile (Finite r) = "słaby" <-> (0.1 <= Qabs r < float_0_3)%Q) /\
  (ocen_sile (Finite r) = "umiarkowany" <-> (float_0_3 <= Qabs r < 0.5)%Q) /\
  (ocen_sile (Finite r) = "silny" <-> (0.5 <= Qabs r)%Q).
Proof.
  unfold ocen_sile. cbv zeta. cbn [float_abs float_lt].
  case_Qltb (Qabs r) 0.1%Q;
    [|case_Qltb (Qabs r) float_0_3; [|case_Qltb (Qabs r) 0.5%Q]];
    unfold float_0_3 in *;
    (repeat split; try assumption; try reflexivity; try discriminate; intros; lra).
Qed.

Lemma ocen_sile_comp (r r' : Q) :
  (Qabs r == Qabs r')%Q -> ocen_sile (Finite r) = ocen_sile (Finite r').
Proof.
  intros H. unfold ocen_sile. cbv zeta. cbn [float_abs float_lt].
  rewrite !(Qltb_comp _ _ _ H). reflexivity.
Qed.

(** C6.  The strength classifier [ocen_sile].  For every finite coefficient
    [r] the label is "brak" (none) exactly when [|r| < 0.1], "słaby" (weak)
    exactly when [0.1 <= |r| < 0.3], "umiarkowany" (moderate) exactly when
    [0.3 <= |r| < 0.5] and "silny" (strong) exactly when [|r| >= 0.5], where
    0.3 is the double that the literal denotes, [float_0_3], the double
    nearest to 3/10; the label of [-r] is the label of [r].  For a double
    [r] the same holds with 0.1, 0.3 and 0.5 read as the doubles that the
    three literals denote, and with 0.3 read as 3/10 at every double but
    [|r| = float_0_3], which is below 3/10 and moderate.  The doubles that
    the literals 0.099, 0.1, 0.299, 0.3, 0.499 and 0.5 denote get none,
    weak, weak, moderate, moderate and strong, as do their negatives.  The
    negative zero gets none; the infinities and NaN get strong. *)
Theorem ocen_sile_thresholds (r : Q) :
  (ocen_sile (Finite r) = "brak" <-> (Qabs r < 0.1)%Q) /\
  (ocen_sile (Finite r) = "słaby" <-> (0.1 <= Qabs r < float_0_3)%Q) /\
  (ocen_sile (Finite r) = "umiarkowany" <-> (float_0_3 <= Qabs r < 0.5)%Q) /\
  (ocen_sile (Finite r) = "silny" <-> (0.5 <= Qabs r)%Q) /\
  ocen_sile (Finite (- r)) = ocen_sile (Finite r) /\
  (nearest_double 0.3 float_0_3 /\ (float_0_3 < 0.3)%Q) /\
  (forall d1 d3 d5 : Q,
     nearest_double 0.1 d1 -> nearest_double 0.3 d3 -> nearest_double 0.5 d5 ->
     is_double r ->
     (ocen_sile (Finite r) = "brak" <-> (Qabs r < d1)%Q) /\
     (ocen_sile (Finite r) = "słaby" <-> (d1 <= Qabs r < d3)%Q) /\
     (ocen_sile (Finite r) = "umiarkowany" <-> (d3 <= Qabs r < d5)%Q) /\
     (ocen_sile (Finite r) = "silny" <-> (d5 <= Qabs r)%Q)) /\
  (is_double r ->
     (ocen_sile (Finite r) = "słaby"
      <-> (0.1 <= Qabs r < 0.3)%Q /\ ~ (Qabs r == float_0_3)%Q) /\
     (ocen_sile (Finite r) = "umiarkowany"
      <-> (0.3 <= Qabs r < 0.5)%Q \/ (Qabs r == float_0_3)%Q)) /\
  (nearest_double 0.099 (3566850904877433 # 36028797018963968) /\
   forall d : Q, nearest_double 0.099 d ->
     ocen_sile (Finite d) = "brak" /\ ocen_sile (Finite (- d)) = "brak") /\
  (nearest_double 0.1 (3602879701896397 # 36028797018963968) /\
   forall d : Q, nearest_double 0.1 d ->
     ocen_sile (Finite d) = "słaby" /\ ocen_sile (Finite (- d)) = "słaby") /\
  (nearest_double 0.299 (5386305154335113 # 18014398509481984) /\
   forall d : Q, nearest_double 0.299 d ->
     ocen_sile (Finite d) = "słaby" /\ ocen_sile (Finite (- d)) = "słaby") /\
  (nearest_double 0.3 float_0_3 /\
   forall d : Q, nearest_double 0.3 d ->
     ocen_sile (Finite d) = "umiarkowany" /\ ocen_sile (Finite (- d)) = "umiarkowany") /\
  (nearest_double 0.499 (4494592428115755 # 9007199254740992) /\
   forall d : Q, nearest_double 0.499 d ->
     ocen_sile (Finite d) = "umiarkowany" /\ ocen_sile (Finite (- d)) = "umiarkowany") /\
  (nearest_double 0.5 0.5 /\
   forall d : Q, nearest_double 0.5 d ->
     ocen_sile (Finite d) = "silny" /\ ocen_sile (Finite (- d)) = "silny") /\
  ocen_sile NegZero = "brak" /\
  ocen_sile (Inf false) = "silny" /\ ocen_sile (Inf true) = "silny" /\
  ocen_sile NaN = "silny".
Proof.
  assert (Hsym : forall q, ocen_sile (Finite (- q)) = ocen_sile (Finite q)).
  { intros q. apply ocen_sile_comp. rewrite Qabs_opp. reflexivity. }
  assert (Hnear : forall c d0 d label,
            is_double d0 -> nearest_double c d ->
            (forall q, (Qabs (q - c) <= Qabs (d0 - c))%Q ->
                       ocen_sile (Finite q) = label) ->
            ocen_sile (Finite d) = label /\ ocen_sile (Finite (- d)) = label).
  { intros c d0 d label H0 [_ Hn] H. rewrite Hsym.
    split; apply H, Hn, H0. }
  destruct (ocen_sile_Finite r) as (B & S & U & T).
  split; [exact B|]. split; [exact S|]. split; [exact U|]. split; [exact T|].
  split; [apply Hsym|].
  split; [split; [exact literal_0_3|unfold float_0_3; lra]|].
  split.
  { intros d1 d3 d5 H1 H3 H5 Hr.
    apply literal_0_1_unique in H1. apply literal_0_3_unique in H3.
    apply literal_0_5_unique in H5.
    destruct (double_below_literal _ (is_double_abs r Hr)) as (L1 & _).
    rewrite B, S, U, T, H1, H3, H5. unfold float_0_3 in *.
    repeat split; intros; try lra;
      destruct (Qlt_le_dec (Qabs r) 0.1); try lra;
      apply L1 in q; lra. }
  split.
  { intros Hr.
    destruct (double_below_literal _ (is_double_abs r Hr)) as (_ & _ & _ & _ & L3).
    rewrite S, U. unfold float_0_3 in *. split; split.
    - intros [H1 H2]. apply L3 in H2. split; [lra|tauto].
    - intros [[H1 H2] H3]. split; [exact H1|]. apply L3. split; assumption.
    - intros [H1 H2]. destruct (Qlt_le_dec (Qabs r) 0.3) as [C|C]; [|left; lra].
      right. destruct (Qeq_dec (Qabs r) (5404319552844595 # 18014398509481984)) as [E|E];
        [exact E|]. exfalso. apply (Qle_not_lt _ _ H1), L3. split; assumption.
    - intros [[H1 H2]|H]; lra. }
  split; [split; [exact literal_0_099|]|].
  { intros d Hd.
    apply (Hnear 0.099%Q (3566850904877433 # 36028797018963968) d "brak");
      [is_double_by 7133701809754866 56|exact Hd|].
    intros q. destruct (ocen_sile_Finite q) as (-> & _).
    do 3 (apply Qabs_case; intros ?); lra. }
  split; [split; [exact literal_0_1|]|].
  { intros d Hd. apply literal_0_1_unique in Hd.
    rewrite Hsym. split; destruct (ocen_sile_Finite d) as (_ & -> & _);
      rewrite Hd, Qabs_pos; unfold float_0_3; lra. }
  split; [split; [exact literal_0_299|]|].
  { intros d Hd.
    apply (Hnear 0.299%Q (5386305154335113 # 18014398509481984) d "słaby");
      [is_double_by 5386305154335113 54|exact Hd|].
    intros q. destruct (ocen_sile_Finite q) as (_ & -> & _). unfold float_0_3.
    do 3 (apply Qabs_case; intros ?); lra. }
  split; [split; [exact literal_0_3|]|].
  { intros d Hd. apply literal_0_3_unique in Hd.
    rewrite Hsym. split; destruct (ocen_sile_Finite d) as (_ & _ & -> & _);
      rewrite Hd, Qabs_pos; unfold float_0_3; lra. }
  split; [split; [exact literal_0_499|]|].
  { intros d Hd.
    apply (Hnear 0.499%Q (4494592428115755 # 9007199254740992) d "umiarkowany");
      [is_double_by 4494592428115755 53|exact Hd|].
    intros q. destruct (ocen_sile_Finite q) as (_ & _ & -> & _). unfold float_0_3.
    do 3 (apply Qabs_case; intros ?); lra. }
  split; [split; [exact literal_0_5|]|].
  { intros d Hd. apply literal_0_5_unique in Hd.
    rewrite Hsym. split; destruct (ocen_sile_Finite d) as (_ & _ & _ & ->);
      rewrite Hd, Qabs_pos; lra. }
  repeat split; reflexivity.
Qed.

(** ** Rounding and clipping *)

Ltac inject_Z_norm :=
  rewrite ?inject_Z_plus, ?inject_Z_opp in *;
  change (inject_Z 1) with 1%Q in *.

Lemma rint_nearest_even (q : Q) : nearest_even q (rint q).
Proof.
  unfold nearest_even, rint. cbv zeta.
  pose proof (Qfloor_le q) as Hlo. pose proof (Qlt_floor q) as Hhi.
  inject_Z_norm.
  destruct (Qcompare_spec (q - inject_Z (Qfloor q)) (1 # 2)) as [E|E|E];
    cbv beta iota.
  - destruct (Z.even (Qfloor q)) eqn:Ev; cbv beta iota.
    + split; [lra|]. intros _. exact Ev.
    + inject_Z_norm. split; [lra|]. intros _.
      rewrite Z.even_add, Ev. reflexivity.
  - split; [lra|]. intros [H|H]; lra.
  - inject_Z_norm. split; [lra|]. intros [H|H]; lra.
Qed.

Lemma nearest_even_unique (q : Q) (z1 z2 : Z) :
  nearest_even q z1 -> nearest_even q z2 -> z1 = z2.
Proof.
  intros [B1 E1] [B2 E2].
  assert (H12 : (inject_Z z1 <= inject_Z (z2 + 1))%Q) by (inject_Z_norm; lra).
  assert (H21 : (inject_Z z2 <= inject_Z (z1 + 1))%Q) by (inject_Z_norm; lra).
  rewrite <- Zle_Qle in H12, H21.
  assert (C : z1 = z2 \/ z1 = z2 + 1 \/ z2 = z1 + 1) by lia.
  destruct C as [C|[C|C]]; [exact C| |]; exfalso; subst.
  - inject_Z_norm.
    assert (Z.even (z2 + 1) = true) by (apply E1; right; lra).
    assert (Z.even z2 = true) by (apply E2; left; lra).
    rewrite Z.even_add in *. destruct (Z.even z2); simpl in *; congruence.
  - inject_Z_norm.
    assert (Z.even (z1 + 1) = true) by (apply E2; right; lra).
    assert (Z.even z1 = true) by (apply E1; left; lra).
    rewrite Z.even_add in *. destruct (Z.even z1); simpl in *; congruence.
Qed.




Lemma rint_inject_Z (z : Z) : rint (inject_Z z) = z.
Proof.
  apply (nearest_even_unique (inject_Z z)); [apply rint_nearest_even|].
  split; [lra|]. intros [C|C]; lra.
Qed.

Lemma rint_nonneg (q : Q) : (0 <= q)%Q -> 0 <= rint q.
Proof.
  intros H. destruct (rint_nearest_even q) as [B _].
  assert (C : (inject_Z (-1) < inject_Z (rint q))%Q) by (change (inject_Z (-1)) with (-1 # 1)%Q; lra).
  rewrite <- Zlt_Qlt in C. lia.
Qed.

Lemma clip_range (x : Z) : 5 <= clip x 5 20 <= 20.
Proof. unfold clip. lia. Qed.


Lemma clip_cases (x lo hi : Z) :
  lo <= hi ->
  (x <= lo -> clip x lo hi = lo) /\
  (lo <= x <= hi -> clip x lo hi = x) /\
  (hi <= x -> clip x lo hi = hi).
Proof. unfold clip. lia. Qed.

Lemma Qtrunc_inject_Z (z : Z) : Qtrunc (inject_Z z) = z.
Proof.
  unfold Qtrunc. rewrite Qceiling_Z, Qfloor_Z. destruct (Qltb _ _); reflexivity.
Qed.

(** [np.rint(x).astype(int)] for a finite [x]: the nearest integer when it
    is an int64. *)
Lemma astype_int_np_rint (q : Q) :
  astype_int (np_rint (Finite q))
  = if (- 2 ^ 63 <=? rint q) && (rint q <? 2 ^ 63) then rint q else - 2 ^ 63.
Proof.
  unfold np_rint.
  destruct (Z.eqb_spec (rint q) 0) as [E|E]; [destruct (Qltb q 0)|]; cbn [andb].
  - rewrite E. reflexivity.
  - cbn [astype_int]. rewrite Qtrunc_inject_Z. reflexivity.
  - cbn [astype_int]. rewrite Qtrunc_inject_Z. reflexivity.
Qed.

Lemma astype_int_np_rint_int64 (q : Q) :
  - 2 ^ 63 <= rint q < 2 ^ 63 -> astype_int (np_rint (Finite q)) = rint q.
Proof.
  intros H. rewrite astype_int_np_rint.
  destruct (Z.leb_spec (- 2 ^ 63) (rint q)); [|lia].
  destruct (Z.ltb_spec (rint q) (2 ^ 63)); [reflexivity|lia].
Qed.

Lemma astype_int_np_rint_overflow (x : float) :
  match x with
  | Finite q => rint q < - 2 ^ 63 \/ 2 ^ 63 <= rint q
  | NegZero => False
  | Inf _ | NaN => True
  end ->
  astype_int (np_rint x) = - 2 ^ 63.
Proof.
  destruct x as [q| | |]; try reflexivity; [|intros []].
  intros H. rewrite astype_int_np_rint.
  destruct (Z.leb_spec (- 2 ^ 63) (rint q)); [|reflexivity].
  destruct (Z.ltb_spec (rint q) (2 ^ 63)); [lia|reflexivity].
Qed.
(** ** The monads *)

Lemma bind_Ok_inv {A B} (m : result A) (f : A -> result B) (b : B) :
  m ≫= f = Ok b -> exists a, m = Ok a /\ f a = Ok b.
Proof. destruct m as [a|e]; simpl; [eauto | discriminate]. Qed.

Lemma is_ok_succeeds {A} (m : result A) : is_ok m = true -> succeeds m.
Proof. destruct m as [a|e]; [eexists; reflexivity|discriminate]. Qed.

Lemma Ok_inj {A} (a b : A) : Ok a = Ok b -> a = b.
Proof. intros [= H]. exact H. Qed.

(** ** Seed derivation *)

Lemma hex_value_digit (n : N) :
  (n < 16)%N -> hex_value (hex_digit n) = Some (Z.of_N n).
Proof.
  intros H.
  assert (C : In n (map N.of_nat (seq 0 16))).
  { apply in_map_iff. exists (N.to_nat n). split; [lia|]. apply in_seq. lia. }
  simpl in C. repeat destruct C as [<-|C]; try reflexivity. destruct C.
Qed.

Lemma int16_digits_cons (c : ascii) (d : Z) (s : string) (acc : Z) :
  hex_value c = Some d ->
  int16_digits (String c s) acc = int16_digits s (16 * acc + d).
Proof. intros H. cbn [int16_digits]. rewrite H. reflexivity. Qed.

Lemma int16_digits_hex_of_byte (b : byte) (s : string) (acc : Z) :
  int16_digits (hex_of_byte b +:+ s) acc
  = int16_digits s (256 * acc + Z.of_N (Byte.to_N b)).
Proof.
  pose proof (Byte.to_N_bounded b) as Hb.
  unfold hex_of_byte.
  change (String ?a (String ?c EmptyString) +:+ s) with (String a (String c s)).
  rewrite (int16_digits_cons _ (Z.of_N (Byte.to_N b / 16)))
    by (apply hex_value_digit, N.Div0.div_lt_upper_bound; lia).
  rewrite (int16_digits_cons _ (Z.of_N (Byte.to_N b mod 16)))
    by (apply hex_value_digit, N.mod_lt; lia).
  f_equal. pose proof (N.div_mod (Byte.to_N b) 16). lia.
Qed.

Lemma int16_digits_hexdigest (d : list byte) (acc : Z) :
  int16_digits (hexdigest d) acc
  = Ok (fold_left (fun acc b => 256 * acc + Z.of_N (Byte.to_N b)) d acc).
Proof.
  revert acc. induction d as [|b d IH]; intros acc; [reflexivity|].
  cbn [hexdigest fold_left]. rewrite int16_digits_hex_of_byte. apply IH.
Qed.

Lemma int_base16_hexdigest (d : list byte) :
  d <> [] -> int_base16 (hexdigest d) = Ok (be_value d).
Proof.
  intros Hd. unfold int_base16, be_value. rewrite <- int16_digits_hexdigest.
  destruct d as [|b d]; [congruence|]. reflexivity.
Qed.

Lemma utf8_encode_cp_succeeds (c : N) :
  is_surrogate c = false -> succeeds (utf8_encode_cp c).
Proof.
  intros H. unfold utf8_encode_cp. rewrite H.
  repeat match goal with |- context [if ?b then _ else _] => destruct b end;
    eexists; reflexivity.
Qed.

Lemma utf8_encode_cp_surrogate (c : N) :
  is_surrogate c = true -> utf8_encode_cp c = Raise UnicodeEncodeError.
Proof.
  intros H. unfold utf8_encode_cp. rewrite H.
  unfold is_surrogate in H. apply andb_true_iff in H as [H1 H2].
  apply N.leb_le in H1, H2.
  destruct (N.ltb_spec c 128); [lia|].
  destruct (N.ltb_spec c 2048); [lia|].
  destruct (N.ltb_spec c 65536); [reflexivity|lia].
Qed.

Lemma utf8_encode_cp_raises (c : N) (e : exn) :
  utf8_encode_cp c = Raise e -> e = UnicodeEncodeError /\ is_surrogate c = true.
Proof.
  unfold utf8_encode_cp.
  repeat match goal with |- context [if ?b then _ else _] => destruct b eqn:? end;
    intros [= <-] || discriminate. auto.
Qed.

Lemma encode_utf8_succeeds (s : pystr) :
  Forall (fun c => is_surrogate c = false) s -> succeeds (encode_utf8 s).
Proof.
  induction 1 as [|c s Hc _ [rest IH]]; [eexists; reflexivity|].
  destruct (utf8_encode_cp_succeeds c Hc) as [bs Hbs].
  exists (bs ++ rest). cbn [encode_utf8]. rewrite Hbs, IH. reflexivity.
Qed.

Lemma encode_utf8_raises (s : pystr) :
  Exists (fun c => is_surrogate c = true) s ->
  encode_utf8 s = Raise UnicodeEncodeError.
Proof.
  induction s as [|c s IH]; intros H; [inversion H|].
  cbn [encode_utf8].
  destruct (utf8_encode_cp c) as [bs|e] eqn:E.
  - inversion H as [? ? Hc|? ? Hs]; subst.
    + rewrite (utf8_encode_cp_surrogate c Hc) in E. discriminate.
    + simpl. rewrite (IH Hs). reflexivity.
  - apply utf8_encode_cp_raises in E as [-> _]. reflexivity.
Qed.

Section Seed.
Context (L : Libraries) (Hmd5 : md5_contract L).

Lemma seed_of_eq (user_id : pystr) :
  seed_of L user_id
  = (bs ← encode_utf8 user_id; Ok (be_value (md5 L bs) mod 2 ^ 32)).
Proof.
  unfold seed_of. destruct (encode_utf8 user_id) as [bs|e]; [|reflexivity].
  simpl. rewrite int_base16_hexdigest; [reflexivity|].
  intros H. pose proof (Hmd5 bs) as Hlen. rewrite H in Hlen. discriminate.
Qed.
Lemma seed_of_succeeds (user_id : pystr) :
  Forall (fun c => is_surrogate c = false) user_id -> succeeds (seed_of L user_id).
Proof.
  intros H. rewrite seed_of_eq.
  destruct (encode_utf8_succeeds user_id H) as [bs ->]. eexists. reflexivity.
Qed.
End Seed.

Lemma seed_of_range (L : Libraries) (user_id : pystr) (seed : Z) :
  seed_of L user_id = Ok seed -> 0 <= seed < 2 ^ 32.
Proof.
  unfold seed_of. intros H.
  apply bind_Ok_inv in H as (bs & _ & H).
  apply bind_Ok_inv in H as (v & _ & [= <-]).
  apply Z.mod_pos_bound. lia.
Qed.


(** ** The bytes of UTF-8 *)


Lemma to_N_byte_of_N (n : N) : (n < 256)%N -> Byte.to_N (byte_of_N n) = n.
Proof.
  intros H. unfold byte_of_N. apply Byte.to_of_N.
  rewrite <- (N_ascii_embedding n) at 1 by exact H.
  symmetry. apply byte_of_ascii_via_N.
Qed.

Lemma lor_prefix (x : N) :
  (x < 64)%N ->
  N.lor 0x80 x = (0x80 + x)%N /\
  ((x < 32)%N -> N.lor 0xC0 x = (0xC0 + x)%N) /\
  ((x < 16)%N -> N.lor 0xE0 x = (0xE0 + x)%N /\ N.lor 0xF0 x = (0xF0 + x)%N).
Proof.
  intros H.
  assert (C : In x (map N.of_nat (seq 0 64))).
  { apply in_map_iff. exists (N.to_nat x). split; [lia|]. apply in_seq. lia. }
  simpl in C.
  repeat destruct C as [<-|C];
    try (split; [reflexivity|split; [intros; first [reflexivity | lia]|
         intros; first [split; reflexivity | lia]]]).
  destruct C.
Qed.

Lemma shiftr_land_6 (c k : N) :
  N.land (N.shiftr c k) 0x3F = ((c / 2 ^ k) mod 64)%N.
Proof.
  change 0x3F%N with (N.ones 6). rewrite N.land_ones, N.shiftr_div_pow2. reflexivity.
Qed.

Lemma land_6 (c : N) : N.land c 0x3F = (c mod 64)%N.
Proof. change 0x3F%N with (N.ones 6). rewrite N.land_ones. reflexivity. Qed.

Lemma lor_0x80_mod (x : N) : N.lor 0x80 (x mod 64) = (0x80 + x mod 64)%N.
Proof. apply lor_prefix, N.mod_lt. discriminate. Qed.

(** The bytes of each code point: one byte below U+0080, two below U+0800,
    three below U+10000 and four from there on, with the bits of the code
    point in groups of six after the marker of the first byte. *)
Lemma utf8_encode_cp_bytes (c : N) :
  ((c < 0x80)%N -> utf8_encode_cp c = Ok [byte_of_N c]) /\
  ((0x80 <= c < 0x800)%N ->
   utf8_encode_cp c
   = Ok [byte_of_N (0xC0 + c / 64); byte_of_N (0x80 + c mod 64)]%N) /\
  ((0x800 <= c < 0x10000)%N -> is_surrogate c = false ->
   utf8_encode_cp c
   = Ok [byte_of_N (0xE0 + c / 4096); byte_of_N (0x80 + c / 64 mod 64);
         byte_of_N (0x80 + c mod 64)]%N) /\
  ((0x10000 <= c <= 0x10FFFF)%N ->
   utf8_encode_cp c
   = Ok [byte_of_N (0xF0 + c / 262144); byte_of_N (0x80 + c / 4096 mod 64);
         byte_of_N (0x80 + c / 64 mod 64); byte_of_N (0x80 + c mod 64)]%N).
Proof.
  unfold utf8_encode_cp.
  rewrite !shiftr_land_6, !land_6, !lor_0x80_mod, !N.shiftr_div_pow2.
  change (2 ^ 6)%N with 64%N. change (2 ^ 12)%N with 4096%N.
  change (2 ^ 18)%N with 262144%N.
  destruct (N.ltb_spec c 0x80); [repeat split; intros; first [reflexivity|lia]|].
  destruct (N.ltb_spec c 0x800).
  { repeat split; intros; try lia.
    assert (Hx : (c / 64 < 32)%N) by (apply N.Div0.div_lt_upper_bound; lia).
    destruct (lor_prefix (c / 64) ltac:(lia)) as (_ & Hl & _).
    rewrite (Hl Hx). reflexivity. }
  destruct (N.ltb_spec c 0x10000).
  { repeat split; intros; try lia.
    match goal with H : is_surrogate c = false |- _ => rewrite H end.
    assert (Hx : (c / 4096 < 16)%N) by (apply N.Div0.div_lt_upper_bound; lia).
    destruct (lor_prefix (c / 4096) ltac:(lia)) as (_ & _ & Hl).
    destruct (Hl Hx) as [-> _]. reflexivity. }
  repeat split; intros; try lia.
  assert (Hx : (c / 262144 < 16)%N) by (apply N.Div0.div_lt_upper_bound; lia).
  destruct (lor_prefix (c / 262144) ltac:(lia)) as (_ & _ & Hl).
  destruct (Hl Hx) as [_ ->]. reflexivity.
Qed.

Lemma digits64 (c : N) :
  exists q1 r1 q2 r2 q3 r3 : N,
    (c / 64 = q1 /\ c mod 64 = r1 /\ c / 4096 = q2 /\ c / 64 mod 64 = r2 /\
     c / 262144 = q3 /\ c / 4096 mod 64 = r3)%N /\
    (c = 64 * q1 + r1 /\ q1 = 64 * q2 + r2 /\ q2 = 64 * q3 + r3 /\
     r1 < 64 /\ r2 < 64 /\ r3 < 64)%N.
Proof.
  exists (c / 64)%N, (c mod 64)%N, (c / 64 / 64)%N, (c / 64 mod 64)%N,
    (c / 64 / 64 / 64)%N, (c / 64 / 64 mod 64)%N.
  split.
  - rewrite !N.Div0.div_div. repeat split; reflexivity.
  - repeat split; try (apply N.div_mod; discriminate); apply N.mod_lt; discriminate.
Qed.

Lemma decode_utf8_cons (b0 : byte) (rest : list byte) :
  decode_utf8 (b0 :: rest)
  = let n0 := Byte.to_N b0 in
    let low (b : byte) := (Byte.to_N b - 0x80)%N in
    if (n0 <? 0x80)%N then cons n0 <$> decode_utf8 rest
    else if (n0 <? 0xC0)%N then None
    else if (n0 <? 0xE0)%N then
      match rest with
      | b1 :: rest' =>
          cons ((n0 - 0xC0) * 64 + low b1)%N <$> decode_utf8 rest'
      | _ => None
      end
    else if (n0 <? 0xF0)%N then
      match rest with
      | b1 :: b2 :: rest' =>
          cons ((n0 - 0xE0) * 4096 + low b1 * 64 + low b2)%N <$> decode_utf8 rest'
      | _ => None
      end
    else
      match rest with
      | b1 :: b2 :: b3 :: rest' =>
          cons ((n0 - 0xF0) * 262144 + low b1 * 4096 + low b2 * 64 + low b3)%N
            <$> decode_utf8 rest'
      | _ => None
      end.
Proof. reflexivity. Qed.

(** Reading the bytes of a code point gives the code point back. *)
Lemma decode_utf8_encode_cp (c : N) (bs rest : list byte) :
  (c <= 0x10FFFF)%N -> utf8_encode_cp c = Ok bs ->
  decode_utf8 (bs ++ rest) = cons c <$> decode_utf8 rest.
Proof.
  intros Hc H.
  destruct (utf8_encode_cp_bytes c) as (H1 & H2 & H3 & H4).
  destruct (digits64 c) as (q1 & r1 & q2 & r2 & q3 & r3 & E & D).
  destruct E as (E1 & E2 & E3 & E4 & E5 & E6).
  rewrite E1, E2 in H2. rewrite E4, E2, E3 in H3. rewrite E4, E6, E2, E5 in H4. clear E1 E2 E3 E4 E5 E6.
  destruct D as (D1 & D2 & D3 & B1 & B2 & B3).
  destruct (N.lt_ge_cases c 0x80) as [C1|C1].
  { rewrite (H1 C1) in H. apply Ok_inj in H as <-.
    cbn [app]. rewrite decode_utf8_cons. cbv zeta.
    rewrite to_N_byte_of_N by lia.
    destruct (N.ltb_spec c 0x80); [reflexivity|lia]. }
  destruct (N.lt_ge_cases c 0x800) as [C2|C2].
  { rewrite (H2 (conj C1 C2)) in H. apply Ok_inj in H as <-.
    cbn [app]. rewrite decode_utf8_cons. cbv zeta.
    rewrite !to_N_byte_of_N by lia.
    destruct (N.ltb_spec (0xC0 + q1) 0x80); [lia|].
    destruct (N.ltb_spec (0xC0 + q1) 0xC0); [lia|].
    destruct (N.ltb_spec (0xC0 + q1) 0xE0); [|lia]. cbv beta match.
    replace ((0xC0 + q1 - 0xC0) * 64 + (0x80 + r1 - 0x80))%N with c by lia.
    reflexivity. }
  destruct (N.lt_ge_cases c 0x10000) as [C3|C3].
  { destruct (is_surrogate c) eqn:Es.
    { rewrite (utf8_encode_cp_surrogate c Es) in H. discriminate. }
    rewrite (H3 (conj C2 C3) eq_refl) in H. apply Ok_inj in H as <-.
    cbn [app]. rewrite decode_utf8_cons. cbv zeta.
    rewrite !to_N_byte_of_N by lia.
    destruct (N.ltb_spec (0xE0 + q2) 0x80); [lia|].
    destruct (N.ltb_spec (0xE0 + q2) 0xC0); [lia|].
    destruct (N.ltb_spec (0xE0 + q2) 0xE0); [lia|].
    destruct (N.ltb_spec (0xE0 + q2) 0xF0); [|lia]. cbv beta match.
    replace ((0xE0 + q2 - 0xE0) * 4096 + (0x80 + r2 - 0x80) * 64
             + (0x80 + r1 - 0x80))%N with c by lia.
    reflexivity. }
  rewrite (H4 (conj C3 Hc)) in H. apply Ok_inj in H as <-.
  cbn [app]. rewrite decode_utf8_cons. cbv zeta.
  rewrite !to_N_byte_of_N by lia.
  destruct (N.ltb_spec (0xF0 + q3) 0x80); [lia|].
  destruct (N.ltb_spec (0xF0 + q3) 0xC0); [lia|].
  destruct (N.ltb_spec (0xF0 + q3) 0xE0); [lia|].
  destruct (N.ltb_spec (0xF0 + q3) 0xF0); [lia|]. cbv beta match.
  replace ((0xF0 + q3 - 0xF0) * 262144 + (0x80 + r3 - 0x80) * 4096
           + (0x80 + r2 - 0x80) * 64 + (0x80 + r1 - 0x80))%N with c by lia.
  reflexivity.
Qed.

(** The bytes determine the string. *)
Lemma decode_utf8_encode_utf8 (s : pystr) (bs : list byte) :
  Forall (fun c => (c <= 0x10FFFF)%N) s ->
  encode_utf8 s = Ok bs -> decode_utf8 bs = Some s.
Proof.
  intros Hs. revert bs. induction Hs as [|c s Hc Hs IH]; intros bs H.
  - apply Ok_inj in H as <-. reflexivity.
  - cbn [encode_utf8] in H.
    apply bind_Ok_inv in H as (b1 & E1 & H).
    apply bind_Ok_inv in H as (b2 & E2 & H). apply Ok_inj in H as <-.
    rewrite (decode_utf8_encode_cp c b1 b2 Hc E1), (IH b2 E2). reflexivity.
Qed.

Lemma encode_utf8_inj (s1 s2 : pystr) (bs : list byte) :
  Forall (fun c => (c <= 0x10FFFF)%N) s1 ->
  Forall (fun c => (c <= 0x10FFFF)%N) s2 ->
  encode_utf8 s1 = Ok bs -> encode_utf8 s2 = Ok bs -> s1 = s2.
Proof.
  intros H1 H2 E1 E2.
  apply (decode_utf8_encode_utf8 _ _ H1) in E1.
  apply (decode_utf8_encode_utf8 _ _ H2) in E2. congruence.
Qed.
(** ** Data generation *)

Lemma generuj_dane_studenta_eq (L : Libraries) (user_id : pystr) (n : nat) (s : rng_state L) :
  generuj_dane_studenta L user_id n s
  = match seed_of L user_id with
    | Ok seed =>
        let '(data, s') := multivariate_normal L mean cov_matrix_scaled n (mt_seed L seed) in
        (pd_DataFrame
           (map (map (fun x => clip (astype_int (np_rint x)) 5 20)) data) vars_list, s')
    | Raise e => (Raise e, s)
    end.
Proof.
  unfold generuj_dane_studenta, mbind, py_bind, lift.
  destruct (seed_of L user_id) as [seed|e] eqn:E; [|reflexivity].
  apply seed_of_range in E.
  unfold np_random_seed, put, lift.
  replace ((0 <=? seed) && (seed <? 2 ^ 32)) with true
    by (symmetry; apply andb_true_iff; split; [apply Z.leb_le|apply Z.ltb_lt]; lia).
  unfold np_random_multivariate_normal.
  destruct (multivariate_normal L mean cov_matrix_scaled n (mt_seed L seed)) as [data s'].
  rewrite map_map.
  rewrite (map_ext _ (map (fun x => clip (astype_int (np_rint x)) 5 20))
             (fun row => map_map (fun x => astype_int (np_rint x)) _ row)).
  reflexivity.
Qed.

Lemma pd_DataFrame_Ok (data : list (list Z)) (cols : list string) (df : DataFrame) :
  pd_DataFrame data cols = Ok df ->
  df_columns df = cols /\ df_values df = data /\
  Forall (fun row => length row = length cols) data.
Proof.
  unfold pd_DataFrame. destruct (forallb _ data) eqn:E; [|discriminate].
  intros [= <-]. repeat split. apply List.Forall_forall. intros row Hrow.
  rewrite forallb_forall in E. apply Nat.eqb_eq, E, Hrow.
Qed.

Lemma pd_DataFrame_succeeds (data : list (list Z)) (cols : list string) :
  Forall (fun row => length row = length cols) data ->
  pd_DataFrame data cols = Ok {| df_columns := cols; df_values := data |}.
Proof.
  intros H. unfold pd_DataFrame.
  replace (forallb _ data) with true; [reflexivity|].
  symmetry. apply forallb_forall. intros row Hrow. apply Nat.eqb_eq.
  rewrite List.Forall_forall in H. apply H, Hrow.
Qed.

Lemma clipped_rows_in_range (data : list (list float)) :
  Forall (Forall (fun x => 5 <= x <= 20))
    (map (map (fun x => clip (astype_int (np_rint x)) 5 20)) data).
Proof.
  apply List.Forall_forall. intros row Hrow. apply in_map_iff in Hrow as (r & <- & _).
  apply List.Forall_forall. intros x Hx. apply in_map_iff in Hx as (q & <- & _).
  apply clip_range.
Qed.

(** ** The reference instances meet the contracts *)

Lemma stub_md5_contract (sm : bool) (f : selection -> result (float * float))
    (sp : list (list Z) -> result spearman_result) :
  md5_contract (Stub.with_stats sm f sp).
Proof.
  intros m. change (md5 (Stub.with_stats sm f sp) m) with (MD5.digest m).
  unfold MD5.digest.
  destruct (MD5.blocks _ _ _) as [[[a b] c] d]. reflexivity.
Qed.

Lemma stub_draw_row_length (m : list Q) (s : Z) :
  length (fst (Stub.draw_row m s)) = length m.
Proof.
  revert s. induction m as [|mu m IH]; intros s; [reflexivity|].
  cbn [Stub.draw_row]. specialize (IH (Stub.next s)).
  destruct (Stub.draw_row m (Stub.next s)) as [r s2]. cbn in *. congruence.
Qed.

Lemma stub_mvn_contract (sm : bool) (f : selection -> result (float * float))
    (sp : list (list Z) -> result spearman_result) :
  mvn_contract (Stub.with_stats sm f sp).
Proof.
  intros m cov n s. cbn [multivariate_normal Stub.with_stats]. revert s.
  induction n as [|n IH]; intros s; [split; [reflexivity|constructor]|].
  cbn [Stub.draw]. pose proof (stub_draw_row_length m s) as Hrow.
  destruct (Stub.draw_row m s) as [r s1]. specialize (IH s1).
  destruct (Stub.draw n m s1) as [rs s2]. cbn in *. destruct IH as [IH1 IH2].
  split; [congruence|]. constructor; assumption.
Qed.

Lemma be_value_snoc (d : list byte) (b : byte) :
  be_value (d ++ [b]) = 256 * be_value d + Z.of_N (Byte.to_N b).
Proof. unfold be_value. rewrite fold_left_app. reflexivity. Qed.

(** C8.  For every identifier, the seed is the MD5 digest of the bytes of
    the identifier, read as an integer (the value that [int(_, 16)] gives
    for its hexdigest is the big-endian value of the digest) and reduced
    modulo 2^32; a seed is therefore always in [0, 2^32), and a seed exists
    for every identifier that can be encoded.  The bytes are those of
    UTF-8, code point by code point: one byte below U+0080, two below
    U+0800, three below U+10000 (none for a surrogate, U+D800 to U+DFFF,
    which cannot be encoded) and four up to
    U+10FFFF, with the bits of the code point in groups of six after the
    marker of the first byte.  They are the exact bytes of the string:
    reading them as UTF-8 gives the identifier back, so two identifiers with
    the same bytes are equal; and the seed depends on the identifier through
    its bytes only. *)
Theorem seed_of_spec (L : Libraries) (Hmd5 : md5_contract L) (user_id : pystr) :
  seed_of L user_id
    = (bs ← encode_utf8 user_id; Ok (be_value (md5 L bs) mod 2 ^ 32)) /\
  (forall seed, seed_of L user_id = Ok seed -> 0 <= seed < 2 ^ 32) /\
  (Forall (fun c => is_surrogate c = false) user_id -> succeeds (seed_of L user_id)) /\
  (be_value [] = 0 /\
   forall d b, be_value (d ++ [b]) = 256 * be_value d + Z.of_N (Byte.to_N b)) /\
  (encode_utf8 [] = Ok [] /\
   forall c rest,
     encode_utf8 (c :: rest)
     = (bs ← utf8_encode_cp c; tail ← encode_utf8 rest; Ok (bs ++ tail))) /\
  (forall c : N,
     ((c < 0x80)%N -> utf8_encode_cp c = Ok [byte_of_N c]) /\
     ((0x80 <= c < 0x800)%N ->
      utf8_encode_cp c
      = Ok [byte_of_N (0xC0 + c / 64); byte_of_N (0x80 + c mod 64)]%N) /\
     ((0x800 <= c < 0x10000)%N -> ~ (0xD800 <= c <= 0xDFFF)%N ->
      utf8_encode_cp c
      = Ok [byte_of_N (0xE0 + c / 4096); byte_of_N (0x80 + c / 64 mod 64);
            byte_of_N (0x80 + c mod 64)]%N) /\
     ((0xD800 <= c <= 0xDFFF)%N -> utf8_encode_cp c = Raise UnicodeEncodeError) /\
     ((0x10000 <= c <= 0x10FFFF)%N ->
      utf8_encode_cp c
      = Ok [byte_of_N (0xF0 + c / 262144); byte_of_N (0x80 + c / 4096 mod 64);
            byte_of_N (0x80 + c / 64 mod 64); byte_of_N (0x80 + c mod 64)]%N)) /\
  (forall n : N, (n < 256)%N -> Byte.to_N (byte_of_N n) = n) /\
  (forall c : N, is_surrogate c = true <-> (0xD800 <= c <= 0xDFFF)%N) /\
  (Forall (fun c => (c <= 0x10FFFF)%N) user_id ->
   forall bs, encode_utf8 user_id = Ok bs -> decode_utf8 bs = Some user_id) /\
  (forall other bs,
     Forall (fun c => (c <= 0x10FFFF)%N) user_id ->
     Forall (fun c => (c <= 0x10FFFF)%N) other ->
     encode_utf8 user_id = Ok bs -> encode_utf8 other = Ok bs -> other = user_id) /\
  (forall other,
     encode_utf8 other = encode_utf8 user_id -> seed_of L other = seed_of L user_id).
Proof.
  split; [apply seed_of_eq, Hmd5|].
  split; [apply seed_of_range|].
  split; [apply seed_of_succeeds, Hmd5|].
  split; [split; [reflexivity|apply be_value_snoc]|].
  split; [split; reflexivity|].
  split.
  { intros c. destruct (utf8_encode_cp_bytes c) as (H1 & H2 & H3 & H4).
    split; [exact H1|]. split; [exact H2|]. split; [|split; [|exact H4]].
    - intros Hc Hs. apply (H3 Hc). unfold is_surrogate.
      destruct (N.leb_spec 0xD800 c); [|reflexivity].
      destruct (N.leb_spec c 0xDFFF); [|reflexivity]. exfalso. apply Hs. lia.
    - intros Hc. apply utf8_encode_cp_surrogate. unfold is_surrogate.
      apply andb_true_iff. split; apply N.leb_le; lia. }
  split; [exact to_N_byte_of_N|].
  split.
  { intros c. unfold is_surrogate. rewrite andb_true_iff, !N.leb_le. reflexivity. }
  split; [intros Hid bs; apply decode_utf8_encode_utf8, Hid|].
  split.
  { intros other bs H1 H2 E1 E2. exact (encode_utf8_inj _ _ bs H2 H1 E2 E1). }
  intros other E. rewrite !seed_of_eq by exact Hmd5. rewrite E. reflexivity.
Qed.

Lemma seed_of_spec_witness :
  md5_contract Stub.libs /\
  encode_utf8 [0x141; 0x75; 0x6B; 0x61; 0x73; 0x7A]%N
    = Ok [xc5; x81; x75; x6b; x61; x73; x7a] /\
  decode_utf8 [xc5; x81; x75; x6b; x61; x73; x7a]
    = Some [0x141; 0x75; 0x6B; 0x61; 0x73; 0x7A]%N /\
  seed_of Stub.libs [0x141; 0x75; 0x6B; 0x61; 0x73; 0x7A]%N = Ok 3798957277 /\
  0 <= 3798957277 < 2 ^ 32.
Proof.
  split; [exact (stub_md5_contract _ _ _)|].
  destruct (seed_of_spec Stub.libs (stub_md5_contract _ _ _)
              [0x141; 0x75; 0x6B; 0x61; 0x73; 0x7A]%N)
    as (Heq & Hrange & _ & _ & _ & Hbytes & _ & _ & Hdec & _).
  assert (Henc : encode_utf8 [0x141; 0x75; 0x6B; 0x61; 0x73; 0x7A]%N
                 = Ok [xc5; x81; x75; x6b; x61; x73; x7a]).
  { cbn [encode_utf8].
    rewrite (proj1 (proj2 (Hbytes 0x141%N))) by lia.
    rewrite (proj1 (Hbytes 0x75%N)), (proj1 (Hbytes 0x6B%N)), (proj1 (Hbytes 0x61%N)),
      (proj1 (Hbytes 0x73%N)), (proj1 (Hbytes 0x7A%N)) by lia.
    reflexivity. }
  split; [exact Henc|].
  split.
  { apply Hdec; [|exact Henc]. repeat constructor; discriminate. }
  assert (Hseed : seed_of Stub.libs [0x141; 0x75; 0x6B; 0x61; 0x73; 0x7A]%N
                  = Ok 3798957277).
  { rewrite Heq, Henc. vm_compute. reflexivity. }
  split; [exact Hseed|]. apply Hrange, Hseed.
Defined.

(** C2.  For every identifier, the table that [generuj_dane_studenta]
    returns has the five named columns and exactly 100 records of 5 fields,
    and every value is an integer between 5 and 20.  Every value is the
    draw of the seeded generator rounded by [np.rint], converted to int64
    and clipped.  The rounding gives the nearest integer and, halfway
    between two integers, the even one, and no other integer is that; the
    clipping gives 5 below 5, 20 above 20 and the rounded integer in
    between.  A draw whose rounded value is no int64, an infinity and NaN
    are converted to -2**63 and so clipped to 5. *)
Theorem generuj_dane_studenta_range
    (L : Libraries) (Hmvn : mvn_contract L)
    (user_id : pystr) (s s' : rng_state L) (df : DataFrame) :
  generuj_dane_studenta L user_id 100 s = (Ok df, s') ->
  df_columns df = vars_list /\
  length (df_values df) = 100%nat /\
  Forall (fun row => length row = 5%nat /\ Forall (fun x => 5 <= x <= 20) row)
         (df_values df) /\
  (exists seed, seed_of L user_id = Ok seed /\
     df_values df
     = map (map (fun x => clip (astype_int (np_rint x)) 5 20))
           (fst (multivariate_normal L mean cov_matrix_scaled 100 (mt_seed L seed)))) /\
  (forall q : Q,
     let v := clip (astype_int (np_rint (Finite q))) 5 20 in
     nearest_even q (rint q) /\
     (forall z, nearest_even q z -> z = rint q) /\
     (- 2 ^ 63 <= rint q <= 5 -> v = 5) /\
     (5 <= rint q <= 20 -> v = rint q) /\
     (20 <= rint q < 2 ^ 63 -> v = 20) /\
     (rint q < - 2 ^ 63 \/ 2 ^ 63 <= rint q -> v = 5)) /\
  (forall x : float,
     x = NegZero \/ x = Inf false \/ x = Inf true \/ x = NaN ->
     clip (astype_int (np_rint x)) 5 20 = 5).
Proof.
  rewrite generuj_dane_studenta_eq.
  destruct (seed_of L user_id) as [seed|e] eqn:Eseed; [|discriminate].
  pose proof (Hmvn mean cov_matrix_scaled 100%nat (mt_seed L seed)) as [Hlen _].
  destruct (multivariate_normal L mean cov_matrix_scaled 100 (mt_seed L seed))
    as [data s1] eqn:Emvn. cbn [fst] in *.
  intros [= Hdf <-]. apply pd_DataFrame_Ok in Hdf as (Hcols & Hvals & Hrows).
  split; [exact Hcols|]. rewrite Hvals.
  split; [rewrite length_map; exact Hlen|].
  split.
  { pose proof (clipped_rows_in_range data) as Hrange.
    rewrite List.Forall_forall in *. intros row Hrow.
    split; [apply Hrows|apply Hrange]; exact Hrow. }
  split; [exists seed; rewrite Emvn; split; reflexivity|].
  split.
  - intros q. cbv zeta.
    split; [apply rint_nearest_even|].
    split; [intros z Hz; exact (nearest_even_unique q _ _ Hz (rint_nearest_even q))|].
    repeat split; intros H.
    + rewrite astype_int_np_rint_int64 by lia. unfold clip. lia.
    + rewrite astype_int_np_rint_int64 by lia. unfold clip. lia.
    + rewrite astype_int_np_rint_int64 by lia. unfold clip. lia.
    + rewrite (astype_int_np_rint_overflow (Finite q)) by exact H. reflexivity.
  - intros x [-> | [-> | [-> | ->]]]; reflexivity.
Qed.

Lemma generuj_dane_studenta_range_witness :
  exists df s',
    generuj_dane_studenta Stub.libs (pystr_of_string "abc") 100 0 = (Ok df, s') /\
    length (df_values df) = 100%nat /\
    Forall (fun row => length row = 5%nat /\ Forall (fun x => 5 <= x <= 20) row)
           (df_values df) /\
    firstn 3 (fst (multivariate_normal Stub.libs mean cov_matrix_scaled 100 685866866))
    = [[Finite 18.77; Finite 10.06; Finite 6.25; Finite 20.58; Finite 9.85];
       [Finite 17.43; Finite 3.15; Finite 21.34; Finite 18.86; Finite 7.80];
       [Finite 20.66; Finite 10.62; Finite 17.47; Finite 18.30; Finite 6.61]] /\
    firstn 3 (df_values df) = [[19; 10; 6; 20; 10]; [17; 5; 20; 19; 8]; [20; 11; 17; 18; 7]].
Proof.
  assert (Hrun : exists df s',
             generuj_dane_studenta Stub.libs (pystr_of_string "abc") 100 0 = (Ok df, s'))
    by (eexists; eexists; vm_compute; reflexivity).
  destruct Hrun as (df & s' & Hrun). exists df, s'. split; [exact Hrun|].
  destruct (generuj_dane_studenta_range Stub.libs (stub_mvn_contract _ _ _)
              (pystr_of_string "abc") 0 s' df Hrun)
    as (_ & Hlen & Hrows & (seed & Hseed & Hvals) & _).
  split; [exact Hlen|]. split; [exact Hrows|].
  split; [vm_compute; reflexivity|].
  assert (Es : seed_of Stub.libs (pystr_of_string "abc") = Ok 685866866)
    by (vm_compute; reflexivity).
  rewrite Es in Hseed. apply Ok_inj in Hseed as <-.
  rewrite Hvals. vm_compute. reflexivity.
Defined.

(** C10, as amended.  [generuj_dane_studenta] returns a table of 100 records
    of 5 fields for every identifier that UTF-8 can encode, that is, every
    string without a surrogate code point, the empty string included: the
    seed of the empty string is the digest of zero bytes.  For a string with
    a surrogate code point the encoding step raises [UnicodeEncodeError] and
    the generator state is left as it was. *)
Theorem generuj_dane_studenta_succeeds
    (L : Libraries) (Hmd5 : md5_contract L) (Hmvn : mvn_contract L)
    (user_id : pystr) (s : rng_state L) :
  (Forall (fun c => is_surrogate c = false) user_id ->
   exists df s',
     generuj_dane_studenta L user_id 100 s = (Ok df, s') /\
     df_columns df = vars_list /\
     length (df_values df) = 100%nat /\
     Forall (fun row => length row = 5%nat) (df_values df)) /\
  (Exists (fun c => is_surrogate c = true) user_id ->
   generuj_dane_studenta L user_id 100 s = (Raise UnicodeEncodeError, s)) /\
  seed_of L [] = Ok (be_value (md5 L []) mod 2 ^ 32).
Proof.
  split; [|split].
  - intros Hid. rewrite generuj_dane_studenta_eq.
    destruct (seed_of_succeeds L Hmd5 user_id Hid) as [seed ->].
    pose proof (Hmvn mean cov_matrix_scaled 100%nat (mt_seed L seed)) as [Hlen Hrows].
    destruct (multivariate_normal L mean cov_matrix_scaled 100 (mt_seed L seed))
      as [data s1]. cbn [fst] in *.
    eexists. exists s1. split.
    + rewrite pd_DataFrame_succeeds; [reflexivity|].
      apply List.Forall_forall. intros row Hrow. apply in_map_iff in Hrow as (r & <- & Hr).
      rewrite length_map. rewrite List.Forall_forall in Hrows. apply Hrows, Hr.
    + cbn [df_columns df_values]. split; [reflexivity|].
      split; [rewrite length_map; exact Hlen|].
      apply List.Forall_forall. intros row Hrow. apply in_map_iff in Hrow as (r & <- & Hr).
      rewrite length_map. rewrite List.Forall_forall in Hrows. apply Hrows, Hr.
  - intros Hid. rewrite generuj_dane_studenta_eq, seed_of_eq by exact Hmd5.
    rewrite (encode_utf8_raises user_id Hid). reflexivity.
  - rewrite seed_of_eq by exact Hmd5. reflexivity.
Qed.

Lemma generuj_dane_studenta_succeeds_witness :
  exists df s',
    generuj_dane_studenta Stub.libs [] 100 0 = (Ok df, s') /\
    length (df_values df) = 100%nat.
Proof.
  destruct (generuj_dane_studenta_succeeds Stub.libs (stub_md5_contract _ _ _)
              (stub_mvn_contract _ _ _) [] 0) as (H & _ & _).
  destruct (H (List.Forall_nil _)) as (df & s' & Hrun & _ & Hlen & _).
  exists df, s'. split; assumption.
Defined.

(** The claim C10 as stated fails: the identifier made of the single code
    point U+D800 is a string, and [generuj_dane_studenta] raises on it. *)
Lemma generuj_dane_studenta_raises_on_surrogate :
  generuj_dane_studenta Stub.libs [0xD800%N] 100 0 = (Raise UnicodeEncodeError, 0) /\
  ~ (forall L : Libraries, md5_contract L -> mvn_contract L ->
     forall (user_id : pystr) (s : rng_state L),
       succeeds (fst (generuj_dane_studenta L user_id 100 s))).
Proof.
  split; [vm_compute; reflexivity|].
  intros H.
  destruct (H Stub.libs (stub_md5_contract _ _ _) (stub_mvn_contract _ _ _)
              [0xD800%N] 0) as [df Hdf].
  vm_compute in Hdf. discriminate.
Qed.

(** C1.  The table that [generuj_dane_studenta] returns for an identifier
    does not depend on the state in which the process-wide generator is
    found: any two calls return the same outcome, in particular a call made
    right after another, and when a table is returned the generator is left
    in the same state.  The answer key that the route computes from the
    identifier is likewise the same from any generator state, and
    [oblicz_poprawne_statystyki] maps equal tables to equal answer keys. *)
Theorem pipeline_deterministic (L : Libraries) (user_id : pystr) (s1 s2 : rng_state L) :
  fst (generuj_dane_studenta L user_id 100 s1)
    = fst (generuj_dane_studenta L user_id 100 s2) /\
  (succeeds (fst (generuj_dane_studenta L user_id 100 s1)) ->
   snd (generuj_dane_studenta L user_id 100 s1)
     = snd (generuj_dane_studenta L user_id 100 s2)) /\
  fst (generuj_dane_studenta L user_id 100 (snd (generuj_dane_studenta L user_id 100 s1)))
    = fst (generuj_dane_studenta L user_id 100 s1) /\
  fst (index_answers L user_id s1) = fst (index_answers L user_id s2) /\
  (forall df1 df2, df1 = df2 ->
     oblicz_poprawne_statystyki L df1 = oblicz_poprawne_statystyki L df2).
Proof.
  unfold index_answers, mbind, py_bind, lift.
  rewrite !generuj_dane_studenta_eq.
  destruct (seed_of L user_id) as [seed|e].
  - destruct (multivariate_normal L mean cov_matrix_scaled 100 (mt_seed L seed))
      as [data s']. cbn [fst snd].
    repeat split; intros; subst; reflexivity.
  - cbn [fst snd]. repeat split; try (intros; subst; reflexivity).
    intros [df Hdf]. discriminate.
Qed.

(** ** The answer key *)

Lemma weryfikacja_hipotez_eq (rho p_matrix : matrix) (klucz : gmap string value) :
  weryfikacja_hipotez (Arrays rho p_matrix) klucz = Ok (wpisy_hipotez rho p_matrix klucz).
Proof. reflexivity. Qed.

Lemma korelacje_eq (rho p_matrix : matrix) (klucz : gmap string value) :
  for_each (korelacja (Arrays rho p_matrix)) pairs klucz
  = Ok (wpisy_korelacji rho p_matrix klucz).
Proof. reflexivity. Qed.

(** [rho[i, j]] on a scalar. *)
Lemma korelacje_Scalars (rho p : float) (klucz : gmap string value) :
  for_each (korelacja (Scalars rho p)) pairs klucz = Raise TypeError.
Proof. reflexivity. Qed.

Section Analysis.
Context (L : Libraries).

Lemma test_normalnosci_inv (series : selection) (test : value * value) :
  test_normalnosci L series = Ok test ->
  if HAS_STATSMODELS L then
    match lilliefors L series with
    | Ok (d_stat, p_val) => test = (VFloat d_stat, VFloat p_val)
    | Raise _ => test = (VInt 0, VFloat (Finite 1.0))
    end
  else
    exists z d_stat p_val,
      z_score L series = Ok z /\
      kstest_norm L z = Ok (d_stat, p_val) /\
      test = (VFloat d_stat, VFloat p_val).
Proof.
  unfold test_normalnosci. destruct (HAS_STATSMODELS L).
  - destruct (lilliefors L series) as [[d p]|e]; intros [= <-]; reflexivity.
  - intros H. apply bind_Ok_inv in H as (z & Hz & H).
    apply bind_Ok_inv in H as ([d p] & Hks & [= <-]). eauto 6.
Qed.

Lemma test_normalnosci_p_float (series : selection) (test : value * value) :
  test_normalnosci L series = Ok test -> exists x, test.2 = VFloat x.
Proof.
  intros H. apply test_normalnosci_inv in H. destruct (HAS_STATSMODELS L).
  - destruct (lilliefors L series) as [[d p]|e]; subst; eexists; reflexivity.
  - destruct H as (z & d & p & _ & _ & ->). eexists; reflexivity.
Qed.

Lemma statystyki_opisowe_inv (df : DataFrame) (klucz klucz' : gmap string value)
    (col_name prefix : string) :
  statystyki_opisowe L df klucz (col_name, prefix) = Ok klucz' ->
  exists series test,
    df_col df col_name = Ok series /\
    test_normalnosci L series = Ok test /\
    klucz' = wpisy_opisowe L prefix series test klucz.
Proof.
  unfold statystyki_opisowe. intros H.
  apply bind_Ok_inv in H as (series & Hcol & H).
  apply bind_Ok_inv in H as ([d p] & Htest & [= <-]).
  exists series, (d, p). auto.
Qed.
End Analysis.

(** Lookups in a dictionary written as a chain of updates with literal keys. *)
Ltac lookup_inserts :=
  repeat match goal with
    | |- context [(<[?k := _]> _) !! ?k] => rewrite lookup_insert_eq
    | |- context [(<[?k1 := _]> _) !! ?k2] =>
        rewrite (lookup_insert_ne _ k1 k2) by discriminate
    | |- context [∅ !! _] => rewrite lookup_empty
    end.

(** Keys built by concatenation, computed to literals. *)
Ltac literal_keys :=
  repeat match goal with
    | |- context [?a +:+ ?b] =>
        let k := eval vm_compute in (a +:+ b) in change (a +:+ b) with k
    end.

Lemma oblicz_poprawne_statystyki_inv (L : Libraries) (df : DataFrame)
    (klucz : gmap string value) :
  oblicz_poprawne_statystyki L df = Ok klucz ->
  exists s0 s1 s2 s3 s4 t0 t1 t2 t3 t4 neuro_p table rho p_matrix,
    (df_col df "Ekstrawersja" = Ok s0 /\ test_normalnosci L s0 = Ok t0) /\
    (df_col df "Neurotyzm" = Ok s1 /\ test_normalnosci L s1 = Ok t1) /\
    (df_col df "Otwartosc" = Ok s2 /\ test_normalnosci L s2 = Ok t2) /\
    (df_col df "Ugodowosc" = Ok s3 /\ test_normalnosci L s3 = Ok t3) /\
    (df_col df "Sumiennosc" = Ok s4 /\ test_normalnosci L s4 = Ok t4) /\
    t1.2 = VFloat neuro_p /\
    df_cols df vars_list = Ok table /\
    spearmanr L table = Ok (Arrays rho p_matrix) /\
    klucz = klucz_z_wynikow L s0 s1 s2 s3 s4 t0 t1 t2 t3 t4 neuro_p rho p_matrix.
Proof.
  unfold oblicz_poprawne_statystyki, PREFIX_MAP. cbn [for_each]. intros H.
  apply bind_Ok_inv in H as (k5 & H & Hrest).
  apply bind_Ok_inv in H as (k1 & H0 & H).
  apply bind_Ok_inv in H as (k2 & H1 & H).
  apply bind_Ok_inv in H as (k3 & H2 & H).
  apply bind_Ok_inv in H as (k4 & H3 & H).
  apply bind_Ok_inv in H as (k5' & H4 & [= ->]).
  apply statystyki_opisowe_inv in H0 as (s0 & t0 & C0 & T0 & ->).
  apply statystyki_opisowe_inv in H1 as (s1 & t1 & C1 & T1 & ->).
  apply statystyki_opisowe_inv in H2 as (s2 & t2 & C2 & T2 & ->).
  apply statystyki_opisowe_inv in H3 as (s3 & t3 & C3 & T3 & ->).
  apply statystyki_opisowe_inv in H4 as (s4 & t4 & C4 & T4 & ->).
  destruct (test_normalnosci_p_float L s1 t1 T1) as [neuro_p Hp].
  apply bind_Ok_inv in Hrest as (k6 & Hlabel & Hrest).
  apply bind_Ok_inv in Hrest as (table & Htable & Hrest).
  apply bind_Ok_inv in Hrest as ([rho p_matrix|rho p] & Hsp & Hrest);
    [|rewrite korelacje_Scalars in Hrest; discriminate].
  rewrite korelacje_eq in Hrest. cbn [mbind result_bind] in Hrest.
  rewrite weryfikacja_hipotez_eq in Hrest. apply Ok_inj in Hrest. rewrite <- Hrest.
  exists s0, s1, s2, s3, s4, t0, t1, t2, t3, t4, neuro_p, table, rho, p_matrix.
  repeat (split; [solve [auto]|]).
  unfold klucz_z_wynikow. do 2 f_equal.
  assert (Hlook : wpisy_opisowe L "sumien" s4 t4
            (wpisy_opisowe L "ugoda" s3 t3
               (wpisy_opisowe L "otwar" s2 t2
                  (wpisy_opisowe L "neuro" s1 t1
                     (wpisy_opisowe L "ekstra" s0 t0 ∅)))) !! "neuro_p" = Some t1.2).
  { unfold wpisy_opisowe. literal_keys. lookup_inserts. reflexivity. }
  unfold decyzja_o_metodzie, dict_get in Hlabel. rewrite Hlook, Hp in Hlabel.
  cbn [mbind result_bind value_lt] in Hlabel.
  unfold wpisy_metody.
  destruct (float_lt neuro_p 0.05); apply Ok_inj in Hlabel; rewrite <- Hlabel; reflexivity.
Qed.

Lemma list_to_set_rev (l : list string) :
  (list_to_set (rev l) : gset string) = list_to_set l.
Proof. apply list_to_set_perm_L. symmetry. apply Permutation_rev. Qed.

Ltac unfold_klucz :=
  unfold klucz_z_wynikow, wpisy_hipotez, wpisy_korelacji, wpisy_metody, wpisy_opisowe;
  literal_keys.

Section Klucz.
Context (L : Libraries)
  (s0 s1 s2 s3 s4 : selection) (t0 t1 t2 t3 t4 : value * value)
  (neuro_p : float) (rho p_matrix : matrix).

Let klucz := klucz_z_wynikow L s0 s1 s2 s3 s4 t0 t1 t2 t3 t4 neuro_p rho p_matrix.

Lemma klucz_dom : dom klucz = list_to_set answer_keys.
Proof.
  rewrite <- list_to_set_rev. subst klucz. unfold_klucz.
  destruct (float_lt neuro_p 0.05); rewrite !dom_insert_L, dom_empty_L; reflexivity.
Qed.

Lemma klucz_size : size klucz = 69%nat.
Proof.
  rewrite <- size_dom, klucz_dom, size_list_to_set; [reflexivity|].
  apply (bool_decide_unpack _). vm_compute. exact I.
Qed.

Lemma klucz_hipotezy :
  (klucz !! "h1_sila" = Some (VStr (ocen_sile (rho 1%nat 0%nat))) /\
   klucz !! "h1_kierunek" = Some (VStr (ocen_kierunek (rho 1%nat 0%nat))) /\
   klucz !! "h1_decyzja" = Some (VStr (h1_decyzja (rho 1%nat 0%nat) (p_matrix 1%nat 0%nat)))) /\
  (klucz !! "h2_sila" = Some (VStr (ocen_sile (rho 2%nat 0%nat))) /\
   klucz !! "h2_kierunek" = Some (VStr (ocen_kierunek (rho 2%nat 0%nat))) /\
   klucz !! "h2_decyzja" = Some (VStr (h2_decyzja (rho 2%nat 0%nat) (p_matrix 2%nat 0%nat)))) /\
  (klucz !! "h3_sila" = Some (VStr (ocen_sile (rho 2%nat 1%nat))) /\
   klucz !! "h3_kierunek" = Some (VStr (ocen_kierunek (rho 2%nat 1%nat))) /\
   klucz !! "h3_decyzja" = Some (VStr (h3_decyzja (rho 2%nat 1%nat) (p_matrix 2%nat 1%nat)))) /\
  (klucz !! "h4_sila" = Some (VStr (ocen_sile (rho 3%nat 0%nat))) /\
   klucz !! "h4_kierunek" = Some (VStr (ocen_kierunek (rho 3%nat 0%nat))) /\
   klucz !! "h4_decyzja" = Some (VStr (h4_decyzja (rho 3%nat 0%nat) (p_matrix 3%nat 0%nat)))).
Proof.
  subst klucz. unfold klucz_z_wynikow, wpisy_hipotez.
  repeat split; lookup_inserts; reflexivity.
Qed.

Lemma klucz_korelacje (v1 v2 key : string) (i j : nat) :
  In (v1, v2, key) pairs -> idx v1 = Ok i -> idx v2 = Ok j ->
  klucz !! key = Some (VStr (format_r_z_gwiazdkami (rho i j) (p_matrix i j))).
Proof.
  subst klucz. unfold klucz_z_wynikow, wpisy_hipotez, wpisy_korelacji.
  unfold pairs. cbn [In]. intros Hin.
  repeat (destruct Hin as [Hin|Hin];
    [injection Hin as <- <- <-; intros Hi Hj; vm_compute in Hi, Hj;
     apply Ok_inj in Hi, Hj; subst i j; lookup_inserts; reflexivity|]).
  destruct Hin.
Qed.

Lemma klucz_metoda :
  klucz !! "rozklad_typ"
    = Some (VStr (if float_lt neuro_p 0.05 then "niespełnienie" else "spełnienie")) /\
  klucz !! "korelacja_typ"
    = Some (VStr (if float_lt neuro_p 0.05 then "rho-Spearmana" else "r-Pearsona")).
Proof.
  subst klucz. unfold klucz_z_wynikow, wpisy_hipotez, wpisy_korelacji, wpisy_metody.
  destruct (float_lt neuro_p 0.05); split; lookup_inserts; reflexivity.
Qed.

Lemma klucz_normalnosc :
  (klucz !! "ekstra_d" = Some t0.1 /\ klucz !! "ekstra_p" = Some t0.2) /\
  (klucz !! "neuro_d" = Some t1.1 /\ klucz !! "neuro_p" = Some t1.2) /\
  (klucz !! "otwar_d" = Some t2.1 /\ klucz !! "otwar_p" = Some t2.2) /\
  (klucz !! "ugoda_d" = Some t3.1 /\ klucz !! "ugoda_p" = Some t3.2) /\
  (klucz !! "sumien_d" = Some t4.1 /\ klucz !! "sumien_p" = Some t4.2).
Proof.
  subst klucz. unfold_klucz.
  destruct (float_lt neuro_p 0.05); repeat split; lookup_inserts; reflexivity.
Qed.
End Klucz.

(** ** The verdicts *)















(** With a p-value that is NaN, [p < 0.05] and [p >= 0.05] are both false:
    H1, H2 and H3 are not confirmed, and H4 is decided by the coefficient
    alone. *)
Lemma h123_decyzja_NaN (r : float) :
  h1_decyzja r NaN = "nie potwierdza" /\
  h2_decyzja r NaN = "nie potwierdza" /\
  h3_decyzja r NaN = "nie potwierdza".
Proof. repeat split. Qed.

(** ** The answer key of a successful run *)

(** C9.  Whenever [oblicz_poprawne_statystyki] returns an answer key, its
    keys are exactly the 69 keys of [answer_keys]: nine per variable (seven
    descriptive statistics, the D statistic and the p-value of the normality
    test), the two method labels, the ten formatted correlations and three
    entries per hypothesis, whatever the values of the table are. *)
Theorem oblicz_poprawne_statystyki_keys
    (L : Libraries) (df : DataFrame) (klucz : gmap string value) :
  oblicz_poprawne_statystyki L df = Ok klucz ->
  dom klucz = list_to_set answer_keys /\
  (forall key, is_Some (klucz !! key) <-> In key answer_keys) /\
  size klucz = 69%nat /\
  length answer_keys = 69%nat.
Proof.
  intros H. apply oblicz_poprawne_statystyki_inv in H
    as (s0 & s1 & s2 & s3 & s4 & t0 & t1 & t2 & t3 & t4 & q & table & rho & p & H).
  destruct H as (_ & _ & _ & _ & _ & _ & _ & _ & ->).
  split; [apply klucz_dom|]. split; [|split; [apply klucz_size|reflexivity]].
  intros key. rewrite <- elem_of_dom, klucz_dom, elem_of_list_to_set.
  apply list_elem_of_In.
Qed.

Lemma oblicz_poprawne_statystyki_keys_witness :
  exists klucz,
    oblicz_poprawne_statystyki Stub.libs Stub.small_df = Ok klucz /\
    dom klucz = list_to_set answer_keys /\
    size klucz = 69%nat.
Proof.
  assert (Hok : is_ok (oblicz_poprawne_statystyki Stub.libs Stub.small_df) = true)
    by (vm_compute; reflexivity).
  destruct (is_ok_succeeds _ Hok) as [klucz Hrun].
  exists klucz. split; [exact Hrun|].
  destruct (oblicz_poprawne_statystyki_keys Stub.libs Stub.small_df klucz Hrun)
    as (Hdom & _ & Hsize & _).
  split; assumption.
Defined.

(** C3.  In every successful run [stats.spearmanr] is called once, on the
    five columns, and its two arrays are the source of all ten formatted
    correlations and of the strength, direction and verdict of all four
    hypotheses.  The label "korelacja_typ" is one of "rho-Spearmana" and
    "r-Pearsona", and it has no influence on these entries: a run with other
    libraries (another normality test, hence possibly the other label) that
    share [spearmanr] writes the same 22 entries. *)
Theorem korelacje_zawsze_spearmana
    (L : Libraries) (df : DataFrame) (klucz : gmap string value) :
  oblicz_poprawne_statystyki L df = Ok klucz ->
  exists table rho p_matrix,
    df_cols df vars_list = Ok table /\
    spearmanr L table = Ok (Arrays rho p_matrix) /\
    (klucz !! "korelacja_typ" = Some (VStr "rho-Spearmana") \/
     klucz !! "korelacja_typ" = Some (VStr "r-Pearsona")) /\
    (forall v1 v2 key i j,
       In (v1, v2, key) pairs -> idx v1 = Ok i -> idx v2 = Ok j ->
       klucz !! key = Some (VStr (format_r_z_gwiazdkami (rho i j) (p_matrix i j)))) /\
    klucz !! "h1_sila" = Some (VStr (ocen_sile (rho 1 0)%nat)) /\
    klucz !! "h1_kierunek" = Some (VStr (ocen_kierunek (rho 1 0)%nat)) /\
    klucz !! "h1_decyzja" = Some (VStr (h1_decyzja (rho 1 0) (p_matrix 1 0))%nat) /\
    klucz !! "h2_sila" = Some (VStr (ocen_sile (rho 2 0)%nat)) /\
    klucz !! "h2_kierunek" = Some (VStr (ocen_kierunek (rho 2 0)%nat)) /\
    klucz !! "h2_decyzja" = Some (VStr (h2_decyzja (rho 2 0) (p_matrix 2 0))%nat) /\
    klucz !! "h3_sila" = Some (VStr (ocen_sile (rho 2 1)%nat)) /\
    klucz !! "h3_kierunek" = Some (VStr (ocen_kierunek (rho 2 1)%nat)) /\
    klucz !! "h3_decyzja" = Some (VStr (h3_decyzja (rho 2 1) (p_matrix 2 1))%nat) /\
    klucz !! "h4_sila" = Some (VStr (ocen_sile (rho 3 0)%nat)) /\
    klucz !! "h4_kierunek" = Some (VStr (ocen_kierunek (rho 3 0)%nat)) /\
    klucz !! "h4_decyzja" = Some (VStr (h4_decyzja (rho 3 0) (p_matrix 3 0))%nat) /\
    (forall (L' : Libraries) (klucz' : gmap string value),
       spearmanr L' = spearmanr L ->
       oblicz_poprawne_statystyki L' df = Ok klucz' ->
       forall key, In key klucze_korelacji -> klucz' !! key = klucz !! key).
Proof.
  intros H. apply oblicz_poprawne_statystyki_inv in H
    as (s0 & s1 & s2 & s3 & s4 & t0 & t1 & t2 & t3 & t4 & q & table & rho & p & H).
  destruct H as (_ & _ & _ & _ & _ & _ & Htable & Hsp & ->).
  exists table, rho, p. split; [exact Htable|]. split; [exact Hsp|].
  split.
  { destruct (klucz_metoda L s0 s1 s2 s3 s4 t0 t1 t2 t3 t4 q rho p) as [_ ->].
    destruct (float_lt q 0.05); [left|right]; reflexivity. }
  split; [intros v1 v2 key i j; apply klucz_korelacje|].
  pose proof (klucz_hipotezy L s0 s1 s2 s3 s4 t0 t1 t2 t3 t4 q rho p)
    as ((A1 & A2 & A3) & (B1 & B2 & B3) & (C1 & C2 & C3) & (D1 & D2 & D3)).
  do 12 (split; [assumption|]).
  intros L' klucz' HL' H' key Hkey.
  apply oblicz_poprawne_statystyki_inv in H'
    as (s0' & s1' & s2' & s3' & s4' & t0' & t1' & t2' & t3' & t4' & q' & table'
        & rho' & p' & H').
  destruct H' as (_ & _ & _ & _ & _ & _ & Htable' & Hsp' & ->).
  rewrite Htable in Htable'. apply Ok_inj in Htable' as <-.
  rewrite HL', Hsp in Hsp'. apply Ok_inj in Hsp'. injection Hsp' as <- <-.
  pose proof (klucz_hipotezy L' s0' s1' s2' s3' s4' t0' t1' t2' t3' t4' q' rho p)
    as ((A1' & A2' & A3') & (B1' & B2' & B3') & (C1' & C2' & C3') & (D1' & D2' & D3')).
  unfold klucze_korelacji, pairs in Hkey. cbn [map flat_map app snd In] in Hkey.
  repeat (destruct Hkey as [<-|Hkey];
    [first [ literal_keys; congruence
           | etransitivity; [|symmetry];
             eapply klucz_korelacje;
             first [ reflexivity | unfold pairs; cbn [In]; tauto ] ]|]).
  destruct Hkey.
Qed.

Lemma korelacje_zawsze_spearmana_witness :
  exists klucz klucz',
    oblicz_poprawne_statystyki Stub.libs Stub.small_df = Ok klucz /\
    oblicz_poprawne_statystyki Stub.libs_not_normal Stub.small_df = Ok klucz' /\
    klucz !! "korelacja_typ" = Some (VStr "r-Pearsona") /\
    klucz' !! "korelacja_typ" = Some (VStr "rho-Spearmana") /\
    klucz !! "corr_neuro_ekstra" = Some (VStr "-0,60**") /\
    klucz' !! "corr_neuro_ekstra" = klucz !! "corr_neuro_ekstra" /\
    klucz' !! "h1_decyzja" = klucz !! "h1_decyzja".
Proof.
  assert (Hok : is_ok (oblicz_poprawne_statystyki Stub.libs Stub.small_df) = true)
    by (vm_compute; reflexivity).
  assert (Hok' : is_ok (oblicz_poprawne_statystyki Stub.libs_not_normal Stub.small_df)
                 = true)
    by (vm_compute; reflexivity).
  assert (Hl : oblicz_poprawne_statystyki Stub.libs Stub.small_df
               ≫= (fun k => Ok (k !! "korelacja_typ"))
               = Ok (Some (VStr "r-Pearsona")))
    by (vm_compute; reflexivity).
  assert (Hl' : oblicz_poprawne_statystyki Stub.libs_not_normal Stub.small_df
                ≫= (fun k => Ok (k !! "korelacja_typ"))
                = Ok (Some (VStr "rho-Spearmana")))
    by (vm_compute; reflexivity).
  destruct (is_ok_succeeds _ Hok) as [klucz Hrun].
  destruct (is_ok_succeeds _ Hok') as [klucz' Hrun'].
  rewrite Hrun in Hl. rewrite Hrun' in Hl'. apply Ok_inj in Hl, Hl'.
  exists klucz, klucz'.
  destruct (korelacje_zawsze_spearmana Stub.libs Stub.small_df klucz Hrun)
    as (table & rho & p_matrix & _ & Hsp & _ & Hcorr & H).
  destruct H as (_ & _ & _ & _ & _ & _ & _ & _ & _ & _ & _ & _ & Hsame).
  change (Ok (Arrays Stub.rho Stub.p_matrix) = Ok (Arrays rho p_matrix)) in Hsp.
  apply Ok_inj in Hsp. injection Hsp as <- <-.
  repeat (split; [assumption|]).
  split; [|split].
  - apply (Hcorr "Neurotyzm" "Ekstrawersja" "corr_neuro_ekstra" 1%nat 0%nat);
      [unfold pairs; cbn [In]; tauto|reflexivity|reflexivity].
  - apply (Hsame Stub.libs_not_normal klucz' eq_refl Hrun').
    unfold klucze_korelacji, pairs. cbn [map app In snd]. tauto.
  - apply (Hsame Stub.libs_not_normal klucz' eq_refl Hrun').
    apply in_or_app. right. vm_compute. tauto.
Defined.




(** ** Failures *)

Section Steps.
Context (L : Libraries) (df : DataFrame).

Lemma statystyki_opisowe_eq (klucz : gmap string value) (col_name prefix : string) :
  statystyki_opisowe L df klucz (col_name, prefix)
  = (series ← df_col df col_name;
     test ← test_normalnosci L series;
     Ok (wpisy_opisowe L prefix series test klucz)).
Proof.
  unfold statystyki_opisowe.
  destruct (df_col df col_name) as [series|e]; [|reflexivity].
  cbn [mbind result_bind].
  destruct (test_normalnosci L series) as [[d p]|e]; reflexivity.
Qed.

(** The run after the five columns were read and tested. *)
Lemma oblicz_poprawne_statystyki_steps
    (s0 s1 s2 s3 s4 : selection) (t0 t1 t2 t3 t4 : value * value) (neuro_p : float) :
  df_col df "Ekstrawersja" = Ok s0 -> test_normalnosci L s0 = Ok t0 ->
  df_col df "Neurotyzm" = Ok s1 -> test_normalnosci L s1 = Ok t1 ->
  df_col df "Otwartosc" = Ok s2 -> test_normalnosci L s2 = Ok t2 ->
  df_col df "Ugodowosc" = Ok s3 -> test_normalnosci L s3 = Ok t3 ->
  df_col df "Sumiennosc" = Ok s4 -> test_normalnosci L s4 = Ok t4 ->
  t1.2 = VFloat neuro_p ->
  df_cols df vars_list
  = Ok (selection_columns s0 ++ selection_columns s1 ++ selection_columns s2
        ++ selection_columns s3 ++ selection_columns s4 ++ []) /\
  oblicz_poprawne_statystyki L df
  = (res ← spearmanr L (selection_columns s0 ++ selection_columns s1
                        ++ selection_columns s2 ++ selection_columns s3
                        ++ selection_columns s4 ++ []);
     match res with
     | Arrays rho p_matrix =>
         Ok (klucz_z_wynikow L s0 s1 s2 s3 s4 t0 t1 t2 t3 t4 neuro_p rho p_matrix)
     | Scalars _ _ => Raise TypeError
     end).
Proof.
  intros C0 T0 C1 T1 C2 T2 C3 T3 C4 T4 Hp.
  assert (Hcols : df_cols df vars_list
            = Ok (selection_columns s0 ++ selection_columns s1 ++ selection_columns s2
                  ++ selection_columns s3 ++ selection_columns s4 ++ [])).
  { unfold vars_list. cbn [df_cols]. rewrite C0, C1, C2, C3, C4. reflexivity. }
  split; [exact Hcols|].
  unfold oblicz_poprawne_statystyki, PREFIX_MAP. cbn [for_each].
  rewrite !statystyki_opisowe_eq.
  rewrite C0. cbn [mbind result_bind]. rewrite T0. cbn [mbind result_bind].
  rewrite statystyki_opisowe_eq, C1. cbn [mbind result_bind].
  rewrite T1. cbn [mbind result_bind].
  rewrite statystyki_opisowe_eq, C2. cbn [mbind result_bind].
  rewrite T2. cbn [mbind result_bind].
  rewrite statystyki_opisowe_eq, C3. cbn [mbind result_bind].
  rewrite T3. cbn [mbind result_bind].
  rewrite statystyki_opisowe_eq, C4. cbn [mbind result_bind].
  rewrite T4. cbn [mbind result_bind].
  assert (Hlook : wpisy_opisowe L "sumien" s4 t4
            (wpisy_opisowe L "ugoda" s3 t3
               (wpisy_opisowe L "otwar" s2 t2
                  (wpisy_opisowe L "neuro" s1 t1
                     (wpisy_opisowe L "ekstra" s0 t0 ∅)))) !! "neuro_p" = Some t1.2).
  { unfold wpisy_opisowe. literal_keys. lookup_inserts. reflexivity. }
  unfold decyzja_o_metodzie, dict_get. rewrite Hlook, Hp.
  cbn [mbind result_bind value_lt].
  rewrite Hcols. cbn [mbind result_bind].
  destruct (spearmanr L _) as [[rho p_matrix|rho p]|e].
  - cbn [mbind result_bind]. unfold klucz_z_wynikow, wpisy_metody.
    destruct (float_lt neuro_p 0.05); cbn [mbind result_bind];
      rewrite korelacje_eq; cbn [mbind result_bind];
      rewrite weryfikacja_hipotez_eq; reflexivity.
  - cbn [mbind result_bind].
    destruct (float_lt neuro_p 0.05); cbn [mbind result_bind];
      rewrite korelacje_Scalars; reflexivity.
  - destruct (float_lt neuro_p 0.05); reflexivity.
Qed.

(** The exception of a run that fails at one of the five columns. *)
Lemma for_each_statystyki_raise (items : list (string * string))
    (klucz : gmap string value) (e : exn) :
  for_each (statystyki_opisowe L df) items klucz = Raise e ->
  exists col_name prefix,
    In (col_name, prefix) items /\
    (df_col df col_name = Raise e \/
     exists series, df_col df col_name = Ok series /\
                    test_normalnosci L series = Raise e).
Proof.
  revert klucz. induction items as [|[c p] items IH]; intros klucz H; [discriminate|].
  cbn [for_each] in H. rewrite statystyki_opisowe_eq in H.
  destruct (df_col df c) as [series|e0] eqn:C.
  - cbn [mbind result_bind] in H.
    destruct (test_normalnosci L series) as [t|e0] eqn:T.
    + cbn [mbind result_bind] in H. apply IH in H as (c' & p' & Hin & H).
      exists c', p'. split; [right; exact Hin|exact H].
    + injection H as <-. exists c, p. split; [left; reflexivity|].
      right. exists series. split; [exact C|exact T].
  - injection H as <-. exists c, p. split; [left; reflexivity|left; exact C].
Qed.

Lemma for_each_statystyki_ok (items : list (string * string))
    (klucz klucz' : gmap string value) :
  for_each (statystyki_opisowe L df) items klucz = Ok klucz' ->
  forall col_name prefix, In (col_name, prefix) items ->
    exists series test, df_col df col_name = Ok series /\
                        test_normalnosci L series = Ok test.
Proof.
  revert klucz. induction items as [|[c p] items IH]; intros klucz H c' p' Hin;
    [destruct Hin|].
  cbn [for_each] in H. apply bind_Ok_inv in H as (k1 & H1 & H).
  destruct Hin as [[= <- <-]|Hin]; [|exact (IH k1 H c' p' Hin)].
  rewrite statystyki_opisowe_eq in H1.
  apply bind_Ok_inv in H1 as (series & C & H1).
  apply bind_Ok_inv in H1 as (test & T & _). eauto.
Qed.

End Steps.

Lemma in_PREFIX_MAP (col_name prefix : string) :
  In (col_name, prefix) PREFIX_MAP -> In col_name vars_list.
Proof.
  unfold PREFIX_MAP, vars_list. cbn [In]. intros H.
  repeat (destruct H as [[= <- <-]|H]; [tauto|]). destruct H.
Qed.

Lemma in_vars_list (col_name : string) :
  In col_name vars_list -> exists prefix, In (col_name, prefix) PREFIX_MAP.
Proof.
  unfold PREFIX_MAP, vars_list. cbn [In]. intros H.
  repeat (destruct H as [<-|H]; [eexists; tauto|]). destruct H.
Qed.

Lemma positions_nil (name : string) (names : list string) (i : nat) :
  positions name names i = [] <-> ~ In name names.
Proof.
  revert i. induction names as [|x names IH]; intros i; cbn [positions In]; [tauto|].
  destruct (String.eqb_spec x name) as [->|Hne].
  - split; [discriminate|]. intros H. exfalso. apply H. left. reflexivity.
  - rewrite IH. tauto.
Qed.

Lemma df_col_raise (df : DataFrame) (col_name : string) (e : exn) :
  df_col df col_name = Raise e -> e = KeyError /\ ~ In col_name (df_columns df).
Proof.
  unfold df_col.
  destruct (positions col_name (df_columns df) 0) as [|i [|j rest]] eqn:E;
    [|discriminate|discriminate].
  intros [= <-]. split; [reflexivity|]. apply (positions_nil _ _ 0%nat), E.
Qed.

Lemma z_score_inv (L : Libraries) (series : selection) (z : array L) :
  z_score L series = Ok z ->
  exists a b,
    series_sub L series (series_mean L series) = Ok a /\
    value_bool (series_std L series) = Ok b /\
    series_div L a (if b : bool then series_std L series else VInt 1) = Ok z.
Proof.
  unfold z_score. intros H.
  apply bind_Ok_inv in H as (a & Ha & H). cbv zeta in H.
  apply bind_Ok_inv in H as (b & Hb & H). eauto.
Qed.

Lemma value_bool_raise (v : value) (e : exn) :
  value_bool v = Raise e -> e = ValueError /\ exists vs, v = VSeries vs.
Proof. destruct v; try discriminate. intros [= <-]. eauto. Qed.

(** The exception of the normality test is that of the step that failed:
    the subtraction, the truth value of the standard deviation, the
    division or [stats.kstest]. *)
Lemma test_normalnosci_raise (L : Libraries) (series : selection) (e : exn) :
  test_normalnosci L series = Raise e ->
  HAS_STATSMODELS L = false /\
  (series_sub L series (series_mean L series) = Raise e \/
   (exists a vs, series_sub L series (series_mean L series) = Ok a /\
                 series_std L series = VSeries vs /\ e = ValueError) \/
   (exists a b, series_sub L series (series_mean L series) = Ok a /\
                value_bool (series_std L series) = Ok b /\
                series_div L a (if b : bool then series_std L series else VInt 1)
                = Raise e) \/
   (exists z, z_score L series = Ok z /\ kstest_norm L z = Raise e)).
Proof.
  unfold test_normalnosci. destruct (HAS_STATSMODELS L).
  { destruct (lilliefors L series) as [[d p]|e0]; discriminate. }
  intros H. split; [reflexivity|].
  destruct (z_score L series) as [z|e0] eqn:Ez.
  - right; right; right. exists z. split; [reflexivity|].
    cbn [mbind result_bind] in H.
    destruct (kstest_norm L z) as [[d p]|e1]; [discriminate|].
    injection H as <-. reflexivity.
  - injection H as <-. unfold z_score in Ez.
    destruct (series_sub L series (series_mean L series)) as [a|e1] eqn:Ea;
      [|left; exact Ez].
    cbn [mbind result_bind] in Ez. cbv zeta in Ez.
    destruct (value_bool (series_std L series)) as [b|e1] eqn:Eb.
    + right; right; left. exists a, b. auto.
    + injection Ez as <-. apply value_bool_raise in Eb as (-> & vs & Evs).
      right; left. exists a, vs. auto.
Qed.

(** C5, as amended.  An exception of [lilliefors] is not fatal: the run goes
    on with [0] and [1.0] in place of the D statistic and the p-value of
    that variable.  Every other exception is fatal.  A run returns an answer
    key exactly when each of the five columns is found and its normality
    test returns, and [stats.spearmanr] returns two arrays; the normality
    test returns exactly when statsmodels is present or the subtraction,
    the truth value of the standard deviation, the division and
    [stats.kstest] all return.  A run that fails raises the exception of
    the step that failed: [KeyError] for a column that is missing, the
    exception of the normality test, the exception of [stats.spearmanr], or
    [TypeError] when [stats.spearmanr] returned scalars; the normality test
    raises the exception of its step that failed, which is [ValueError] when
    the standard deviation is a Series.  A result that is NaN is no
    failure: it is entered in the answer key as any other number.  An
    answer key that is returned has all 69 keys, and the two normality
    entries of each variable are what [lilliefors] or [stats.kstest]
    returned, or the substitutes. *)
Theorem oblicz_poprawne_statystyki_failures (L : Libraries) (df : DataFrame) :
  (forall klucz,
     oblicz_poprawne_statystyki L df = Ok klucz ->
     dom klucz = list_to_set answer_keys /\
     Forall (fun item : string * string =>
       exists series,
         df_col df item.1 = Ok series /\
         if HAS_STATSMODELS L then
           match lilliefors L series with
           | Ok (d_stat, p_val) =>
               klucz !! (item.2 +:+ "_d") = Some (VFloat d_stat) /\
               klucz !! (item.2 +:+ "_p") = Some (VFloat p_val)
           | Raise _ =>
               klucz !! (item.2 +:+ "_d") = Some (VInt 0) /\
               klucz !! (item.2 +:+ "_p") = Some (VFloat (Finite 1.0))
           end
         else
           exists z d_stat p_val,
             z_score L series = Ok z /\
             kstest_norm L z = Ok (d_stat, p_val) /\
             klucz !! (item.2 +:+ "_d") = Some (VFloat d_stat) /\
             klucz !! (item.2 +:+ "_p") = Some (VFloat p_val))
       PREFIX_MAP) /\
  (succeeds (oblicz_poprawne_statystyki L df) <->
     (forall col_name, In col_name vars_list ->
        exists series, df_col df col_name = Ok series /\
                       succeeds (test_normalnosci L series)) /\
     (exists table rho p_matrix,
        df_cols df vars_list = Ok table /\
        spearmanr L table = Ok (Arrays rho p_matrix))) /\
  (forall series,
     succeeds (test_normalnosci L series) <->
     HAS_STATSMODELS L = true \/
     exists a b z,
       series_sub L series (series_mean L series) = Ok a /\
       value_bool (series_std L series) = Ok b /\
       series_div L a (if b : bool then series_std L series else VInt 1) = Ok z /\
       succeeds (kstest_norm L z)) /\
  (forall e,
     oblicz_poprawne_statystyki L df = Raise e ->
     (exists col_name,
        In col_name vars_list /\ df_col df col_name = Raise e /\ e = KeyError) \/
     (exists col_name series,
        In col_name vars_list /\ df_col df col_name = Ok series /\
        test_normalnosci L series = Raise e) \/
     (exists table,
        df_cols df vars_list = Ok table /\
        (spearmanr L table = Raise e \/
         exists rho p, spearmanr L table = Ok (Scalars rho p) /\ e = TypeError))) /\
  (forall series e,
     test_normalnosci L series = Raise e ->
     HAS_STATSMODELS L = false /\
     (series_sub L series (series_mean L series) = Raise e \/
      (exists a vs, series_sub L series (series_mean L series) = Ok a /\
                    series_std L series = VSeries vs /\ e = ValueError) \/
      (exists a b, series_sub L series (series_mean L series) = Ok a /\
                   value_bool (series_std L series) = Ok b /\
                   series_div L a (if b : bool then series_std L series else VInt 1)
                   = Raise e) \/
      (exists z, z_score L series = Ok z /\ kstest_norm L z = Raise e))).
Proof.
  assert (Hfive : (forall col_name, In col_name vars_list ->
                     exists series, df_col df col_name = Ok series /\
                                    succeeds (test_normalnosci L series)) ->
            exists s0 s1 s2 s3 s4 t0 t1 t2 t3 t4 neuro_p,
              (df_col df "Ekstrawersja" = Ok s0 /\ test_normalnosci L s0 = Ok t0) /\
              (df_col df "Neurotyzm" = Ok s1 /\ test_normalnosci L s1 = Ok t1) /\
              (df_col df "Otwartosc" = Ok s2 /\ test_normalnosci L s2 = Ok t2) /\
              (df_col df "Ugodowosc" = Ok s3 /\ test_normalnosci L s3 = Ok t3) /\
              (df_col df "Sumiennosc" = Ok s4 /\ test_normalnosci L s4 = Ok t4) /\
              t1.2 = VFloat neuro_p).
  { intros H.
    destruct (H "Ekstrawersja") as (s0 & C0 & t0 & T0); [unfold vars_list; cbn; tauto|].
    destruct (H "Neurotyzm") as (s1 & C1 & t1 & T1); [unfold vars_list; cbn; tauto|].
    destruct (H "Otwartosc") as (s2 & C2 & t2 & T2); [unfold vars_list; cbn; tauto|].
    destruct (H "Ugodowosc") as (s3 & C3 & t3 & T3); [unfold vars_list; cbn; tauto|].
    destruct (H "Sumiennosc") as (s4 & C4 & t4 & T4); [unfold vars_list; cbn; tauto|].
    destruct (test_normalnosci_p_float L s1 t1 T1) as [neuro_p Hp].
    exists s0, s1, s2, s3, s4, t0, t1, t2, t3, t4, neuro_p. auto 10. }
  assert (Hinv : forall klucz, oblicz_poprawne_statystyki L df = Ok klucz ->
            dom klucz = list_to_set answer_keys /\
            (exists table rho p_matrix,
               df_cols df vars_list = Ok table /\
               spearmanr L table = Ok (Arrays rho p_matrix)) /\
            Forall (fun item : string * string =>
              exists series test,
                df_col df item.1 = Ok series /\
                test_normalnosci L series = Ok test /\
                klucz !! (item.2 +:+ "_d") = Some test.1 /\
                klucz !! (item.2 +:+ "_p") = Some test.2) PREFIX_MAP).
  { intros klucz H. apply oblicz_poprawne_statystyki_inv in H
      as (s0 & s1 & s2 & s3 & s4 & t0 & t1 & t2 & t3 & t4 & q & table & rho & p & H).
    destruct H as ((C0 & T0) & (C1 & T1) & (C2 & T2) & (C3 & T3) & (C4 & T4)
                   & _ & Htable & Hsp & ->).
    split; [apply klucz_dom|]. split; [eauto|].
    pose proof (klucz_normalnosc L s0 s1 s2 s3 s4 t0 t1 t2 t3 t4 q rho p)
      as ((D0 & P0) & (D1 & P1) & (D2 & P2) & (D3 & P3) & (D4 & P4)).
    unfold PREFIX_MAP. repeat constructor; cbn [fst snd]; literal_keys; eauto 10. }
  split; [|split; [|split; [|split]]].
  - intros klucz H. destruct (Hinv klucz H) as (Hdom & _ & Hall).
    split; [exact Hdom|].
    eapply Forall_impl; [exact Hall|]. cbv beta.
    intros item (series & test & Hcol & Htest & Hd & Hp).
    exists series. split; [exact Hcol|].
    apply test_normalnosci_inv in Htest. destruct (HAS_STATSMODELS L).
    + destruct (lilliefors L series) as [[d p]|e]; subst test; auto.
    + destruct Htest as (z & d & p & Hz & Hks & ->). eauto 10.
  - split.
    + intros [klucz H]. destruct (Hinv klucz H) as (_ & Hsp & Hall). split; [|exact Hsp].
      intros c Hc. apply in_vars_list in Hc as [p Hp].
      rewrite List.Forall_forall in Hall.
      destruct (Hall (c, p) Hp) as (series & test & C & T & _).
      exists series. split; [exact C|]. exists test. exact T.
    + intros [Hall (table & rho & p_matrix & Htable & Hsp)].
      destruct (Hfive Hall)
        as (s0 & s1 & s2 & s3 & s4 & t0 & t1 & t2 & t3 & t4 & x & H).
      destruct H as ((C0 & T0) & (C1 & T1) & (C2 & T2) & (C3 & T3) & (C4 & T4) & Hp).
      destruct (oblicz_poprawne_statystyki_steps L df s0 s1 s2 s3 s4 t0 t1 t2 t3 t4 x
                  C0 T0 C1 T1 C2 T2 C3 T3 C4 T4 Hp) as [Hc ->].
      rewrite Hc in Htable. apply Ok_inj in Htable as <-. rewrite Hsp.
      eexists. reflexivity.
  - intros series. split.
    + intros [test H]. apply test_normalnosci_inv in H.
      destruct (HAS_STATSMODELS L); [left; reflexivity|right].
      destruct H as (z & d & p & Hz & Hks & _).
      apply z_score_inv in Hz as (a & b & Ha & Hb & Hz).
      exists a, b, z. repeat (split; [assumption|]). eexists. exact Hks.
    + unfold test_normalnosci.
      intros [->|(a & b & z & Ha & Hb & Hz & [[d p] Hks])].
      * destruct (lilliefors L series) as [[d p]|e]; eexists; reflexivity.
      * destruct (HAS_STATSMODELS L).
        { destruct (lilliefors L series) as [[d' p']|e]; eexists; reflexivity. }
        unfold z_score. rewrite Ha. cbn [mbind result_bind]. cbv zeta.
        rewrite Hb. cbn [mbind result_bind]. rewrite Hz. cbn [mbind result_bind].
        rewrite Hks. eexists. reflexivity.
  - intros e H.
    destruct (for_each (statystyki_opisowe L df) PREFIX_MAP ∅) as [k5|e0] eqn:E5.
    + right; right.
      assert (Hall : forall col_name, In col_name vars_list ->
                exists series, df_col df col_name = Ok series /\
                               succeeds (test_normalnosci L series)).
      { intros c Hc. apply in_vars_list in Hc as [p Hp].
        destruct (for_each_statystyki_ok L df _ _ _ E5 c p Hp) as (series & test & C & T).
        exists series. split; [exact C|]. exists test. exact T. }
      destruct (Hfive Hall)
        as (s0 & s1 & s2 & s3 & s4 & t0 & t1 & t2 & t3 & t4 & x & H').
      destruct H' as ((C0 & T0) & (C1 & T1) & (C2 & T2) & (C3 & T3) & (C4 & T4) & Hp).
      destruct (oblicz_poprawne_statystyki_steps L df s0 s1 s2 s3 s4 t0 t1 t2 t3 t4 x
                  C0 T0 C1 T1 C2 T2 C3 T3 C4 T4 Hp) as [Hc Hrun].
      rewrite Hrun in H. eexists. split; [exact Hc|].
      destruct (spearmanr L _) as [[rho p_matrix|rho p]|e1]; [discriminate| |].
      * injection H as <-. right. eauto.
      * injection H as <-. left. reflexivity.
    + assert (e = e0) as ->.
      { unfold oblicz_poprawne_statystyki in H. rewrite E5 in H.
        injection H as <-. reflexivity. }
      apply for_each_statystyki_raise in E5 as (c & p & Hin & [Hk|(series & C & T)]).
      * left. exists c. split; [exact (in_PREFIX_MAP c p Hin)|]. split; [exact Hk|].
        apply df_col_raise in Hk as [-> _]. reflexivity.
      * right; left. exists c, series. split; [exact (in_PREFIX_MAP c p Hin)|]. auto.
  - apply test_normalnosci_raise.
Qed.

Lemma oblicz_poprawne_statystyki_failures_witness :
  exists klucz,
    oblicz_poprawne_statystyki Stub.libs_lilliefors_raises Stub.small_df = Ok klucz /\
    dom klucz = list_to_set answer_keys /\
    klucz !! "neuro_d" = Some (VInt 0) /\
    klucz !! "neuro_p" = Some (VFloat (Finite 1.0)).
Proof.
  assert (Hok : is_ok (oblicz_poprawne_statystyki Stub.libs_lilliefors_raises
                         Stub.small_df) = true)
    by (vm_compute; reflexivity).
  destruct (is_ok_succeeds _ Hok) as [klucz Hrun].
  exists klucz. split; [exact Hrun|].
  destruct (oblicz_poprawne_statystyki_failures Stub.libs_lilliefors_raises
              Stub.small_df) as (Hkey & _).
  destruct (Hkey klucz Hrun) as (Hdom & Hall).
  split; [exact Hdom|].
  rewrite List.Forall_forall in Hall.
  destruct (Hall ("Neurotyzm", "neuro")) as (series & _ & Hd & Hp);
    [unfold PREFIX_MAP; cbn [In]; tauto|].
  split; [exact Hd|exact Hp].
Defined.

(** The claim C5 as stated fails.  With statsmodels present and a
    [lilliefors] that raises on every call, the route still returns an
    answer key for the identifier "abc": it has all 69 keys, the D statistic
    and the p-value of Neurotyzm are the substituted [0] and [1.0], and the
    method labels are computed from the substituted p-value.  A degenerate
    table is no failure either: for a table of two records, for which pandas
    gives NaN as the skewness and scipy NaN as every p-value, an answer key
    with all 69 keys is returned. *)
Lemma lilliefors_failure_is_substituted :
  HAS_STATSMODELS Stub.libs_lilliefors_raises = true /\
  (forall series, lilliefors Stub.libs_lilliefors_raises series = Raise LibraryError) /\
  (klucz ← (index_answers Stub.libs_lilliefors_raises (pystr_of_string "abc") 0).1;
   Ok (klucz !! "neuro_d", klucz !! "neuro_p", klucz !! "rozklad_typ",
       klucz !! "korelacja_typ", size klucz))
  = Ok (Some (VInt 0), Some (VFloat (Finite 1.0)), Some (VStr "spełnienie"),
        Some (VStr "r-Pearsona"), 69%nat) /\
  (klucz ← oblicz_poprawne_statystyki Stub.libs_two_records Stub.two_records_df;
   Ok (klucz !! "ekstra_sk", klucz !! "corr_neuro_ekstra", klucz !! "h1_decyzja",
       size klucz))
  = Ok (Some (VFloat NaN), Some (VStr "-1,00"), Some (VStr "nie potwierdza"), 69%nat).
Proof.
  split; [reflexivity|]. split; [reflexivity|].
  split; vm_compute; reflexivity.
Qed.

(** The failures of a run on the reference instances: a missing column,
    [stats.spearmanr] returning scalars, and, without statsmodels, a second
    column called Ekstrawersja, whose standard deviation is a Series. *)
Example oblicz_poprawne_statystyki_raises :
  oblicz_poprawne_statystyki Stub.libs
    {| df_columns := ["Ekstrawersja"; "Neurotyzm"]%string; df_values := [[12; 11]] |}
  = Raise KeyError /\
  oblicz_poprawne_statystyki Stub.libs_scalars Stub.small_df = Raise TypeError /\
  oblicz_poprawne_statystyki Stub.libs_no_statsmodels Stub.duplicate_df
  = Raise ValueError /\
  is_ok (oblicz_poprawne_statystyki Stub.libs Stub.duplicate_df) = true /\
  is_ok (oblicz_poprawne_statystyki Stub.libs_no_statsmodels Stub.small_df) = true.
Proof. repeat split; vm_compute; reflexivity. Qed.
(** ** Formatting a coefficient *)

(** Unfolding of [+:+] on a string that starts with known characters. *)
Ltac app_cons :=
  repeat first
    [ progress change (String ?c ?a +:+ ?b) with (String c (a +:+ b))
    | progress change (EmptyString +:+ ?b) with b ].

Lemma string_forall_app (P : ascii -> bool) (a b : string) :
  string_forall P (a +:+ b) = string_forall P a && string_forall P b.
Proof.
  induction a as [|c a IH]; [reflexivity|].
  app_cons. cbn [string_forall]. rewrite IH, andb_assoc. reflexivity.
Qed.

Lemma string_forall_impl (P Q : ascii -> bool) (s : string) :
  (forall c, P c = true -> Q c = true) ->
  string_forall P s = true -> string_forall Q s = true.
Proof.
  intros HPQ. induction s as [|c s IH]; [reflexivity|].
  cbn [string_forall]. rewrite !andb_true_iff. intros [Hc Hs]. auto.
Qed.

Lemma replace_app (old new : ascii) (a b : string) :
  replace old new (a +:+ b) = replace old new a +:+ replace old new b.
Proof.
  induction a as [|c a IH]; [reflexivity|].
  app_cons. cbn [replace]. rewrite IH. reflexivity.
Qed.

Lemma replace_absent (old new : ascii) (s : string) :
  string_forall (fun c => negb (Ascii.eqb c old)) s = true ->
  replace old new s = s.
Proof.
  induction s as [|c s IH]; [reflexivity|].
  cbn [string_forall replace]. rewrite andb_true_iff, negb_true_iff.
  intros [-> Hs]. rewrite IH by exact Hs. reflexivity.
Qed.


Lemma digits_all_digit (n : N) : string_forall is_digit (digits n) = true.
Proof.
  unfold digits. generalize (N.to_uint n). intros d.
  induction d; cbn [NilEmpty.string_of_uint string_forall]; try rewrite IHd; reflexivity.
Qed.

Lemma digit_char_is_digit (n : N) : (n < 10)%N -> is_digit (digit_char n) = true.
Proof.
  intros H.
  assert (C : In n (map N.of_nat (seq 0 10))).
  { apply in_map_iff. exists (N.to_nat n). split; [lia|]. apply in_seq. lia. }
  cbn in C. repeat destruct C as [<-|C]; try reflexivity. destruct C.
Qed.


Lemma is_digit_no_point (c : ascii) :
  is_digit c = true -> negb (Ascii.eqb c ".") = true.
Proof.
  intros H. apply negb_true_iff, Ascii.eqb_neq. intros ->. discriminate H.
Qed.


Lemma stars_cases (p : float) :
  stars p = "***" \/ stars p = "**" \/ stars p = "*" \/ stars p = EmptyString.
Proof.
  unfold stars.
  destruct (float_lt p 0.001), (float_lt p 0.01), (float_lt p 0.05); auto.
Qed.




Lemma digits_first (n : N) :
  exists c s, digits n = String c s /\ is_digit c = true.
Proof.
  pose proof (digits_all_digit n) as H. unfold digits in *.
  destruct (N.to_uint n) eqn:E;
    try (cbn [NilEmpty.string_of_uint string_forall] in *;
         eexists _, _; split; [reflexivity|reflexivity]).
  destruct n as [|p]; [discriminate E|].
  cbn in E. pose proof (DecimalPos.Unsigned.to_uint_nonnil p). congruence.
Qed.





Lemma stars_no_point (p : float) :
  string_forall (fun c => negb (Ascii.eqb c ".")) (stars p) = true.
Proof. destruct (stars_cases p) as [->|[->|[->| ->]]]; reflexivity. Qed.

Lemma hundredths_lt (c : N) : (c mod 100 / 10 < 10 /\ c mod 100 mod 10 < 10)%N.
Proof.
  pose proof (N.mod_lt c 100 ltac:(lia)) as H. split.
  - apply N.Div0.div_lt_upper_bound. lia.
  - apply N.mod_lt. lia.
Qed.

(** The shape of [f"{r:.2f}"] followed by the stars. *)
Lemma format_2f_stars (r : Q) (p : float) :
  let c := Z.to_N (rint (Qabs r * 100)) in
  format_2f_finite r +:+ stars p
  = ((if Qltb r 0 then "-" else EmptyString) +:+ digits (c / 100))
    +:+ String "." (String (digit_char (c mod 100 / 10))
                      (String (digit_char (c mod 100 mod 10)) (stars p))).
Proof.
  intros c. unfold format_2f_finite. fold c.
  destruct (Qltb r 0); app_cons.
  - f_equal. generalize (digits (c / 100)). intros s.
    induction s as [|a s IH]; app_cons; [reflexivity|]. rewrite IH. reflexivity.
  - generalize (digits (c / 100)). intros s.
    induction s as [|a s IH]; app_cons; [reflexivity|]. rewrite IH. reflexivity.
Qed.

Lemma sign_digits_no (ch : ascii) (r : Q) (n : N) :
  Ascii.eqb "-" ch = false ->
  (forall c, is_digit c = true -> negb (Ascii.eqb c ch) = true) ->
  string_forall (fun c => negb (Ascii.eqb c ch))
    ((if Qltb r 0 then "-" else EmptyString) +:+ digits n) = true.
Proof.
  intros Hminus Hdig. rewrite string_forall_app.
  rewrite (string_forall_impl _ _ _ Hdig (digits_all_digit n)), andb_true_r.
  destruct (Qltb r 0); cbn [string_forall]; [rewrite Hminus|]; reflexivity.
Qed.

Lemma format_r_z_gwiazdkami_eq (r : Q) (p : float) :
  let c := Z.to_N (rint (Qabs r * 100)) in
  format_r_z_gwiazdkami (Finite r) p
  = ((if Qltb r 0 then "-" else EmptyString) +:+ digits (c / 100))
    +:+ String "," (String (digit_char (c mod 100 / 10))
                      (String (digit_char (c mod 100 mod 10)) (stars p))).
Proof.
  intros c. unfold format_r_z_gwiazdkami. cbn [format_2f].
  rewrite format_2f_stars. fold c.
  destruct (hundredths_lt c) as [H1 H2].
  apply digit_char_is_digit, is_digit_no_point, negb_true_iff in H1, H2.
  rewrite replace_app.
  rewrite (replace_absent "." ",")
    by (apply sign_digits_no; [reflexivity|exact is_digit_no_point]).
  f_equal. cbn [replace]. rewrite H1, H2.
  rewrite (replace_absent "." ",") by apply stars_no_point. reflexivity.
Qed.











(** * Further properties *)

(** ** Direction and strength *)

(** X1.  The direction classifier [ocen_kierunek]: for a finite
    coefficient the label is "związku" exactly when [|r| < 0.1], "pozytywny"
    exactly when [r >= 0.1] and "negatywny" exactly when [r <= -0.1];
    negating the coefficient swaps "pozytywny" and "negatywny" and keeps
    "związku".  The negative zero gets "związku", the positive infinity
    "pozytywny", the negative infinity and NaN "negatywny". *)
Theorem ocen_kierunek_thresholds (r : Q) :
  (ocen_kierunek (Finite r) = "związku" <-> (Qabs r < 0.1)%Q) /\
  (ocen_kierunek (Finite r) = "pozytywny" <-> (0.1 <= r)%Q) /\
  (ocen_kierunek (Finite r) = "negatywny" <-> (r <= -0.1)%Q) /\
  (ocen_kierunek (Finite (- r)) = "pozytywny" <-> ocen_kierunek (Finite r) = "negatywny") /\
  (ocen_kierunek (Finite (- r)) = "negatywny" <-> ocen_kierunek (Finite r) = "pozytywny") /\
  (ocen_kierunek (Finite (- r)) = "związku" <-> ocen_kierunek (Finite r) = "związku") /\
  (ocen_kierunek NegZero = "związku" /\ ocen_kierunek (Inf false) = "pozytywny" /\
   ocen_kierunek (Inf true) = "negatywny" /\ ocen_kierunek NaN = "negatywny").
Proof.
  assert (Habs : forall x : Q, (Qabs x < 0.1 <-> -0.1 < x < 0.1)%Q).
  { intros x. rewrite Qabs_Qlt_condition. split; intros; lra. }
  assert (Hge : forall x : Q, (0.1 <= Qabs x <-> x <= -0.1 \/ 0.1 <= x)%Q).
  { intros x. split.
    - intros H. destruct (Qlt_le_dec (-0.1) x) as [H1|H1]; [|left; exact H1].
      destruct (Qlt_le_dec x 0.1) as [H2|H2]; [|right; exact H2].
      exfalso. assert (Qabs x < 0.1)%Q by (apply Habs; split; assumption). lra.
    - intros H. apply Qnot_lt_le. intros C. apply Habs in C. lra. }
  unfold ocen_kierunek. cbn [float_abs float_lt float_gt].
  case_Qltb (Qabs r) 0.1%Q; case_Qltb (Qabs (- r)) 0.1%Q;
    case_Qltb 0%Q r; case_Qltb 0%Q (- r)%Q;
    rewrite ?Habs, ?Hge in *;
    repeat split; intros; try reflexivity; try discriminate; try lra.
Qed.

Lemma ocen_sile_ocen_kierunek_eq (r : float) :
  ocen_sile r = "brak" <-> ocen_kierunek r = "związku".
Proof.
  unfold ocen_sile, ocen_kierunek. cbv zeta.
  destruct (float_lt (float_abs r) 0.1); [split; reflexivity|].
  split.
  - destruct (float_lt (float_abs r) float_0_3); [|destruct (float_lt (float_abs r) 0.5)];
      discriminate.
  - destruct (float_gt r 0); discriminate.
Qed.

(** X2.  The two classifiers agree on the absence of a relation: the
    strength is "brak" exactly when the direction is "związku", for every
    float; a finite coefficient with another strength has the direction of
    its sign. *)
Theorem ocen_sile_ocen_kierunek (r : Q) :
  (ocen_sile (Finite r) = "brak" <-> ocen_kierunek (Finite r) = "związku") /\
  (ocen_sile (Finite r) <> "brak" ->
   (0 < r)%Q /\ ocen_kierunek (Finite r) = "pozytywny" \/
   (r < 0)%Q /\ ocen_kierunek (Finite r) = "negatywny") /\
  (forall x : float, ocen_sile x = "brak" <-> ocen_kierunek x = "związku").
Proof.
  split; [apply ocen_sile_ocen_kierunek_eq|].
  split; [|exact ocen_sile_ocen_kierunek_eq].
  unfold ocen_sile, ocen_kierunek. cbv zeta. cbn [float_abs float_lt float_gt].
  case_Qltb (Qabs r) 0.1%Q.
  - intros H. congruence.
  - assert (Hr : (r <= -0.1 \/ 0.1 <= r)%Q).
    { destruct (Qlt_le_dec (-0.1) r) as [H1|H1]; [|left; exact H1].
      destruct (Qlt_le_dec r 0.1) as [H2|H2]; [|right; exact H2].
      exfalso. assert (Qabs r < 0.1)%Q by (apply Qabs_Qlt_condition; split; lra). lra. }
    intros _. case_Qltb 0%Q r; [left|right]; split; try reflexivity; lra.
Qed.

(** ** More on the answer key *)

Lemma klucz_opisowe (L : Libraries)
    (s0 s1 s2 s3 s4 : selection) (t0 t1 t2 t3 t4 : value * value)
    (neuro_p : float) (rho p_matrix : matrix) :
  let klucz := klucz_z_wynikow L s0 s1 s2 s3 s4 t0 t1 t2 t3 t4 neuro_p rho p_matrix in
  Forall (fun entry : string * selection =>
    klucz !! (entry.1 +:+ "_m") = Some (series_mean L entry.2) /\
    klucz !! (entry.1 +:+ "_mdn") = Some (series_median L entry.2) /\
    klucz !! (entry.1 +:+ "_sd") = Some (series_std L entry.2) /\
    klucz !! (entry.1 +:+ "_sk") = Some (series_skew L entry.2) /\
    klucz !! (entry.1 +:+ "_kurt") = Some (series_kurt L entry.2) /\
    klucz !! (entry.1 +:+ "_min") = Some (series_min L entry.2) /\
    klucz !! (entry.1 +:+ "_max") = Some (series_max L entry.2))
    [("ekstra", s0); ("neuro", s1); ("otwar", s2); ("ugoda", s3); ("sumien", s4)].
Proof.
  intros klucz. subst klucz. unfold_klucz.
  destruct (float_lt neuro_p 0.05);
    repeat constructor; cbn [fst snd]; literal_keys; lookup_inserts; reflexivity.
Qed.

Lemma df_col_Ok (df : DataFrame) (col_name : string) (series : selection) :
  df_col df col_name = Ok series ->
  match positions col_name (df_columns df) 0 with
  | [] => False
  | [i] => series = Series (column df i)
  | i :: rest => series = Frame (map (column df) (i :: rest))
  end.
Proof.
  unfold df_col. destruct (positions col_name (df_columns df) 0) as [|i [|j rest]];
    [discriminate|intros [= <-]; reflexivity|intros [= <-]; reflexivity].
Qed.

(** X3.  In every answer key the seven descriptive entries of a variable
    are what the methods [mean], [median], [std], [skew], [kurt], [min] and
    [max] return on [df[name]] for the name of that same variable: the
    prefixes of [PREFIX_MAP] are never crossed and no later part overwrites
    them.  [df[name]] is the column of that name as a Series when one
    column has the name, and the DataFrame of the columns of that name when
    several have. *)
Theorem statystyki_opisowe_entries
    (L : Libraries) (df : DataFrame) (klucz : gmap string value) :
  oblicz_poprawne_statystyki L df = Ok klucz ->
  Forall (fun item : string * string =>
    exists series,
      df_col df item.1 = Ok series /\
      match positions item.1 (df_columns df) 0 with
      | [] => False
      | [i] => series = Series (column df i)
      | i :: rest => series = Frame (map (column df) (i :: rest))
      end /\
      klucz !! (item.2 +:+ "_m") = Some (series_mean L series) /\
      klucz !! (item.2 +:+ "_mdn") = Some (series_median L series) /\
      klucz !! (item.2 +:+ "_sd") = Some (series_std L series) /\
      klucz !! (item.2 +:+ "_sk") = Some (series_skew L series) /\
      klucz !! (item.2 +:+ "_kurt") = Some (series_kurt L series) /\
      klucz !! (item.2 +:+ "_min") = Some (series_min L series) /\
      klucz !! (item.2 +:+ "_max") = Some (series_max L series))
    PREFIX_MAP.
Proof.
  intros H. apply oblicz_poprawne_statystyki_inv in H
    as (s0 & s1 & s2 & s3 & s4 & t0 & t1 & t2 & t3 & t4 & q & table & rho & p & H).
  destruct H as ((C0 & _) & (C1 & _) & (C2 & _) & (C3 & _) & (C4 & _) & _ & _ & _ & ->).
  pose proof (klucz_opisowe L s0 s1 s2 s3 s4 t0 t1 t2 t3 t4 q rho p) as Hall.
  cbv zeta in Hall.
  repeat match type of Hall with
    | Forall _ (_ :: _) =>
        let H1 := fresh "E" in
        apply Forall_cons_1 in Hall as [H1 Hall]; cbn [fst snd] in H1
    end.
  pose proof (df_col_Ok df _ _ C0). pose proof (df_col_Ok df _ _ C1).
  pose proof (df_col_Ok df _ _ C2). pose proof (df_col_Ok df _ _ C3).
  pose proof (df_col_Ok df _ _ C4).
  unfold PREFIX_MAP. repeat constructor; cbn [fst snd]; eauto.
Qed.

Lemma statystyki_opisowe_entries_witness :
  (exists klucz,
     oblicz_poprawne_statystyki Stub.libs Stub.small_df = Ok klucz /\
     klucz !! "neuro_min" = Some (VInt 8) /\
     klucz !! "neuro_max" = Some (VInt 15)) /\
  (exists klucz,
     oblicz_poprawne_statystyki Stub.libs Stub.duplicate_df = Ok klucz /\
     klucz !! "ekstra_min" = Some (VSeries [VInt 9; VInt 7]) /\
     klucz !! "neuro_min" = Some (VInt 8)).
Proof.
  split.
  - assert (Hok : is_ok (oblicz_poprawne_statystyki Stub.libs Stub.small_df) = true)
      by (vm_compute; reflexivity).
    destruct (is_ok_succeeds _ Hok) as [klucz Hrun].
    exists klucz. split; [exact Hrun|].
    pose proof (statystyki_opisowe_entries Stub.libs Stub.small_df klucz Hrun) as Hall.
    rewrite List.Forall_forall in Hall.
    destruct (Hall ("Neurotyzm", "neuro"))
      as (series & Hcol & _ & _ & _ & _ & _ & _ & Hmin & Hmax);
      [unfold PREFIX_MAP; cbn [In]; tauto|].
    vm_compute in Hcol. apply Ok_inj in Hcol. subst series.
    split; [exact Hmin|exact Hmax].
  - assert (Hok : is_ok (oblicz_poprawne_statystyki Stub.libs Stub.duplicate_df) = true)
      by (vm_compute; reflexivity).
    destruct (is_ok_succeeds _ Hok) as [klucz Hrun].
    exists klucz. split; [exact Hrun|].
    pose proof (statystyki_opisowe_entries Stub.libs Stub.duplicate_df klucz Hrun) as Hall.
    rewrite List.Forall_forall in Hall.
    destruct (Hall ("Ekstrawersja", "ekstra"))
      as (series & Hcol & _ & _ & _ & _ & _ & _ & Hmin & _);
      [unfold PREFIX_MAP; cbn [In]; tauto|].
    destruct (Hall ("Neurotyzm", "neuro"))
      as (series' & Hcol' & _ & _ & _ & _ & _ & _ & Hmin' & _);
      [unfold PREFIX_MAP; cbn [In]; tauto|].
    vm_compute in Hcol, Hcol'. apply Ok_inj in Hcol, Hcol'. subst series series'.
    split; [exact Hmin|exact Hmin'].
Defined.

(** X4.  The two method labels are decided by the p-value stored for
    Neurotyzm alone, and they always agree: when [p < 0.05] holds the labels
    are "niespełnienie" and "rho-Spearmana", otherwise "spełnienie" and
    "r-Pearsona"; for a finite p-value the condition is that of the
    numbers, and a p-value that is NaN gives "spełnienie" and
    "r-Pearsona". *)
Theorem decyzja_o_metodzie_labels
    (L : Libraries) (df : DataFrame) (klucz : gmap string value) :
  oblicz_poprawne_statystyki L df = Ok klucz ->
  exists neuro_p,
    klucz !! "neuro_p" = Some (VFloat neuro_p) /\
    (float_lt neuro_p 0.05 = true /\
     klucz !! "rozklad_typ" = Some (VStr "niespełnienie") /\
     klucz !! "korelacja_typ" = Some (VStr "rho-Spearmana")
     \/
     float_lt neuro_p 0.05 = false /\
     klucz !! "rozklad_typ" = Some (VStr "spełnienie") /\
     klucz !! "korelacja_typ" = Some (VStr "r-Pearsona")) /\
    (forall q : Q, neuro_p = Finite q ->
     (q < 0.05)%Q /\
     klucz !! "rozklad_typ" = Some (VStr "niespełnienie") /\
     klucz !! "korelacja_typ" = Some (VStr "rho-Spearmana")
     \/
     (0.05 <= q)%Q /\
     klucz !! "rozklad_typ" = Some (VStr "spełnienie") /\
     klucz !! "korelacja_typ" = Some (VStr "r-Pearsona")) /\
    (neuro_p = NaN ->
     klucz !! "rozklad_typ" = Some (VStr "spełnienie") /\
     klucz !! "korelacja_typ" = Some (VStr "r-Pearsona")).
Proof.
  intros H. apply oblicz_poprawne_statystyki_inv in H
    as (s0 & s1 & s2 & s3 & s4 & t0 & t1 & t2 & t3 & t4 & q & table & rho & p & H).
  destruct H as (_ & _ & _ & _ & _ & Hq & _ & _ & ->).
  exists q.
  destruct (klucz_normalnosc L s0 s1 s2 s3 s4 t0 t1 t2 t3 t4 q rho p)
    as (_ & (_ & ->) & _).
  destruct (klucz_metoda L s0 s1 s2 s3 s4 t0 t1 t2 t3 t4 q rho p) as [-> ->].
  split; [congruence|].
  split; [destruct (float_lt q 0.05); [left|right]; auto|].
  split.
  - intros x ->. cbn [float_lt]. case_Qltb x 0.05%Q; [left|right]; auto.
  - intros ->. split; reflexivity.
Qed.

Lemma decyzja_o_metodzie_labels_witness :
  exists klucz,
    oblicz_poprawne_statystyki Stub.libs_not_normal Stub.small_df = Ok klucz /\
    klucz !! "rozklad_typ" = Some (VStr "niespełnienie") /\
    klucz !! "korelacja_typ" = Some (VStr "rho-Spearmana").
Proof.
  assert (Hok : is_ok (oblicz_poprawne_statystyki Stub.libs_not_normal Stub.small_df)
                = true)
    by (vm_compute; reflexivity).
  assert (Hp : oblicz_poprawne_statystyki Stub.libs_not_normal Stub.small_df
               ≫= (fun k => Ok (k !! "neuro_p")) = Ok (Some (VFloat (Finite 0.01))))
    by (vm_compute; reflexivity).
  destruct (is_ok_succeeds _ Hok) as [klucz Hrun].
  rewrite Hrun in Hp. apply Ok_inj in Hp.
  exists klucz. split; [exact Hrun|].
  destruct (decyzja_o_metodzie_labels Stub.libs_not_normal Stub.small_df klucz Hrun)
    as (q & Hq & _ & Hfin & _).
  rewrite Hp in Hq. injection Hq as <-.
  destruct (Hfin 0.01%Q eq_refl) as [(_ & H1 & H2)|(Hge & _)].
  - split; assumption.
  - exfalso. revert Hge. vm_compute. congruence.
Defined.

Lemma float_lt_not_gt (x : float) : float_lt x 0 = true -> float_gt x 0 = false.
Proof.
  destruct x as [q| |[]|]; cbn [float_lt float_gt negb]; try discriminate;
    try reflexivity.
  intros H. apply Qltb_lt in H. apply Qltb_ge. lra.
Qed.

Lemma float_gt_not_lt (x : float) :
  float_gt x 0 = true -> float_lt x 0 = false /\ x <> NegZero.
Proof.
  destruct x as [q| |[]|]; cbn [float_lt float_gt negb]; try discriminate;
    try (intros _; split; [reflexivity|discriminate]).
  intros H. apply Qltb_lt in H. split; [apply Qltb_ge; lra|discriminate].
Qed.

Lemma decyzja_kierunek_h1 (r p : float) :
  h1_decyzja r p = "potwierdza" -> ocen_kierunek r <> "pozytywny".
Proof.
  unfold h1_decyzja, ocen_kierunek.
  destruct (float_lt p 0.05); cbn [andb]; [|discriminate].
  destruct (float_lt r 0) eqn:E; [|discriminate].
  intros _. rewrite (float_lt_not_gt r E).
  destruct (float_lt (float_abs r) 0.1); discriminate.
Qed.

Lemma decyzja_kierunek_h2 (r p : float) :
  h2_decyzja r p = "potwierdza" -> ocen_kierunek r <> "negatywny".
Proof.
  unfold h2_decyzja, ocen_kierunek.
  destruct (float_lt p 0.05); cbn [andb]; [|discriminate].
  destruct (float_gt r 0); [|discriminate].
  intros _. destruct (float_lt (float_abs r) 0.1); discriminate.
Qed.

Lemma decyzja_kierunek_h4 (r p : float) :
  h4_decyzja r p = "potwierdza" ->
  ocen_kierunek r = "pozytywny" /\ ocen_sile r <> "brak".
Proof.
  unfold h4_decyzja, ocen_kierunek, ocen_sile. cbv zeta.
  destruct (float_lt (float_abs r) 0.1); cbn [orb]; [discriminate|].
  destruct (float_ge p 0.05); [discriminate|].
  destruct (float_gt r 0); [|discriminate]. intros _. split; [reflexivity|].
  destruct (float_lt (float_abs r) float_0_3); [|destruct (float_lt (float_abs r) 0.5)];
    discriminate.
Qed.

(** X5.  The three entries of a hypothesis never contradict the sign the
    hypothesis expects: when H1 or H3 is confirmed its direction is not
    "pozytywny", when H2 is confirmed its direction is not "negatywny", and
    when H4 is confirmed its direction is "pozytywny" and its strength is
    not "brak".  For each hypothesis the strength is "brak" exactly when
    the direction is "związku". *)
Theorem weryfikacja_hipotez_consistent
    (L : Libraries) (df : DataFrame) (klucz : gmap string value) :
  oblicz_poprawne_statystyki L df = Ok klucz ->
  (klucz !! "h1_decyzja" = Some (VStr "potwierdza") ->
   klucz !! "h1_kierunek" <> Some (VStr "pozytywny")) /\
  (klucz !! "h2_decyzja" = Some (VStr "potwierdza") ->
   klucz !! "h2_kierunek" <> Some (VStr "negatywny")) /\
  (klucz !! "h3_decyzja" = Some (VStr "potwierdza") ->
   klucz !! "h3_kierunek" <> Some (VStr "pozytywny")) /\
  (klucz !! "h4_decyzja" = Some (VStr "potwierdza") ->
   klucz !! "h4_kierunek" = Some (VStr "pozytywny") /\
   klucz !! "h4_sila" <> Some (VStr "brak")) /\
  Forall (fun h =>
    klucz !! (h +:+ "_sila") = Some (VStr "brak") <->
    klucz !! (h +:+ "_kierunek") = Some (VStr "związku"))
    ["h1"; "h2"; "h3"; "h4"].
Proof.
  intros H. apply oblicz_poprawne_statystyki_inv in H
    as (s0 & s1 & s2 & s3 & s4 & t0 & t1 & t2 & t3 & t4 & q & table & rho & p & H).
  destruct H as (_ & _ & _ & _ & _ & _ & _ & _ & ->).
  pose proof (klucz_hipotezy L s0 s1 s2 s3 s4 t0 t1 t2 t3 t4 q rho p)
    as ((A1 & A2 & A3) & (B1 & B2 & B3) & (C1 & C2 & C3) & (D1 & D2 & D3)).
  assert (Hbrak : forall r,
            Some (VStr (ocen_sile r)) = Some (VStr "brak") <->
            Some (VStr (ocen_kierunek r)) = Some (VStr "związku")).
  { intros r. destruct (ocen_sile_ocen_kierunek_eq r) as [H1 H2].
    split; intros [= E]; do 2 f_equal; [apply H1|apply H2]; exact E. }
  split; [|split; [|split; [|split]]].
  - rewrite A3, A2. intros [= E] [= E'].
    exact (decyzja_kierunek_h1 _ _ E E').
  - rewrite B3, B2. intros [= E] [= E'].
    exact (decyzja_kierunek_h2 _ _ E E').
  - rewrite C3, C2. intros [= E] [= E'].
    exact (decyzja_kierunek_h1 _ _ E E').
  - rewrite D3, D2, D1. intros [= E].
    destruct (decyzja_kierunek_h4 _ _ E) as [E1 E2].
    split; [rewrite E1; reflexivity|]. intros [= E']. exact (E2 E').
  - repeat constructor; literal_keys;
      rewrite ?A1, ?A2, ?B1, ?B2, ?C1, ?C2, ?D1, ?D2; apply Hbrak.
Qed.

Lemma weryfikacja_hipotez_consistent_witness :
  exists klucz,
    oblicz_poprawne_statystyki Stub.libs Stub.small_df = Ok klucz /\
    klucz !! "h4_kierunek" = Some (VStr "pozytywny").
Proof.
  assert (Hok : is_ok (oblicz_poprawne_statystyki Stub.libs Stub.small_df) = true)
    by (vm_compute; reflexivity).
  assert (Hd : oblicz_poprawne_statystyki Stub.libs Stub.small_df
               ≫= (fun k => Ok (k !! "h4_decyzja")) = Ok (Some (VStr "potwierdza")))
    by (vm_compute; reflexivity).
  destruct (is_ok_succeeds _ Hok) as [klucz Hrun].
  rewrite Hrun in Hd. apply Ok_inj in Hd.
  exists klucz. split; [exact Hrun|].
  destruct (weryfikacja_hipotez_consistent Stub.libs Stub.small_df klucz Hrun)
    as (_ & _ & _ & H4 & _).
  exact (proj1 (H4 Hd)).
Defined.

(** X6.  Every pair of distinct variables has its entry: for the variables
    at positions [j < i] of [vars_list], with prefixes [p1] and [p2] in
    [PREFIX_MAP], the answer key holds under "corr_<p1>_<p2>" the formatted
    coefficient and p-value that [spearmanr] returned at [i, j]. *)
Theorem korelacje_cover_all_pairs
    (L : Libraries) (df : DataFrame) (klucz : gmap string value) :
  oblicz_poprawne_statystyki L df = Ok klucz ->
  exists table rho p_matrix,
    df_cols df vars_list = Ok table /\
    spearmanr L table = Ok (Arrays rho p_matrix) /\
    forall (i j : nat) (v1 v2 p1 p2 : string),
      (j < i)%nat ->
      vars_list !! i = Some v1 -> vars_list !! j = Some v2 ->
      In (v1, p1) PREFIX_MAP -> In (v2, p2) PREFIX_MAP ->
      klucz !! ("corr_" +:+ p1 +:+ "_" +:+ p2)
      = Some (VStr (format_r_z_gwiazdkami (rho i j) (p_matrix i j))).
Proof.
  intros H. apply oblicz_poprawne_statystyki_inv in H
    as (s0 & s1 & s2 & s3 & s4 & t0 & t1 & t2 & t3 & t4 & q & table & rho & p & H).
  destruct H as (_ & _ & _ & _ & _ & _ & Htable & Hsp & ->).
  exists table, rho, p. split; [exact Htable|]. split; [exact Hsp|].
  intros i j v1 v2 p1 p2 Hlt H1 H2 Hp1 Hp2.
  assert (Hi : (i < 5)%nat) by (apply lookup_lt_Some in H1; exact H1).
  unfold PREFIX_MAP in Hp1, Hp2. cbn [In] in Hp1, Hp2.
  destruct i as [|[|[|[|[|i]]]]]; try lia;
    destruct j as [|[|[|[|j]]]]; try lia;
    injection H1 as <-; injection H2 as <-;
    repeat (destruct Hp1 as [Hp1|Hp1];
            [first [discriminate Hp1|injection Hp1 as <-]|]);
    try (exfalso; exact Hp1);
    repeat (destruct Hp2 as [Hp2|Hp2];
            [first [discriminate Hp2|injection Hp2 as <-]|]);
    try (exfalso; exact Hp2);
    literal_keys;
    (eapply klucz_korelacje;
       [unfold pairs; cbn [In]; repeat (first [left; reflexivity|right])
       |reflexivity|reflexivity]).
Qed.

Lemma korelacje_cover_all_pairs_witness :
  exists klucz,
    oblicz_poprawne_statystyki Stub.libs Stub.small_df = Ok klucz /\
    klucz !! "corr_sumien_ugoda" = Some (VStr "0,30**").
Proof.
  assert (Hok : is_ok (oblicz_poprawne_statystyki Stub.libs Stub.small_df) = true)
    by (vm_compute; reflexivity).
  destruct (is_ok_succeeds _ Hok) as [klucz Hrun].
  exists klucz. split; [exact Hrun|].
  destruct (korelacje_cover_all_pairs Stub.libs Stub.small_df klucz Hrun)
    as (table & rho & p_matrix & _ & Hsp & Hall).
  change (Ok (Arrays Stub.rho Stub.p_matrix) = Ok (Arrays rho p_matrix)) in Hsp.
  apply Ok_inj in Hsp. injection Hsp as <- <-.
  apply (Hall 4%nat 3%nat "Sumiennosc" "Ugodowosc" "sumien" "ugoda");
    [lia|reflexivity|reflexivity| |]; unfold PREFIX_MAP; cbn [In]; tauto.
Defined.

Lemma for_each_ext {A B} (f g : B -> A -> result B) (l : list A) (acc : B) :
  (forall x b, In x l -> f b x = g b x) ->
  for_each f l acc = for_each g l acc.
Proof.
  revert acc. induction l as [|x l IH]; intros acc H; [reflexivity|].
  cbn [for_each]. rewrite (H x acc) by (left; reflexivity).
  destruct (g acc x) as [b|e]; [|reflexivity].
  cbn [mbind result_bind]. apply IH. intros y b' Hy. apply H. right. exact Hy.
Qed.

Lemma df_cols_ext (df df' : DataFrame) (names : list string) :
  (forall name, In name names -> df_col df name = df_col df' name) ->
  df_cols df names = df_cols df' names.
Proof.
  induction names as [|x names IH]; intros H; [reflexivity|].
  cbn [df_cols]. rewrite (H x) by (left; reflexivity).
  rewrite IH by (intros name Hn; apply H; right; exact Hn). reflexivity.
Qed.

(** X7.  The answer key depends on the table only through what [df[name]]
    gives for the five names "Ekstrawersja", "Neurotyzm", "Otwartosc",
    "Ugodowosc" and "Sumiennosc": two tables on which [df[name]] is the same
    for each of the five give the same outcome, whatever the order of their
    columns and whatever columns of other names they have.  (A second
    column of one of the five names changes [df[name]] from a Series to a
    DataFrame, and with it the outcome.) *)
Theorem oblicz_poprawne_statystyki_columns
    (L : Libraries) (df df' : DataFrame) :
  (forall name, In name vars_list -> df_col df name = df_col df' name) ->
  oblicz_poprawne_statystyki L df = oblicz_poprawne_statystyki L df'.
Proof.
  intros H. unfold oblicz_poprawne_statystyki.
  rewrite (for_each_ext (statystyki_opisowe L df) (statystyki_opisowe L df')).
  - rewrite (df_cols_ext df df' vars_list H). reflexivity.
  - intros [col_name prefix] klucz Hin. unfold statystyki_opisowe.
    rewrite (H col_name); [reflexivity|].
    unfold PREFIX_MAP in Hin. cbn [In] in Hin. unfold vars_list. cbn [In].
    repeat (destruct Hin as [Hin|Hin]; [injection Hin as <- <-; tauto|]).
    destruct Hin.
Qed.

Lemma oblicz_poprawne_statystyki_columns_witness :
  oblicz_poprawne_statystyki Stub.libs Stub.small_df
  = oblicz_poprawne_statystyki Stub.libs
      {| df_columns := ["Wiek"; "Sumiennosc"; "Ugodowosc"; "Otwartosc";
                        "Neurotyzm"; "Ekstrawersja"]%string;
         df_values := [ [21; 15; 14; 13; 11; 12]; [19; 13; 12; 10; 15; 9];
                        [23; 17; 15; 14; 8; 16] ] |}.
Proof.
  apply oblicz_poprawne_statystyki_columns.
  intros name Hin. unfold vars_list in Hin. cbn [In] in Hin.
  repeat (destruct Hin as [<-|Hin]; [vm_compute; reflexivity|]).
  destruct Hin.
Defined.

(** A second column called Ekstrawersja changes the outcome. *)
Example oblicz_poprawne_statystyki_duplicate :
  df_col Stub.duplicate_df "Ekstrawersja" <> df_col Stub.small_df "Ekstrawersja" /\
  (klucz ← oblicz_poprawne_statystyki Stub.libs Stub.duplicate_df;
   Ok (klucz !! "ekstra_min"))
  <> (klucz ← oblicz_poprawne_statystyki Stub.libs Stub.small_df;
      Ok (klucz !! "ekstra_min")).
Proof. split; vm_compute; discriminate. Qed.


(** ** The formatted coefficient: sign and stars *)

Lemma append_assoc3 (a b c : string) : a +:+ (b +:+ c) = (a +:+ b) +:+ c.
Proof. induction a as [|x a IH]; app_cons; [reflexivity|]. rewrite IH. reflexivity. Qed.

Lemma append_nil_r (a : string) : a +:+ EmptyString = a.
Proof. induction a as [|x a IH]; app_cons; [reflexivity|]. rewrite IH. reflexivity. Qed.

Lemma append_snoc_inj (a b : string) (x y : ascii) :
  a +:+ String x EmptyString = b +:+ String y EmptyString -> x = y.
Proof.
  revert b. induction a as [|c a IH]; intros [|d b]; app_cons; intros H.
  - congruence.
  - injection H as _ H. destruct b; discriminate H.
  - injection H as _ H. destruct a; discriminate H.
  - injection H as _ H. exact (IH b H).
Qed.

(** The text is the formatted coefficient, with a comma, and then the
    stars. *)
Lemma format_r_z_gwiazdkami_app (r p : float) :
  format_r_z_gwiazdkami r p = replace "." "," (format_2f r) +:+ stars p.
Proof.
  unfold format_r_z_gwiazdkami.
  rewrite replace_app, (replace_absent "." "," (stars p)) by apply stars_no_point.
  reflexivity.
Qed.

Lemma format_starts_minus (r : Q) (p : float) :
  (exists t, format_r_z_gwiazdkami (Finite r) p = String "-" t) <-> (r < 0)%Q.
Proof.
  rewrite format_r_z_gwiazdkami_eq. cbv zeta.
  case_Qltb r 0%Q; app_cons.
  - split; [intros _; exact E|]. intros _. eexists. reflexivity.
  - split; [|intros; lra]. intros [t H].
    destruct (digits_first (Z.to_N (rint (Qabs r * 100)) / 100)) as (c & s & Hd & Hc).
    rewrite Hd in H. app_cons. injection H as -> _. discriminate Hc.
Qed.

(** The text begins with a minus sign for the negative numbers, the
    negative zero and the negative infinity. *)
Lemma format_starts_minus_float (r p : float) :
  (exists t, format_r_z_gwiazdkami r p = String "-" t)
  <-> float_lt r 0 = true \/ r = NegZero.
Proof.
  destruct r as [q| |[]|].
  - rewrite format_starts_minus. cbn [float_lt]. rewrite Qltb_lt.
    split; [tauto|]. intros [H|H]; [exact H|discriminate H].
  - rewrite format_r_z_gwiazdkami_app. cbn [format_2f replace]. app_cons.
    split; [right; reflexivity|]. intros _. eexists. reflexivity.
  - rewrite format_r_z_gwiazdkami_app. cbn [format_2f replace]. app_cons.
    split; [left; reflexivity|]. intros _. eexists. reflexivity.
  - rewrite format_r_z_gwiazdkami_app. cbn [format_2f replace]. app_cons.
    split; [intros [t H]; discriminate H|]. intros [H|H]; discriminate H.
  - rewrite format_r_z_gwiazdkami_app. cbn [format_2f replace]. app_cons.
    split; [intros [t H]; discriminate H|]. intros [H|H]; discriminate H.
Qed.

Lemma float_lt_mono (x : float) (c d : Q) :
  (c <= d)%Q -> float_lt x c = true -> float_lt x d = true.
Proof.
  intros Hcd. destruct x as [q| |[]|]; cbn [float_lt]; try (intros H; exact H);
    rewrite !Qltb_lt; intros H; lra.
Qed.

Lemma stars_empty (p : float) : float_lt p 0.05 = false -> stars p = EmptyString.
Proof.
  intros H. unfold stars. rewrite H.
  destruct (float_lt p 0.001) eqn:E1.
  { rewrite (float_lt_mono p 0.001 0.05) in H; [discriminate H|lra|exact E1]. }
  destruct (float_lt p 0.01) eqn:E2; [|reflexivity].
  rewrite (float_lt_mono p 0.01 0.05) in H; [discriminate H|lra|exact E2].
Qed.

Lemma stars_star (p : float) :
  float_lt p 0.05 = true -> exists t, stars p = t +:+ "*".
Proof.
  intros H. unfold stars. rewrite H.
  destruct (float_lt p 0.001); [exists "**"%string; reflexivity|].
  destruct (float_lt p 0.01); [exists "*"%string; reflexivity|].
  exists EmptyString. reflexivity.
Qed.

(** The formatted coefficient itself does not end with a star. *)
Lemma format_2f_no_star (r : float) (t : string) :
  replace "." "," (format_2f r) <> t +:+ "*".
Proof.
  destruct r as [q| |[]|].
  - pose proof (format_r_z_gwiazdkami_eq q NaN) as E. cbv zeta in E.
    rewrite format_r_z_gwiazdkami_app in E.
    change (stars NaN) with EmptyString in E. rewrite append_nil_r in E.
    rewrite E. clear E. set (c := Z.to_N (rint (Qabs q * 100))).
    set (a := (if Qltb q 0 then "-" else EmptyString) +:+ digits (c / 100)).
    intros H.
    change (a +:+ String "," (String (digit_char (c mod 100 / 10))
                                (String (digit_char (c mod 100 mod 10)) EmptyString)))
      with (a +:+ (String "," (String (digit_char (c mod 100 / 10)) EmptyString)
                   +:+ String (digit_char (c mod 100 mod 10)) EmptyString)) in H.
    rewrite append_assoc3 in H. apply append_snoc_inj in H.
    destruct (hundredths_lt c) as [_ Hlt].
    apply digit_char_is_digit in Hlt. rewrite H in Hlt. discriminate Hlt.
  - change (replace "." "," (format_2f NegZero)) with ("-0,0" +:+ "0")%string.
    intros H. apply append_snoc_inj in H. discriminate H.
  - change (replace "." "," (format_2f (Inf true))) with ("-in" +:+ "f")%string.
    intros H. apply append_snoc_inj in H. discriminate H.
  - change (replace "." "," (format_2f (Inf false))) with ("in" +:+ "f")%string.
    intros H. apply append_snoc_inj in H. discriminate H.
  - change (replace "." "," (format_2f NaN)) with ("na" +:+ "n")%string.
    intros H. apply append_snoc_inj in H. discriminate H.
Qed.

(** The text ends with a star exactly when [p < 0.05] holds. *)
Lemma format_ends_star (r p : float) :
  (exists t, format_r_z_gwiazdkami r p = t +:+ "*") <-> float_lt p 0.05 = true.
Proof.
  rewrite format_r_z_gwiazdkami_app.
  destruct (float_lt p 0.05) eqn:E.
  - split; [reflexivity|]. intros _. destruct (stars_star p E) as [t ->].
    eexists. apply append_assoc3.
  - rewrite (stars_empty p E), append_nil_r.
    split; [|discriminate]. intros [t H]. exfalso. exact (format_2f_no_star r t H).
Qed.

Lemma float_ge_false (p : float) (c : Q) :
  float_ge p c = false -> float_lt p c = true \/ p = NaN.
Proof.
  destruct p as [q| |[]|]; cbn [float_ge float_lt negb]; unfold Qgeb;
    try (intros H; apply negb_false_iff in H; left; exact H);
    try discriminate; try (left; reflexivity).
  right. reflexivity.
Qed.

Lemma rint_small (q : Q) : (0 <= q < 1 # 2)%Q -> rint q = 0.
Proof.
  intros H. apply (nearest_even_unique q); [apply rint_nearest_even|].
  unfold nearest_even. change (inject_Z 0) with 0%Q.
  split; [lra|]. intros [E|E]; lra.
Qed.

Lemma rint_le_100 (q : Q) : (0 <= q <= 100)%Q -> 0 <= rint q <= 100.
Proof.
  intros H. split; [apply rint_nonneg; lra|].
  destruct (rint_nearest_even q) as [[_ Hhi] _].
  assert (Hlt : (inject_Z (rint q) < inject_Z 101)%Q)
    by (change (inject_Z 101) with 101%Q; lra).
  rewrite <- Zlt_Qlt in Hlt. lia.
Qed.

(** X8.  The sign and the width of a formatted coefficient.  The text
    begins with a minus sign exactly when the coefficient is a negative
    number, the negative zero or the negative infinity: for a finite [r]
    exactly when [r < 0], so a negative coefficient that rounds to zero is
    written "-0,00", as is the negative zero, which is not below zero.  A
    finite coefficient with [|r| <= 1] has one digit before the comma, and
    its text has between 4 and 8 characters. *)
Theorem format_r_z_gwiazdkami_sign (r : Q) (p : float) :
  ((exists t, format_r_z_gwiazdkami (Finite r) p = String "-" t) <-> (r < 0)%Q) /\
  (forall x : float,
     (exists t, format_r_z_gwiazdkami x p = String "-" t)
     <-> match x with
         | Finite q => (q < 0)%Q
         | NegZero => True
         | Inf negative => negative = true
         | NaN => False
         end) /\
  (format_r_z_gwiazdkami NegZero p = "-0,00" +:+ stars p /\
   float_lt NegZero 0 = false) /\
  ((-0.005 < r < 0)%Q -> format_r_z_gwiazdkami (Finite r) p = "-0,00" +:+ stars p) /\
  ((0 <= r < 0.005)%Q -> format_r_z_gwiazdkami (Finite r) p = "0,00" +:+ stars p) /\
  ((Qabs r <= 1)%Q ->
   (exists d t, (d = "0"%char \/ d = "1"%char) /\
      (format_r_z_gwiazdkami (Finite r) p = String d (String "," t) \/
       format_r_z_gwiazdkami (Finite r) p = String "-" (String d (String "," t)))) /\
   (4 <= String.length (format_r_z_gwiazdkami (Finite r) p) <= 8)%nat).
Proof.
  split; [apply format_starts_minus|].
  split.
  { intros x. rewrite format_starts_minus_float.
    destruct x as [q| |[]|]; cbn [float_lt]; rewrite ?Qltb_lt;
      (split; [intros [H|H]; first [exact H|discriminate H|exact I|reflexivity]|]);
      intros H; first [left; exact H | right; reflexivity | left; reflexivity
                      | discriminate H | destruct H]. }
  split.
  { split; [|reflexivity]. rewrite format_r_z_gwiazdkami_app. reflexivity. }
  assert (Hzero : (Qabs r < 0.005)%Q -> rint (Qabs r * 100) = 0).
  { intros H. apply rint_small. pose proof (Qabs_nonneg r). lra. }
  split; [|split].
  - intros H. rewrite format_r_z_gwiazdkami_eq. cbv zeta.
    rewrite Hzero by (apply Qabs_Qlt_condition; lra).
    case_Qltb r 0%Q; [reflexivity|lra].
  - intros H. rewrite format_r_z_gwiazdkami_eq. cbv zeta.
    rewrite Hzero by (apply Qabs_Qlt_condition; lra).
    case_Qltb r 0%Q; [lra|reflexivity].
  - intros H. rewrite format_r_z_gwiazdkami_eq. cbv zeta.
    pose proof (Qabs_nonneg r) as Hn.
    assert (Hc : 0 <= rint (Qabs r * 100) <= 100) by (apply rint_le_100; lra).
    set (c := Z.to_N (rint (Qabs r * 100))).
    assert (Hd : (c / 100 = 0 \/ c / 100 = 1)%N).
    { assert (c <= 100)%N by lia.
      destruct (N.eq_dec c 100%N) as [->|Hne]; [right; reflexivity|left].
      apply N.div_small. lia. }
    assert (Hlen : (String.length (stars p) <= 3)%nat)
      by (destruct (stars_cases p) as [->|[->|[->| ->]]]; cbn; lia).
    destruct Hd as [-> | ->];
      change (digits 0) with "0"%string; change (digits 1) with "1"%string;
      destruct (Qltb r 0); app_cons; cbn [String.length];
      (split; [eexists _, _; split; [|first [left; reflexivity|right; reflexivity]]; auto
              |lia]).
Qed.

(** X9.  A confirmed hypothesis can be read off the formatted coefficient
    of its pair.  H1 (Neurotyzm, Ekstrawersja) and H3 (Otwartosc, Neurotyzm)
    are confirmed exactly when the text of their coefficient begins with a
    minus sign and ends with a star and the coefficient is not the negative
    zero, which is written with a minus sign and is not below zero.  When
    H2 (Otwartosc, Ekstrawersja) is confirmed, the text of its coefficient
    has no minus sign and ends with a star.  When H4 (Ugodowosc,
    Ekstrawersja) is confirmed, the text of its coefficient has no minus
    sign, and it ends with a star exactly when the p-value is not NaN. *)
Theorem potwierdzenie_w_korelacji
    (L : Libraries) (df : DataFrame) (klucz : gmap string value) :
  oblicz_poprawne_statystyki L df = Ok klucz ->
  exists table rho p_matrix,
    df_cols df vars_list = Ok table /\
    spearmanr L table = Ok (Arrays rho p_matrix) /\
    exists c1 c2 c3 c4 : string,
      klucz !! "corr_neuro_ekstra" = Some (VStr c1) /\
      klucz !! "corr_otwar_ekstra" = Some (VStr c2) /\
      klucz !! "corr_otwar_neuro" = Some (VStr c3) /\
      klucz !! "corr_ugoda_ekstra" = Some (VStr c4) /\
      (klucz !! "h1_decyzja" = Some (VStr "potwierdza") <->
       (exists t, c1 = String "-" t) /\ (exists t, c1 = t +:+ "*") /\
       rho 1%nat 0%nat <> NegZero) /\
      (klucz !! "h2_decyzja" = Some (VStr "potwierdza") ->
       (forall t, c2 <> String "-" t) /\ (exists t, c2 = t +:+ "*")) /\
      (klucz !! "h3_decyzja" = Some (VStr "potwierdza") <->
       (exists t, c3 = String "-" t) /\ (exists t, c3 = t +:+ "*") /\
       rho 2%nat 1%nat <> NegZero) /\
      (klucz !! "h4_decyzja" = Some (VStr "potwierdza") ->
       (forall t, c4 <> String "-" t) /\
       ((exists t, c4 = t +:+ "*") <-> p_matrix 3%nat 0%nat <> NaN)).
Proof.
  intros H. apply oblicz_poprawne_statystyki_inv in H
    as (s0 & s1 & s2 & s3 & s4 & t0 & t1 & t2 & t3 & t4 & q & table & rho & p & H).
  destruct H as (_ & _ & _ & _ & _ & _ & Htable & Hsp & ->).
  exists table, rho, p. split; [exact Htable|]. split; [exact Hsp|].
  pose proof (klucz_hipotezy L s0 s1 s2 s3 s4 t0 t1 t2 t3 t4 q rho p)
    as ((_ & _ & A) & (_ & _ & B) & (_ & _ & C) & (_ & _ & D)).
  pose proof (klucz_korelacje L s0 s1 s2 s3 s4 t0 t1 t2 t3 t4 q rho p) as K.
  eexists _, _, _, _.
  split; [apply (K "Neurotyzm" "Ekstrawersja" _ 1%nat 0%nat);
          [unfold pairs; cbn [In]; tauto|reflexivity|reflexivity]|].
  split; [apply (K "Otwartosc" "Ekstrawersja" _ 2%nat 0%nat);
          [unfold pairs; cbn [In]; tauto|reflexivity|reflexivity]|].
  split; [apply (K "Otwartosc" "Neurotyzm" _ 2%nat 1%nat);
          [unfold pairs; cbn [In]; tauto|reflexivity|reflexivity]|].
  split; [apply (K "Ugodowosc" "Ekstrawersja" _ 3%nat 0%nat);
          [unfold pairs; cbn [In]; tauto|reflexivity|reflexivity]|].
  rewrite A, B, C, D. clear A B C D K.
  assert (Hneg : forall r p', Some (VStr (h1_decyzja r p')) = Some (VStr "potwierdza") <->
            (exists t, format_r_z_gwiazdkami r p' = String "-" t) /\
            (exists t, format_r_z_gwiazdkami r p' = t +:+ "*") /\
            r <> NegZero).
  { intros r p'. rewrite format_starts_minus_float, format_ends_star. unfold h1_decyzja.
    destruct (float_lt p' 0.05); destruct (float_lt r 0) eqn:Er; cbn [andb].
    - split; [|reflexivity]. intros _. split; [left; reflexivity|].
      split; [reflexivity|]. intros ->. discriminate Er.
    - split; [intros X; discriminate X|].
      intros ([X|X] & _ & Y); [discriminate X|contradiction].
    - split; [intros X; discriminate X|]. intros (_ & X & _). discriminate X.
    - split; [intros X; discriminate X|]. intros (_ & X & _). discriminate X. }
  assert (Hpos : forall r p', float_gt r 0 = true ->
            forall t, format_r_z_gwiazdkami r p' <> String "-" t).
  { intros r p' Hr t Ht. destruct (float_gt_not_lt r Hr) as [Hlt Hnz].
    destruct (proj1 (format_starts_minus_float r p') (ex_intro _ t Ht)) as [X|X];
      [congruence|contradiction]. }
  split; [apply Hneg|]. split; [|split; [apply Hneg|]].
  - unfold h2_decyzja.
    destruct (float_lt (p 2%nat 0%nat) 0.05) eqn:Ep; cbn [andb];
      [|intros X; discriminate X].
    destruct (float_gt (rho 2%nat 0%nat) 0) eqn:Er; intros X; [|discriminate X].
    split; [apply Hpos; exact Er|apply format_ends_star; exact Ep].
  - unfold h4_decyzja.
    destruct (float_lt (float_abs (rho 3%nat 0%nat)) 0.1); cbn [orb];
      [intros X; discriminate X|].
    destruct (float_ge (p 3%nat 0%nat) 0.05) eqn:Ep; [intros X; discriminate X|].
    destruct (float_gt (rho 3%nat 0%nat) 0) eqn:Er; intros X; [|discriminate X].
    split; [apply Hpos; exact Er|].
    rewrite format_ends_star.
    destruct (float_ge_false _ _ Ep) as [Hlt|Hnan].
    + split; [|intros _; exact Hlt]. intros _ Hn. rewrite Hn in Hlt. discriminate Hlt.
    + rewrite Hnan. split; [intros Y; discriminate Y|]. intros Y. contradiction.
Qed.

Lemma potwierdzenie_w_korelacji_witness :
  (exists klucz t,
     oblicz_poprawne_statystyki Stub.libs Stub.small_df = Ok klucz /\
     klucz !! "corr_ugoda_ekstra" = Some (VStr (t +:+ "*"))) /\
  (exists klucz,
     oblicz_poprawne_statystyki Stub.libs_two_records Stub.two_records_df = Ok klucz /\
     klucz !! "h4_decyzja" = Some (VStr "potwierdza") /\
     klucz !! "corr_ugoda_ekstra" = Some (VStr "1,00")).
Proof.
  split.
  - assert (Hok : is_ok (oblicz_poprawne_statystyki Stub.libs Stub.small_df) = true)
      by (vm_compute; reflexivity).
    assert (Hd : oblicz_poprawne_statystyki Stub.libs Stub.small_df
                 ≫= (fun k => Ok (k !! "h4_decyzja")) = Ok (Some (VStr "potwierdza")))
      by (vm_compute; reflexivity).
    destruct (is_ok_succeeds _ Hok) as [klucz Hrun].
    rewrite Hrun in Hd. apply Ok_inj in Hd.
    destruct (potwierdzenie_w_korelacji Stub.libs Stub.small_df klucz Hrun)
      as (table & rho & p_matrix & _ & Hsp & c1 & c2 & c3 & c4 & H).
    destruct H as (_ & _ & _ & K4 & _ & _ & _ & H4).
    change (Ok (Arrays Stub.rho Stub.p_matrix) = Ok (Arrays rho p_matrix)) in Hsp.
    apply Ok_inj in Hsp. injection Hsp as <- <-.
    destruct (H4 Hd) as [_ Hstar].
    destruct (proj2 Hstar) as [t Ht]; [discriminate|].
    exists klucz, t. split; [exact Hrun|]. rewrite K4, Ht. reflexivity.
  - assert (Hok : is_ok (oblicz_poprawne_statystyki Stub.libs_two_records
                           Stub.two_records_df) = true)
      by (vm_compute; reflexivity).
    assert (Hd : oblicz_poprawne_statystyki Stub.libs_two_records Stub.two_records_df
                 ≫= (fun k => Ok (k !! "h4_decyzja", k !! "corr_ugoda_ekstra"))
                 = Ok (Some (VStr "potwierdza"), Some (VStr "1,00")))
      by (vm_compute; reflexivity).
    destruct (is_ok_succeeds _ Hok) as [klucz Hrun].
    rewrite Hrun in Hd. apply Ok_inj in Hd. injection Hd as Hd Hc.
    exists klucz. split; [exact Hrun|]. split; [exact Hd|exact Hc].
Defined.

(** ** The routes *)

Ltac py_unfold :=
  unfold redirect_url_for, session_contains, session_get, session_setitem,
    with_rng, with_random_source, with_files, tempfile_mkstemp, remove_if_exists,
    try_finally, try_except, mbind, py_bind, mret, py_ret, lift in *.

Lemma generuj_dane_studenta_fst (L : Libraries) (user_id : pystr) (n : nat)
    (s s' : rng_state L) :
  (generuj_dane_studenta L user_id n s).1 = (generuj_dane_studenta L user_id n s').1.
Proof.
  rewrite !generuj_dane_studenta_eq.
  destruct (seed_of L user_id) as [seed|e]; [|reflexivity].
  destruct (multivariate_normal L mean cov_matrix_scaled n (mt_seed L seed)).
  reflexivity.
Qed.

Lemma index_answers_fst (L : Libraries) (user_id : pystr) (s s' : rng_state L) :
  (index_answers L user_id s).1 = (index_answers L user_id s').1.
Proof.
  unfold index_answers, mbind, py_bind, lift.
  pose proof (generuj_dane_studenta_fst L user_id 100 s s') as H.
  destruct (generuj_dane_studenta L user_id 100 s) as [[df|e] s1],
           (generuj_dane_studenta L user_id 100 s') as [[df'|e'] s1'];
    cbn [fst] in *; congruence.
Qed.

Section RouteProperties.
Context {L : Libraries} {P : Platform}.
Implicit Types (w : World L P) (request : Request) (user_id : pystr).

Lemma index_render_fst user_id w w' :
  (index_render L P user_id w).1 = (index_render L P user_id w').1.
Proof.
  unfold index_render. py_unfold.
  pose proof (index_answers_fst L user_id (rng w) (rng w')) as H.
  destruct (index_answers L user_id (rng w)) as [[a|e] s],
           (index_answers L user_id (rng w')) as [[a'|e'] s'];
    cbn [fst] in *; try congruence.
  apply Ok_inj in H. subst a'.
  destruct (render_template P "index.html" user_id a); reflexivity.
Qed.

Lemma index_render_snd user_id w :
  exists s, (index_render L P user_id w).2 = set_rng s w.
Proof.
  unfold index_render. py_unfold.
  destruct (index_answers L user_id (rng w)) as [[a|e] s]; [|exists s; reflexivity].
  destruct (render_template P "index.html" user_id a); exists s; reflexivity.
Qed.

Lemma index_cases request w :
  no_manual_id request ->
  index L P request w
  = match multidict_get "user_id" (args request), session w !! "user_id" with
    | Some (c :: url_id), _ =>
        index_render L P (c :: url_id)
          (set_session (<["user_id" := c :: url_id]> (session w)) w)
    | _, Some known => index_render L P known w
    | _, None =>
        let u := uuid4_str P (random_source w) in
        index_render L P (take 8 u.1)
          (set_session (<["user_id" := take 8 u.1]> (session w))
             (set_random_source u.2 w))
    end.
Proof.
  intros H. unfold index.
  assert (Hm : (if String.eqb (method request) "POST"
                then multidict_get "manual_id" (form request) else None) = None \/
               (if String.eqb (method request) "POST"
                then multidict_get "manual_id" (form request) else None) = Some []).
  { destruct H as [H|[H|H]].
    - apply String.eqb_neq in H. rewrite H. left. reflexivity.
    - rewrite H. destruct (String.eqb _ _); left; reflexivity.
    - rewrite H. destruct (String.eqb _ _); [right|left]; reflexivity. }
  assert (Hbody : forall m : py (World L P) Response,
            match (if String.eqb (method request) "POST"
                   then multidict_get "manual_id" (form request) else None) with
            | Some ((_ :: _) as manual_id) =>
                _ ← session_setitem L P "user_id" (strip manual_id);
                redirect_url_for L P "index" (kwargs (args request))
            | _ => m
            end = m).
  { intros m. destruct Hm as [-> | ->]; reflexivity. }
  rewrite Hbody. clear Hbody Hm H.
  destruct (multidict_get "user_id" (args request)) as [[|c url_id]|];
    py_unfold; cbn [session set_session set_random_source].
  all: try (destruct (session w !! "user_id") as [known|] eqn:E; [rewrite E; reflexivity|]).
  all: try (destruct (uuid4_str P (random_source w)) as [u e]).
  all: repeat first
         [ rewrite lookup_insert_eq
         | progress cbn [session set_session set_random_source fst snd] ].
  all: reflexivity.
Qed.

Lemma index_settles request w :
  no_manual_id request ->
  exists user_id w0,
    index L P request w = index_render L P user_id w0 /\
    session w0 !! "user_id" = Some user_id /\
    session w0 = <["user_id" := user_id]> (session w) /\
    rng w0 = rng w /\ files w0 = files w.
Proof.
  intros H. rewrite (index_cases request w H).
  destruct (multidict_get "user_id" (args request)) as [[|c url_id]|];
    try (destruct (session w !! "user_id") as [known|] eqn:E);
    eexists _, _; (split; [reflexivity|]);
    cbn [session rng files set_session set_random_source];
    rewrite ?lookup_insert_eq, ?(insert_id _ _ _ E); auto.
Qed.

Lemma index_known request w user_id :
  no_manual_id request -> no_url_id request ->
  session w !! "user_id" = Some user_id ->
  index L P request w = index_render L P user_id w.
Proof.
  intros H Hu E. rewrite (index_cases request w H).
  destruct Hu as [-> | ->]; rewrite E; reflexivity.
Qed.

Lemma index_render_session user_id w :
  session (index_render L P user_id w).2 = session w /\
  random_source (index_render L P user_id w).2 = random_source w /\
  files (index_render L P user_id w).2 = files w.
Proof.
  destruct (index_render_snd user_id w) as [s ->]. auto.
Qed.

(** X10.  How [index] settles on the identifier when it is not set by hand:
    a non-empty [user_id] in the URL wins; otherwise the identifier of the
    session is kept; otherwise a fresh one is drawn, the first eight
    characters of a UUID.  The random source is read in the last case only.
    The page is the one of that identifier, the session holds it when the
    view ends, also when the view raises, and no file is touched. *)
Theorem index_identifier request w :
  no_manual_id request ->
  exists user_id,
    match multidict_get "user_id" (args request), session w !! "user_id" with
    | Some (c :: url_id), _ =>
        user_id = c :: url_id /\
        random_source (index L P request w).2 = random_source w
    | _, Some known =>
        user_id = known /\
        random_source (index L P request w).2 = random_source w
    | _, None =>
        user_id = take 8 (uuid4_str P (random_source w)).1 /\
        random_source (index L P request w).2 = (uuid4_str P (random_source w)).2
    end /\
    (index L P request w).1 = (index_render L P user_id w).1 /\
    session (index L P request w).2 = <["user_id" := user_id]> (session w) /\
    files (index L P request w).2 = files w.
Proof.
  intros H. rewrite (index_cases request w H).
  destruct (multidict_get "user_id" (args request)) as [[|c url_id]|];
    try (destruct (session w !! "user_id") as [known|] eqn:E);
    cbv zeta; eexists;
    (split; [split; [reflexivity|]|split; [apply index_render_fst|split]]);
    match goal with
    | |- context [index_render L P ?u ?w0] =>
        destruct (index_render_session u w0) as (S1 & S2 & S3)
    end;
    rewrite ?S1, ?S2, ?S3;
    cbn [session random_source files set_session set_random_source];
    rewrite ?(insert_id _ _ _ E); reflexivity.
Qed.

(** X11.  The identifier is sticky.  Once [index] has answered a request
    with a page, every later request of the same session that names no
    identifier gets the same page, whatever the numpy generator and the
    random source have become in between: no new identifier is drawn and
    the session stays as it is. *)
Theorem index_refresh request w response w1 :
  no_manual_id request ->
  index L P request w = (Ok response, w1) ->
  forall request' w2,
    no_manual_id request' -> no_url_id request' -> session w2 = session w1 ->
    exists w3,
      index L P request' w2 = (Ok response, w3) /\
      session w3 = session w1 /\
      random_source w3 = random_source w2 /\
      files w3 = files w2.
Proof.
  intros H Hrun request' w2 H' Hu Hs.
  destruct (index_settles request w H) as (user_id & w0 & E & Hid & _).
  rewrite E in Hrun.
  destruct (index_render_session user_id w0) as (S0 & _ & _).
  rewrite Hrun in S0. cbn [snd] in S0.
  assert (Hid2 : session w2 !! "user_id" = Some user_id) by congruence.
  rewrite (index_known request' w2 user_id H' Hu Hid2).
  pose proof (index_render_fst user_id w2 w0) as Hfst.
  rewrite Hrun in Hfst. cbn [fst] in Hfst.
  destruct (index_render_session user_id w2) as (S2 & R2 & F2).
  destruct (index_render L P user_id w2) as [r w3]. cbn [fst snd] in *. subst r.
  exists w3. repeat split; congruence.
Qed.

Lemma index_render_Ok user_id w response w1 :
  index_render L P user_id w = (Ok response, w1) ->
  exists df answers page,
    (forall s, (generuj_dane_studenta L user_id 100 s).1 = Ok df) /\
    oblicz_poprawne_statystyki L df = Ok answers /\
    render_template P "index.html" user_id answers = Ok page /\
    response = Text page.
Proof.
  unfold index_render, index_answers. py_unfold. intros H.
  destruct (generuj_dane_studenta L user_id 100 (rng w)) as [[df|e] s1] eqn:G;
    [|discriminate H].
  destruct (oblicz_poprawne_statystyki L df) as [answers|e] eqn:A; [|discriminate H].
  destruct (render_template P "index.html" user_id answers) as [page|e] eqn:R;
    [|discriminate H].
  exists df, answers, page. repeat split; try assumption; [|congruence].
  intros s. rewrite (generuj_dane_studenta_fst L user_id 100 s (rng w)), G. reflexivity.
Qed.

Lemma pobierz_csv_known w user_id :
  session w !! "user_id" = Some user_id ->
  (pobierz_csv L P w).1
  = (df ← (generuj_dane_studenta L user_id 100 (rng w)).1;
     output ← to_csv P df;
     headers ← download_headers
                 (pystr_of_string "dane_" ++ user_id ++ pystr_of_string ".csv")
                 (pystr_of_string "text/csv");
     Ok (Made output headers)) /\
  session (pobierz_csv L P w).2 = session w /\
  random_source (pobierz_csv L P w).2 = random_source w /\
  files (pobierz_csv L P w).2 = files w.
Proof.
  intros E. unfold pobierz_csv. py_unfold.
  repeat first [rewrite E | progress cbn [negb]].
  destruct (generuj_dane_studenta L user_id 100 (rng w)) as [[df|e] s1];
    cbn [fst snd result_bind]; [|repeat split; reflexivity].
  destruct (to_csv P df) as [output|e]; cbn [fst snd result_bind];
    [|repeat split; reflexivity].
  destruct (download_headers _ _) as [headers|e]; cbn [fst snd result_bind];
    repeat split; reflexivity.
Qed.

(** X12.  The file and the page belong together.  When [index] has
    answered with a page, the session holds the identifier of that page,
    and [pobierz_csv] in that session sends the very table from which the
    answer key on the page was computed, under a file name that carries the
    identifier; it leaves the session as it is. *)
Theorem pobierz_csv_matches_index request w response w1 :
  no_manual_id request ->
  index L P request w = (Ok response, w1) ->
  exists user_id df answers page,
    session w1 !! "user_id" = Some user_id /\
    (forall s, (generuj_dane_studenta L user_id 100 s).1 = Ok df) /\
    oblicz_poprawne_statystyki L df = Ok answers /\
    render_template P "index.html" user_id answers = Ok page /\
    response = Text page /\
    forall w2, session w2 = session w1 ->
      (pobierz_csv L P w2).1
      = (output ← to_csv P df;
         headers ← download_headers
                     (pystr_of_string "dane_" ++ user_id ++ pystr_of_string ".csv")
                     (pystr_of_string "text/csv");
         Ok (Made output headers)) /\
      session (pobierz_csv L P w2).2 = session w1.
Proof.
  intros H Hrun.
  destruct (index_settles request w H) as (user_id & w0 & E & Hid & _).
  rewrite E in Hrun.
  destruct (index_render_session user_id w0) as (S0 & _ & _).
  rewrite Hrun in S0. cbn [snd] in S0.
  destruct (index_render_Ok user_id w0 response w1 Hrun)
    as (df & answers & page & G & A & R & ->).
  exists user_id, df, answers, page.
  repeat (split; [congruence || assumption|]).
  intros w2 Hs.
  assert (Hid2 : session w2 !! "user_id" = Some user_id) by congruence.
  destruct (pobierz_csv_known w2 user_id Hid2) as (-> & -> & _).
  rewrite G. split; [reflexivity|exact Hs].
Qed.

(** X13.  Setting the identifier by hand.  A POST whose form has a
    non-empty [manual_id] stores the identifier stripped of surrounding
    whitespace and answers with a redirect; it generates no data and draws
    no identifier.  A later request of that session gets the page of the
    stored identifier, also when stripping left the empty string; but when
    that request names a non-empty [user_id] in its URL, it gets the page of
    the identifier of the URL, which replaces the one set by hand. *)
Theorem index_manual_id request w manual_id :
  method request = "POST"%string ->
  multidict_get "manual_id" (form request) = Some manual_id ->
  manual_id <> [] ->
  let w1 := set_session (<["user_id" := strip manual_id]> (session w)) w in
  (index L P request w).1
  = (location ← url_for P "index" (kwargs (args request)); Ok (Redirect location)) /\
  (index L P request w).2 = w1 /\
  forall request' w2,
    no_manual_id request' -> session w2 = session w1 ->
    match multidict_get "user_id" (args request') with
    | Some (c :: url_id) =>
        index L P request' w2
        = index_render L P (c :: url_id)
            (set_session (<["user_id" := c :: url_id]> (session w2)) w2)
    | _ => index L P request' w2 = index_render L P (strip manual_id) w2
    end.
Proof.
  intros Hm Hf Hne w1.
  assert (Hrun : index L P request w
                 = redirect_url_for L P "index" (kwargs (args request)) w1).
  { unfold index. rewrite Hm. cbn [String.eqb Ascii.eqb Bool.eqb]. rewrite Hf.
    destruct manual_id as [|c m]; [congruence|]. reflexivity. }
  rewrite Hrun. unfold redirect_url_for. py_unfold.
  split; [destruct (url_for P _ _); reflexivity|].
  split; [destruct (url_for P _ _); reflexivity|].
  intros request' w2 H' Hs.
  assert (Hid : session w2 !! "user_id" = Some (strip manual_id)).
  { rewrite Hs. subst w1. cbn [session set_session]. apply lookup_insert_eq. }
  rewrite (index_cases request' w2 H'). rewrite Hid.
  destruct (multidict_get "user_id" (args request')) as [[|c url_id]|]; reflexivity.
Qed.

Lemma filename_newline (prefix suffix : string) (user_id : pystr) :
  existsb is_newline (pystr_of_string prefix) = false ->
  existsb is_newline (pystr_of_string suffix) = false ->
  existsb is_newline (pystr_of_string prefix ++ user_id ++ pystr_of_string suffix)
  = existsb is_newline user_id.
Proof.
  intros H1 H2. rewrite !existsb_app, H1, H2, orb_false_r. reflexivity.
Qed.

Lemma download_headers_eq (filename content_type : pystr) :
  existsb is_newline content_type = false ->
  download_headers filename content_type
  = if existsb is_newline filename then Raise ValueError
    else Ok [("Content-Disposition"%string, pystr_of_string "attachment; filename=" ++ filename);
             ("Content-type"%string, content_type)].
Proof.
  intros H. unfold download_headers, headers_set.
  rewrite existsb_app.
  change (existsb is_newline (pystr_of_string "attachment; filename=")) with false.
  cbn [orb]. destruct (existsb is_newline filename); [reflexivity|].
  cbn [mbind result_bind]. rewrite H. reflexivity.
Qed.

Lemma try_finally_removes {A} (body : py (World L P) A) (path : pystr) w r w' :
  (forall f f', os_remove P path f = (Ok tt, f') -> os_path_exists P path f' = false) ->
  try_finally body (remove_if_exists L P path) w = (Ok r, w') ->
  os_path_exists P path (files w') = false.
Proof.
  intros Hrm. unfold try_finally, remove_if_exists, with_files.
  destruct (body w) as [r0 w1].
  destruct (os_path_exists P path (files w1)) eqn:Ex.
  - destruct (os_remove P path (files w1)) as [[[]|e] f'] eqn:Rm; [|discriminate].
    intros [= _ <-]. cbn [files set_files]. exact (Hrm _ _ Rm).
  - intros [= _ <-]. exact Ex.
Qed.

Lemma pobierz_sav_main w user_id df s fd path f1 e1 :
  session w !! "user_id" = Some user_id ->
  HAS_PYREADSTAT P = true ->
  generuj_dane_studenta L user_id 100 (rng w) = (Ok df, s) ->
  mkstemp P ".sav" (files w) (random_source w) = (Ok (fd, path), f1, e1) ->
  pobierz_sav L P w
  = try_finally
      (try_except (pobierz_sav_try L P user_id df fd path) (pobierz_sav_except L P))
      (remove_if_exists L P path)
      (set_random_source e1 (set_files f1 (set_rng s w))).
Proof.
  intros E Hp G M. unfold pobierz_sav.
  unfold session_contains, session_get, with_rng, tempfile_mkstemp, mbind, py_bind.
  repeat first [rewrite E | rewrite Hp | rewrite G | progress cbn [negb]].
  cbn [files random_source set_rng]. rewrite M. reflexivity.
Qed.

Lemma pobierz_sav_cases w user_id df s fd path f1 e1 :
  session w !! "user_id" = Some user_id ->
  HAS_PYREADSTAT P = true ->
  generuj_dane_studenta L user_id 100 (rng w) = (Ok df, s) ->
  mkstemp P ".sav" (files w) (random_source w) = (Ok (fd, path), f1, e1) ->
  (exists f2 f3 data,
     os_close P fd f1 = (Ok tt, f2) /\
     write_sav P df path f2 = (Ok tt, f3) /\
     (read_binary P path f3).1 = Ok data /\
     existsb is_newline user_id = false /\
     (pobierz_sav L P w).1
     = Ok (Made data
             [("Content-Disposition"%string,
               pystr_of_string "attachment; filename="
               ++ pystr_of_string "dane_" ++ user_id ++ pystr_of_string ".sav");
              ("Content-type"%string, pystr_of_string "application/x-spss-sav")])) \/
  (exists e,
     (pobierz_sav L P w).1 = Ok (TextStatus (blad_sav ++ exn_str P e) 500)) \/
  (exists f e,
     os_path_exists P path f = true /\
     (os_remove P path f).1 = Raise e /\
     (pobierz_sav L P w).1 = Raise e).
Proof.
  intros E Hp G M. rewrite (pobierz_sav_main w user_id df s fd path f1 e1 E Hp G M).
  assert (Hfin : forall (r : result Response) w1,
            (exists f e, os_path_exists P path f = true /\
                         (os_remove P path f).1 = Raise e /\
                         (let '(r', w2) := remove_if_exists L P path w1 in
                          match r' with Ok _ => (r, w2) | Raise e' => (Raise e', w2) end).1
                         = Raise e) \/
            (let '(r', w2) := remove_if_exists L P path w1 in
             match r' with Ok _ => (r, w2) | Raise e' => (Raise e', w2) end).1 = r).
  { intros r w1. unfold remove_if_exists, with_files.
    destruct (os_path_exists P path (files w1)) eqn:Ex; [|right; reflexivity].
    destruct (os_remove P path (files w1)) as [[u|e] f'] eqn:Rm; [right; reflexivity|].
    left. exists (files w1), e. rewrite Rm. auto. }
  unfold try_finally, try_except, pobierz_sav_try, pobierz_sav_except.
  unfold with_files, lift, mbind, py_bind, mret, py_ret.
  cbn [files set_files set_rng set_random_source].
  rewrite download_headers_eq by reflexivity.
  rewrite (filename_newline "dane_" ".sav") by reflexivity.
  destruct (os_close P fd f1) as [[[]|e] f2] eqn:C; cbn [files set_files].
  2: { match goal with
       | |- context [remove_if_exists L P path ?w1] =>
           destruct (Hfin (Ok (TextStatus (blad_sav ++ exn_str P e) 500)) w1) as [H|H]
       end; [right; right; exact H|right; left; exists e; exact H]. }
  destruct (write_sav P df path f2) as [[[]|e] f3] eqn:Wr; cbn [files set_files].
  2: { match goal with
       | |- context [remove_if_exists L P path ?w1] =>
           destruct (Hfin (Ok (TextStatus (blad_sav ++ exn_str P e) 500)) w1) as [H|H]
       end; [right; right; exact H|right; left; exists e; exact H]. }
  destruct (read_binary P path f3) as [[data|e] f4] eqn:Rd; cbn [files set_files].
  2: { match goal with
       | |- context [remove_if_exists L P path ?w1] =>
           destruct (Hfin (Ok (TextStatus (blad_sav ++ exn_str P e) 500)) w1) as [H|H]
       end; [right; right; exact H|right; left; exists e; exact H]. }
  destruct (existsb is_newline user_id) eqn:Nl.
  { match goal with
    | |- context [remove_if_exists L P path ?w1] =>
        destruct (Hfin (Ok (TextStatus (blad_sav ++ exn_str P ValueError) 500)) w1) as [H|H]
    end; [right; right; exact H|right; left; exists ValueError; exact H]. }
  match goal with
  | |- context [remove_if_exists L P path ?w1] =>
      destruct (Hfin (Ok (Made data
             [("Content-Disposition"%string,
               pystr_of_string "attachment; filename="
               ++ pystr_of_string "dane_" ++ user_id ++ pystr_of_string ".sav");
              ("Content-type"%string, pystr_of_string "application/x-spss-sav")])) w1)
        as [H|H]
  end; [right; right; exact H|left].
  exists f2, f3, data. rewrite Rd.
  split; [reflexivity|]. split; [exact Wr|]. split; [reflexivity|].
  split; [reflexivity|exact H].
Qed.

(** X14.  [pobierz_sav] after the temporary file was made.  With an
    identifier in the session, pyreadstat installed, the data generated and
    the temporary file created, the view ends in one of three ways: it
    sends the bytes read back from the file that [write_sav] wrote, with the
    two headers (the identifier then holds no line break); or closing,
    writing, reading or setting a header raised, and it answers with the
    text "Wystąpił błąd SAV: ..." and status 500; or [os.remove] raised in
    the [finally] block, and that exception leaves the view.  No other
    exception leaves it. *)
Theorem pobierz_sav_outcomes w user_id df s fd path f1 e1 :
  session w !! "user_id" = Some user_id ->
  HAS_PYREADSTAT P = true ->
  generuj_dane_studenta L user_id 100 (rng w) = (Ok df, s) ->
  mkstemp P ".sav" (files w) (random_source w) = (Ok (fd, path), f1, e1) ->
  (exists f2 f3 data,
     os_close P fd f1 = (Ok tt, f2) /\
     write_sav P df path f2 = (Ok tt, f3) /\
     (read_binary P path f3).1 = Ok data /\
     existsb is_newline user_id = false /\
     (pobierz_sav L P w).1
     = Ok (Made data
             [("Content-Disposition"%string,
               pystr_of_string "attachment; filename="
               ++ pystr_of_string "dane_" ++ user_id ++ pystr_of_string ".sav");
              ("Content-type"%string, pystr_of_string "application/x-spss-sav")])) \/
  (exists e,
     (pobierz_sav L P w).1 = Ok (TextStatus (blad_sav ++ exn_str P e) 500)) \/
  (exists f e,
     os_path_exists P path f = true /\
     (os_remove P path f).1 = Raise e /\
     (pobierz_sav L P w).1 = Raise e).
Proof. exact (pobierz_sav_cases w user_id df s fd path f1 e1). Qed.


(** X15.  The temporary file does not outlive the request.  Under the
    contract of [os.remove] (a file that was removed no longer exists),
    whenever [pobierz_sav] returns a response after the temporary file was
    made, be it the file or the error text, the temporary file does not
    exist any more. *)
Theorem pobierz_sav_removes_file w user_id df s fd path f1 e1 response w' :
  session w !! "user_id" = Some user_id ->
  HAS_PYREADSTAT P = true ->
  generuj_dane_studenta L user_id 100 (rng w) = (Ok df, s) ->
  mkstemp P ".sav" (files w) (random_source w) = (Ok (fd, path), f1, e1) ->
  (forall f f', os_remove P path f = (Ok tt, f') -> os_path_exists P path f' = false) ->
  pobierz_sav L P w = (Ok response, w') ->
  os_path_exists P path (files w') = false.
Proof.
  intros E Hp G M Hrm. rewrite (pobierz_sav_main w user_id df s fd path f1 e1 E Hp G M).
  apply try_finally_removes. exact Hrm.
Qed.

Section Keeps.
Context {T : Type} (component : World L P -> T).
Hypothesis component_rng : forall s w, component (set_rng s w) = component w.
Hypothesis component_files : forall f w, component (set_files f w) = component w.

Lemma keeps_ret {A} (a : A) : keeps component (mret a : py (World L P) A).
Proof. intros w. reflexivity. Qed.

Lemma keeps_lift {A} (m : result A) : keeps component (lift m : py (World L P) A).
Proof. intros w. reflexivity. Qed.

Lemma keeps_bind {A B} (m : py (World L P) A) (f : A -> py (World L P) B) :
  keeps component m -> (forall a, keeps component (f a)) -> keeps component (m ≫= f).
Proof.
  intros Hm Hf w. unfold mbind, py_bind. pose proof (Hm w) as H1.
  destruct (m w) as [[a|e] w1]; cbn [snd] in *; [|exact H1].
  rewrite (Hf a w1). exact H1.
Qed.

Lemma keeps_session_contains (key : string) :
  keeps component (session_contains L P key).
Proof. intros w. reflexivity. Qed.

Lemma keeps_session_get (key : string) : keeps component (session_get L P key).
Proof. intros w. reflexivity. Qed.

Lemma keeps_with_rng {A} (m : py (rng_state L) A) : keeps component (with_rng L P m).
Proof. intros w. unfold with_rng. destruct (m (rng w)). apply component_rng. Qed.

Lemma keeps_with_files {A} (m : filesystem P -> result A * filesystem P) :
  keeps component (with_files L P m).
Proof. intros w. unfold with_files. destruct (m (files w)). apply component_files. Qed.

Lemma keeps_redirect_url_for (endpoint : string) (values : list (string * pystr)) :
  keeps component (redirect_url_for L P endpoint values).
Proof.
  apply keeps_bind; [apply keeps_lift|]. intros location. apply keeps_ret.
Qed.

Lemma keeps_try_except {A} (body : py (World L P) A) (handler : exn -> py (World L P) A) :
  keeps component body -> (forall e, keeps component (handler e)) ->
  keeps component (try_except body handler).
Proof.
  intros Hb Hh w. unfold try_except. pose proof (Hb w) as H1.
  destruct (body w) as [[a|e] w1]; cbn [snd] in *; [exact H1|].
  rewrite (Hh e w1). exact H1.
Qed.

Lemma keeps_try_finally {A} (body : py (World L P) A) (final : py (World L P) unit) :
  keeps component body -> keeps component final ->
  keeps component (try_finally body final).
Proof.
  intros Hb Hf w. unfold try_finally. pose proof (Hb w) as H1.
  destruct (body w) as [r w1]. cbn [snd] in *.
  pose proof (Hf w1) as H3.
  destruct (final w1) as [[u|e] w2]; cbn [snd] in *; congruence.
Qed.

Lemma keeps_remove_if_exists (path : pystr) :
  keeps component (remove_if_exists L P path).
Proof.
  intros w. unfold remove_if_exists.
  destruct (os_path_exists P path (files w)); [apply keeps_with_files|reflexivity].
Qed.

(** The part of [pobierz_sav] that follows [tempfile.mkstemp]. *)
Lemma keeps_pobierz_sav_tail (user_id : pystr) (df : DataFrame) (fd : Z) (path : pystr) :
  keeps component
    (try_finally
       (try_except (pobierz_sav_try L P user_id df fd path) (pobierz_sav_except L P))
       (remove_if_exists L P path)).
Proof.
  apply keeps_try_finally; [|apply keeps_remove_if_exists].
  apply keeps_try_except; [|intros e; apply keeps_ret].
  unfold pobierz_sav_try.
  apply keeps_bind; [apply keeps_with_files|]. intros _.
  apply keeps_bind; [apply keeps_with_files|]. intros _.
  apply keeps_bind; [apply keeps_with_files|]. intros data.
  apply keeps_bind; [apply keeps_lift|]. intros headers. apply keeps_ret.
Qed.

Lemma keeps_pobierz_csv : keeps component (pobierz_csv L P).
Proof.
  unfold pobierz_csv.
  apply keeps_bind; [apply keeps_session_contains|]. intros known.
  destruct (negb known); [apply keeps_redirect_url_for|].
  apply keeps_bind; [apply keeps_session_get|]. intros user_id.
  apply keeps_bind; [apply keeps_with_rng|]. intros df.
  apply keeps_bind; [apply keeps_lift|]. intros output.
  apply keeps_bind; [apply keeps_lift|]. intros headers. apply keeps_ret.
Qed.

End Keeps.

Lemma keeps_tempfile_mkstemp (suffix : string) :
  keeps session (tempfile_mkstemp L P suffix).
Proof.
  intros w. unfold tempfile_mkstemp.
  destruct (mkstemp P suffix (files w) (random_source w)) as [[r f] e]. reflexivity.
Qed.

Lemma keeps_pobierz_sav : keeps session (pobierz_sav L P).
Proof.
  assert (Hrng : forall s w, session (set_rng s w) = session w) by reflexivity.
  assert (Hfiles : forall f w, session (set_files f w) = session w) by reflexivity.
  unfold pobierz_sav.
  apply keeps_bind; [apply keeps_session_contains|]. intros known.
  destruct (negb known); [apply keeps_redirect_url_for|].
  destruct (negb (HAS_PYREADSTAT P)); [apply keeps_ret|].
  apply keeps_bind; [apply keeps_session_get|]. intros user_id.
  apply keeps_bind; [apply keeps_with_rng; exact Hrng|]. intros df.
  apply keeps_bind; [apply keeps_tempfile_mkstemp|]. intros [fd path].
  apply keeps_pobierz_sav_tail; assumption.
Qed.

Lemma pobierz_csv_files w : files (pobierz_csv L P w).2 = files w.
Proof.
  destruct (session w !! "user_id") as [user_id|] eqn:E.
  - apply (pobierz_csv_known w user_id E).
  - unfold pobierz_csv. py_unfold. rewrite E. cbn [negb].
    destruct (url_for P "index" []); reflexivity.
Qed.

(** The random source after [pobierz_sav]: the one that [tempfile.mkstemp]
    left, when the view came to call it. *)
Lemma pobierz_sav_random_source w :
  random_source (pobierz_sav L P w).2
  = match session w !! "user_id" with
    | Some user_id =>
        if HAS_PYREADSTAT P then
          match generuj_dane_studenta L user_id 100 (rng w) with
          | (Ok _, _) => (mkstemp P ".sav" (files w) (random_source w)).2
          | (Raise _, _) => random_source w
          end
        else random_source w
    | None => random_source w
    end.
Proof.
  assert (Hrng : forall s w, random_source (set_rng s w) = random_source w :> entropy P)
    by reflexivity.
  assert (Hfiles : forall f w, random_source (set_files f w) = random_source w :> entropy P)
    by reflexivity.
  destruct (session w !! "user_id") as [user_id|] eqn:E.
  2: { unfold pobierz_sav, session_contains, mbind, py_bind. rewrite E. cbn [negb].
       apply (keeps_redirect_url_for random_source). }
  destruct (HAS_PYREADSTAT P) eqn:Hp.
  2: { unfold pobierz_sav, session_contains, mbind, py_bind. rewrite E, Hp. reflexivity. }
  destruct (generuj_dane_studenta L user_id 100 (rng w)) as [[df|e] s] eqn:G.
  2: { unfold pobierz_sav, session_contains, session_get, with_rng, mbind, py_bind.
       repeat first [rewrite E | rewrite Hp | rewrite G | progress cbn [negb]].
       reflexivity. }
  destruct (mkstemp P ".sav" (files w) (random_source w))
    as [[[[fd path]|e] f1] e1] eqn:M.
  - rewrite (pobierz_sav_main w user_id df s fd path f1 e1 E Hp G M).
    rewrite (keeps_pobierz_sav_tail random_source Hfiles user_id df fd path).
    reflexivity.
  - unfold pobierz_sav, session_contains, session_get, with_rng, tempfile_mkstemp,
      mbind, py_bind.
    repeat first [rewrite E | rewrite Hp | rewrite G | progress cbn [negb]].
    cbn [files random_source set_rng]. rewrite M. reflexivity.
Qed.

(** X16.  What the download views leave alone.  [pobierz_csv] and
    [pobierz_sav] never change the session; [pobierz_csv] touches no file
    and never reads the random source.  [pobierz_sav] leaves the random
    source as [tempfile.mkstemp], which draws the name of the temporary
    file, left it, and as it was when the view ends before that call.  In a
    session without an identifier both do exactly what [sprawdz] does, which
    is to answer with the redirect to [index] and to leave everything as it
    is: no data are generated and no temporary file is made, whether
    pyreadstat is installed or not.  With an identifier but without
    pyreadstat, [pobierz_sav] answers with the text "Błąd serwera: ..." and
    status 500 and leaves everything as it is. *)
Theorem downloads_leave_session w :
  keeps_session (pobierz_csv L P) /\
  keeps_session (pobierz_sav L P) /\
  keeps_random_source (pobierz_csv L P) /\
  files (pobierz_csv L P w).2 = files w /\
  random_source (pobierz_sav L P w).2
  = match session w !! "user_id" with
    | Some user_id =>
        if HAS_PYREADSTAT P then
          match generuj_dane_studenta L user_id 100 (rng w) with
          | (Ok _, _) => (mkstemp P ".sav" (files w) (random_source w)).2
          | (Raise _, _) => random_source w
          end
        else random_source w
    | None => random_source w
    end /\
  (sprawdz L P w).2 = w /\
  (session w !! "user_id" = None ->
   pobierz_csv L P w = sprawdz L P w /\ pobierz_sav L P w = sprawdz L P w) /\
  (HAS_PYREADSTAT P = false -> is_Some (session w !! "user_id") ->
   pobierz_sav L P w = (Ok (TextStatus blad_serwera 500), w)).
Proof.
  split; [apply (keeps_pobierz_csv session); reflexivity|].
  split; [exact keeps_pobierz_sav|].
  split; [apply (keeps_pobierz_csv random_source); reflexivity|].
  split; [apply pobierz_csv_files|].
  split; [apply pobierz_sav_random_source|].
  split; [unfold sprawdz; py_unfold; destruct (url_for P "index" []); reflexivity|].
  split.
  - intros E. unfold pobierz_csv, pobierz_sav, sprawdz, session_contains, mbind, py_bind.
    rewrite E. split; reflexivity.
  - intros Hp [user_id E].
    unfold pobierz_sav, session_contains, mbind, py_bind. rewrite E, Hp. reflexivity.
Qed.

(** X17.  An identifier that holds a line break cannot be downloaded.
    [index] accepts such an identifier from the URL as it is, but werkzeug
    refuses the header that carries the file name: [pobierz_csv] raises, and
    [pobierz_sav] never sends a file. *)
Theorem downloads_refuse_line_break w user_id :
  session w !! "user_id" = Some user_id ->
  existsb is_newline user_id = true ->
  is_ok (pobierz_csv L P w).1 = false /\
  forall data headers, (pobierz_sav L P w).1 <> Ok (Made data headers).
Proof.
  intros E Nl. split.
  - destruct (pobierz_csv_known w user_id E) as (-> & _).
    rewrite download_headers_eq by reflexivity.
    rewrite (filename_newline "dane_" ".csv") by reflexivity. rewrite Nl.
    destruct (generuj_dane_studenta L user_id 100 (rng w)) as [[df|e] s];
      cbn [fst mbind result_bind]; [|reflexivity].
    destruct (to_csv P df); reflexivity.
  - intros data headers.
    destruct (HAS_PYREADSTAT P) eqn:Hp.
    2: { unfold pobierz_sav, session_contains, mbind, py_bind. rewrite E, Hp. discriminate. }
    destruct (generuj_dane_studenta L user_id 100 (rng w)) as [[df|e] s] eqn:G.
    2: { unfold pobierz_sav, session_contains, session_get, with_rng, mbind, py_bind.
         repeat first [rewrite E | rewrite Hp | rewrite G | progress cbn [negb]].
         discriminate. }
    destruct (mkstemp P ".sav" (files w) (random_source w))
      as [[[[fd path]|e] f1] e1] eqn:M.
    2: { unfold pobierz_sav, session_contains, session_get, with_rng, tempfile_mkstemp,
           mbind, py_bind.
         repeat first [rewrite E | rewrite Hp | rewrite G | progress cbn [negb]].
         cbn [files random_source set_rng]. rewrite M. discriminate. }
    destruct (pobierz_sav_cases w user_id df s fd path f1 e1 E Hp G M)
      as [(f2 & f3 & d & _ & _ & _ & Hn & _)|[(e & ->)|(f & e & _ & _ & ->)]];
      [congruence|discriminate|discriminate].
Qed.

End RouteProperties.

(** ** [str.strip] *)

Lemma lstrip_split (s : pystr) :
  exists a, s = a ++ lstrip s /\ forallb isspace a = true.
Proof.
  induction s as [|c s (a & Ha & Hsp)]; [exists []; split; reflexivity|].
  cbn [lstrip]. destruct (isspace c) eqn:E.
  - exists (c :: a). cbn [forallb app]. rewrite E, Hsp. split; [congruence|reflexivity].
  - exists []. split; reflexivity.
Qed.

Lemma lstrip_head (s : pystr) :
  match lstrip s with c :: _ => isspace c = false | [] => True end.
Proof.
  induction s as [|c s IH]; [exact I|]. cbn [lstrip].
  destruct (isspace c) eqn:E; [exact IH|exact E].
Qed.

Lemma lstrip_fixed (s : pystr) :
  match s with c :: _ => isspace c = false | [] => True end -> lstrip s = s.
Proof. destruct s as [|c s]; [reflexivity|]. cbn [lstrip]. intros ->. reflexivity. Qed.

Lemma lstrip_spaces (a s : pystr) :
  forallb isspace a = true -> lstrip (a ++ s) = lstrip s.
Proof.
  induction a as [|c a IH]; [reflexivity|]. cbn [forallb app lstrip].
  intros [-> H]%andb_true_iff. exact (IH H).
Qed.

Lemma lstrip_nil (s : pystr) : lstrip s = [] <-> forallb isspace s = true.
Proof.
  induction s as [|c s IH]; [split; reflexivity|]. cbn [lstrip forallb].
  destruct (isspace c); cbn [andb]; [exact IH|split; discriminate].
Qed.

Lemma lstrip_app (s b : pystr) : lstrip s <> [] -> lstrip (s ++ b) = lstrip s ++ b.
Proof.
  induction s as [|c s IH]; [intros H; exfalso; apply H; reflexivity|].
  cbn [lstrip app]. destruct (isspace c); [exact IH|reflexivity].
Qed.

Lemma forallb_isspace_rev (s : pystr) : forallb isspace (rev s) = forallb isspace s.
Proof.
  induction s as [|c s IH]; [reflexivity|].
  cbn [rev forallb]. rewrite forallb_app, IH. cbn [forallb].
  rewrite andb_true_r. apply andb_comm.
Qed.

Lemma strip_split (s : pystr) :
  exists a b, s = a ++ strip s ++ b /\
    forallb isspace a = true /\ forallb isspace b = true.
Proof.
  unfold strip. destruct (lstrip_split s) as (a & Ha & Hsa).
  destruct (lstrip_split (rev (lstrip s))) as (b & Hb & Hsb).
  exists a, (rev b). split; [|split; [exact Hsa|rewrite forallb_isspace_rev; exact Hsb]].
  rewrite <- rev_app_distr, <- Hb, rev_involutive. exact Ha.
Qed.

Lemma strip_ends (s : pystr) :
  match strip s with c :: _ => isspace c = false | [] => True end /\
  match rev (strip s) with c :: _ => isspace c = false | [] => True end.
Proof.
  split.
  - destruct (strip_split s) as (a & b & Hs & _).
    unfold strip in *. pose proof (lstrip_head s) as Hh.
    destruct (lstrip_split s) as (a' & Ha' & _).
    destruct (lstrip_split (rev (lstrip s))) as (b' & Hb' & _).
    assert (Ht : lstrip s = rev (lstrip (rev (lstrip s))) ++ rev b').
    { rewrite <- rev_app_distr, <- Hb', rev_involutive. reflexivity. }
    destruct (rev (lstrip (rev (lstrip s)))) as [|c t]; [exact I|].
    rewrite Ht in Hh. exact Hh.
  - unfold strip. rewrite rev_involutive. apply lstrip_head.
Qed.

Lemma strip_nil (s : pystr) : strip s = [] <-> forallb isspace s = true.
Proof.
  split.
  - intros H. destruct (strip_split s) as (a & b & Hs & Ha & Hb).
    rewrite H in Hs. cbn [app] in Hs. rewrite Hs, forallb_app, Ha, Hb. reflexivity.
  - intros H. apply lstrip_nil in H. unfold strip. rewrite H. reflexivity.
Qed.

Lemma strip_fixed (s : pystr) :
  match s with c :: _ => isspace c = false | [] => True end ->
  match rev s with c :: _ => isspace c = false | [] => True end ->
  strip s = s.
Proof.
  intros H1 H2. unfold strip. rewrite (lstrip_fixed s H1), (lstrip_fixed _ H2).
  apply rev_involutive.
Qed.

Lemma strip_spaces (a s b : pystr) :
  forallb isspace a = true -> forallb isspace b = true ->
  strip (a ++ s ++ b) = strip s.
Proof.
  intros Ha Hb. unfold strip. rewrite (lstrip_spaces a) by exact Ha.
  destruct (lstrip s) as [|c t] eqn:E.
  - apply lstrip_nil in E.
    assert (H : lstrip (s ++ b) = []).
    { apply lstrip_nil. rewrite forallb_app, E, Hb. reflexivity. }
    rewrite H. reflexivity.
  - rewrite lstrip_app by congruence. rewrite E, rev_app_distr.
    rewrite lstrip_spaces by (rewrite forallb_isspace_rev; exact Hb). reflexivity.
Qed.

(** X18.  The stripping of an identifier set by hand.  [strip] removes
    whitespace at both ends and nothing else: the text is the stripped text
    between two runs of whitespace, and the stripped text neither begins nor
    ends with whitespace.  So the result is empty exactly for a text of
    whitespace only, stripping twice changes nothing more, and identifiers
    that differ only in surrounding whitespace are stored as the same
    identifier. *)
Theorem strip_whitespace (s : pystr) :
  (exists a b, s = a ++ strip s ++ b /\
     forallb isspace a = true /\ forallb isspace b = true) /\
  match strip s with c :: _ => isspace c = false | [] => True end /\
  match rev (strip s) with c :: _ => isspace c = false | [] => True end /\
  (strip s = [] <-> forallb isspace s = true) /\
  strip (strip s) = strip s /\
  (forall a b, forallb isspace a = true -> forallb isspace b = true ->
     strip (a ++ s ++ b) = strip s).
Proof.
  destruct (strip_ends s) as [H1 H2].
  split; [apply strip_split|]. split; [exact H1|]. split; [exact H2|].
  split; [apply strip_nil|]. split; [apply strip_fixed; assumption|].
  intros a b. apply strip_spaces.
Qed.

(** ** The arguments passed on by a redirect *)

Lemma kwargs_from_get (seen : list string) (d : multidict) (key : string) :
  ~ In key seen ->
  multidict_get key (kwargs_from seen d) = multidict_get key d.
Proof.
  revert seen. induction d as [|[k v] d IH]; intros seen Hkey; [reflexivity|].
  cbn [kwargs_from multidict_get].
  destruct (existsb (String.eqb k) seen) eqn:E.
  - apply existsb_exists in E as (x & Hx & Hk). apply String.eqb_eq in Hk. subst x.
    destruct (String.eqb k key) eqn:Ek; [|apply IH; exact Hkey].
    apply String.eqb_eq in Ek. subst k. contradiction.
  - cbn [multidict_get]. destruct (String.eqb k key) eqn:Ek; [reflexivity|].
    apply IH. intros [->|H]; [|contradiction].
    rewrite String.eqb_refl in Ek. discriminate Ek.
Qed.

Lemma kwargs_from_names (seen : list string) (d : multidict) :
  List.NoDup (map fst (kwargs_from seen d)) /\
  forall k, In k (map fst (kwargs_from seen d)) -> ~ In k seen.
Proof.
  revert seen. induction d as [|[k v] d IH]; intros seen.
  - split; [constructor|intros k []].
  - cbn [kwargs_from]. destruct (existsb (String.eqb k) seen) eqn:E; [apply IH|].
    destruct (IH (k :: seen)) as [Hnd Hnot]. cbn [map fst]. split.
    + constructor; [|exact Hnd]. intros Hin. apply (Hnot k Hin). left. reflexivity.
    + intros x [<-|Hin].
      * intros Hseen.
        assert (existsb (String.eqb k) seen = true)
          by (apply existsb_exists; exists k; split; [exact Hseen|apply String.eqb_refl]).
        congruence.
      * intros Hseen. apply (Hnot x Hin). right. exact Hseen.
Qed.

(** X19.  What the redirect after a change by hand passes on.  The
    keyword arguments made from the URL arguments hold each name once, and
    under each name the value that [request.args.get] returns for it: the
    first one.  So the request that follows the redirect names the same
    [user_id] as the POST did. *)
Theorem kwargs_first_values (d : multidict) :
  List.NoDup (map fst (kwargs d)) /\
  forall key, multidict_get key (kwargs d) = multidict_get key d.
Proof.
  split; [apply kwargs_from_names|].
  intros key. apply kwargs_from_get. intros [].
Qed.

(** ** The routes on the reference platform *)

Lemma stub_remove_contract (f : DataFrame -> pystr -> StubPlatform.disk ->
                                result unit * StubPlatform.disk) (b : bool)
    (path : pystr) (d d' : StubPlatform.disk) :
  os_remove (StubPlatform.with_write_sav f b) path d = (Ok tt, d') ->
  os_path_exists (StubPlatform.with_write_sav f b) path d' = false.
Proof.
  cbn [os_remove os_path_exists StubPlatform.with_write_sav].
  destruct (StubPlatform.lookup_file path d); [|discriminate].
  intros [= <-].
  assert (H : StubPlatform.lookup_file path (StubPlatform.remove_file path d) = None).
  { induction d as [|[p data] d IH]; [reflexivity|].
    cbn [StubPlatform.remove_file].
    destruct (bool_decide (p = path)) eqn:E; [exact IH|].
    cbn [StubPlatform.lookup_file]. rewrite E. exact IH. }
  rewrite H. reflexivity.
Qed.

Lemma index_identifier_witness :
  session (index Stub.libs StubPlatform.platform
             (StubPlatform.GET [("user_id"%string, pystr_of_string "ola")])
             (StubPlatform.with_id StubPlatform.platform (pystr_of_string "jan") 7 [])).2
  !! "user_id" = Some (pystr_of_string "ola").
Proof.
  destruct (index_identifier
              (StubPlatform.GET [("user_id"%string, pystr_of_string "ola")])
              (StubPlatform.with_id StubPlatform.platform (pystr_of_string "jan") 7 []))
    as (user_id & [Hid _] & _ & Hs & _).
  - left. discriminate.
  - rewrite Hs, Hid. apply lookup_insert_eq.
Defined.

Lemma index_refresh_witness :
  exists response w1 w3,
    index Stub.libs StubPlatform.platform (StubPlatform.GET [])
      (StubPlatform.fresh StubPlatform.platform 7 []) = (Ok response, w1) /\
    index Stub.libs StubPlatform.platform (StubPlatform.GET [])
      (set_rng (99 : rng_state Stub.libs)
         (set_random_source (5 : entropy StubPlatform.platform) w1))
    = (Ok response, w3).
Proof.
  assert (Hok : is_ok (index Stub.libs StubPlatform.platform (StubPlatform.GET [])
                          (StubPlatform.fresh StubPlatform.platform 7 [])).1 = true)
    by (vm_compute; reflexivity).
  destruct (index Stub.libs StubPlatform.platform (StubPlatform.GET [])
              (StubPlatform.fresh StubPlatform.platform 7 []))
    as [[response|e] w1] eqn:Hrun; [|discriminate Hok].
  destruct (index_refresh (StubPlatform.GET [])
              (StubPlatform.fresh StubPlatform.platform 7 []) response w1
              ltac:(left; discriminate) Hrun
              (StubPlatform.GET [])
              (set_rng (99 : rng_state Stub.libs)
                 (set_random_source (5 : entropy StubPlatform.platform) w1))
              ltac:(left; discriminate) ltac:(left; reflexivity) eq_refl)
    as (w3 & H3 & _).
  exists response, w1, w3. split; [reflexivity|exact H3].
Defined.

Lemma pobierz_csv_matches_index_witness :
  exists response w1,
    index Stub.libs StubPlatform.platform (StubPlatform.GET [])
      (StubPlatform.fresh StubPlatform.platform 7 []) = (Ok response, w1) /\
    exists df,
      (generuj_dane_studenta Stub.libs (pystr_of_string "34556c4c") 100 0).1 = Ok df /\
      (pobierz_csv Stub.libs StubPlatform.platform w1).1
      = Ok (Made (StubPlatform.csv df)
              [("Content-Disposition"%string,
                pystr_of_string "attachment; filename=dane_34556c4c.csv");
               ("Content-type"%string, pystr_of_string "text/csv")]).
Proof.
  assert (Hok : is_ok (index Stub.libs StubPlatform.platform (StubPlatform.GET [])
                          (StubPlatform.fresh StubPlatform.platform 7 [])).1 = true)
    by (vm_compute; reflexivity).
  assert (Hs : session (index Stub.libs StubPlatform.platform (StubPlatform.GET [])
                          (StubPlatform.fresh StubPlatform.platform 7 [])).2
               !! "user_id" = Some (pystr_of_string "34556c4c"))
    by (vm_compute; reflexivity).
  destruct (index Stub.libs StubPlatform.platform (StubPlatform.GET [])
              (StubPlatform.fresh StubPlatform.platform 7 []))
    as [[response|e] w1] eqn:Hrun; [|discriminate Hok].
  cbn [snd] in Hs.
  destruct (pobierz_csv_matches_index (StubPlatform.GET [])
              (StubPlatform.fresh StubPlatform.platform 7 []) response w1
              ltac:(left; discriminate) Hrun)
    as (user_id & df & answers & page & Hid & G & _ & _ & _ & Hcsv).
  rewrite Hs in Hid. injection Hid as <-.
  exists response, w1. split; [reflexivity|]. exists df. split; [apply G|].
  destruct (Hcsv w1 eq_refl) as [-> _]. reflexivity.
Defined.

Lemma index_manual_id_witness :
  session (index Stub.libs StubPlatform.platform
             (StubPlatform.POST [("manual_id"%string, pystr_of_string "  jan ")]
                [("user_id"%string, pystr_of_string "ola")])
             (StubPlatform.fresh StubPlatform.platform 7 [])).2
  !! "user_id" = Some (pystr_of_string "jan").
Proof.
  destruct (index_manual_id
              (StubPlatform.POST [("manual_id"%string, pystr_of_string "  jan ")]
                 [("user_id"%string, pystr_of_string "ola")])
              (StubPlatform.fresh StubPlatform.platform 7 [])
              (pystr_of_string "  jan ") eq_refl eq_refl ltac:(discriminate))
    as (_ & -> & _).
  cbn [session set_session]. rewrite lookup_insert_eq. reflexivity.
Defined.

Lemma pobierz_sav_outcomes_witness :
  exists data headers,
    (pobierz_sav Stub.libs StubPlatform.platform
       (StubPlatform.with_id StubPlatform.platform (pystr_of_string "jan") 7 [])).1
    = Ok (Made data headers).
Proof.
  assert (Hok : is_ok (generuj_dane_studenta Stub.libs (pystr_of_string "jan") 100 0).1
                = true) by (vm_compute; reflexivity).
  assert (Hmade : match (pobierz_sav Stub.libs StubPlatform.platform
                           (StubPlatform.with_id StubPlatform.platform
                              (pystr_of_string "jan") 7 [])).1 with
                  | Ok (Made _ _) => true
                  | _ => false
                  end = true) by (vm_compute; reflexivity).
  destruct (generuj_dane_studenta Stub.libs (pystr_of_string "jan") 100 0)
    as [[df|e] s] eqn:G; [|discriminate Hok].
  destruct (pobierz_sav_outcomes
              (StubPlatform.with_id StubPlatform.platform (pystr_of_string "jan") 7 [])
              (pystr_of_string "jan") df s 3 (pystr_of_string "/tmp/tmp34556c4c.sav")
              [(pystr_of_string "/tmp/tmp34556c4c.sav", [])] 1282168116
              eq_refl eq_refl G eq_refl)
    as [(f2 & f3 & data & _ & _ & _ & _ & H)|[(e & H)|(f & e & _ & _ & H)]].
  - eexists _, _. exact H.
  - rewrite H in Hmade. discriminate Hmade.
  - rewrite H in Hmade. discriminate Hmade.
Defined.

Lemma pobierz_sav_removes_file_witness :
  os_path_exists StubPlatform.platform_write_fails (pystr_of_string "/tmp/tmp34556c4c.sav")
    (files (pobierz_sav Stub.libs StubPlatform.platform_write_fails
              (StubPlatform.with_id StubPlatform.platform_write_fails
                 (pystr_of_string "jan") 7 [])).2)
  = false.
Proof.
  assert (Hok : is_ok (generuj_dane_studenta Stub.libs (pystr_of_string "jan") 100 0).1
                = true) by (vm_compute; reflexivity).
  assert (Hrun : is_ok (pobierz_sav Stub.libs StubPlatform.platform_write_fails
                          (StubPlatform.with_id StubPlatform.platform_write_fails
                             (pystr_of_string "jan") 7 [])).1 = true)
    by (vm_compute; reflexivity).
  destruct (generuj_dane_studenta Stub.libs (pystr_of_string "jan") 100 0)
    as [[df|e] s] eqn:G; [|discriminate Hok].
  destruct (pobierz_sav Stub.libs StubPlatform.platform_write_fails
              (StubPlatform.with_id StubPlatform.platform_write_fails
                 (pystr_of_string "jan") 7 []))
    as [[response|e] w'] eqn:Hsav; [|discriminate Hrun].
  exact (pobierz_sav_removes_file
           (StubPlatform.with_id StubPlatform.platform_write_fails
              (pystr_of_string "jan") 7 [])
           (pystr_of_string "jan") df s 3 (pystr_of_string "/tmp/tmp34556c4c.sav")
           [(pystr_of_string "/tmp/tmp34556c4c.sav", [])] 1282168116 response w'
           eq_refl eq_refl G eq_refl
           (stub_remove_contract _ _ _) Hsav).
Defined.

Lemma downloads_refuse_line_break_witness :
  is_ok (pobierz_csv Stub.libs StubPlatform.platform
           (StubPlatform.with_id StubPlatform.platform [97; 10; 98]%N 7 [])).1 = false.
Proof.
  exact (proj1 (downloads_refuse_line_break
                  (StubPlatform.with_id StubPlatform.platform [97; 10; 98]%N 7 [])
                  [97; 10; 98]%N eq_refl eq_refl)).
Defined.
